(** * The NuMicro flash driver (src/flash/nor/numicro.c)

    A shallow embedding of the Nuvoton NuMicro in-system-programming driver:
    the register unlock and ISP initialisation, the flash command engine,
    the block-write accelerator, the erase and write entry points, the lock
    query and the geometry probe, over an abstract debug host. *)

From Stdlib Require Import ZArith List Lia Bool.
From Stdlib.Init Require Import Byte.
From stdpp Require Import base list strings.
Import ListNotations.

#[local] Open Scope Z_scope.

(** ** Result codes *)

(** Modelled from the spec: the result codes are declared in OpenOCD's
    headers, which are not among the sources of the driver.  These are the
    codes the driver names (not halted, resource unavailable, operation
    failed, alignment, the generic failure used for time-outs, and the
    syntax error of the command layer).  The driver only ever compares
    codes for equality, so their numeric values are not needed;
    [ERROR_OTHER] stands for any further code the debug host may report. *)

Inductive retval : Type :=
| ERROR_OK
| ERROR_FAIL
| ERROR_TARGET_NOT_HALTED
| ERROR_TARGET_RESOURCE_NOT_AVAILABLE
| ERROR_FLASH_OPERATION_FAILED
| ERROR_FLASH_DST_BREAKS_ALIGNMENT
| ERROR_COMMAND_SYNTAX_ERROR
| ERROR_OTHER (code : Z).

#[global] Instance retval_eq_dec : EqDecision retval.
Proof. solve_decision. Defined.

Definition is_ok (r : retval) : bool :=
  match r with ERROR_OK => true | _ => false end.

Definition is_resource_not_available (r : retval) : bool :=
  match r with ERROR_TARGET_RESOURCE_NOT_AVAILABLE => true | _ => false end.

(** ** Register locations and bit masks *)

Definition NUMICRO_SYS_BASE : Z := 0x50000000.
Definition NUMICRO_SYS_WRPROT : Z := 0x50000100.
Definition NUMICRO_SYSCLK_AHBCLK : Z := 0x50000204.

Definition NUMICRO_FLASH_ISPCON : Z := 0x5000C000.
Definition NUMICRO_FLASH_ISPADR : Z := 0x5000C004.
Definition NUMICRO_FLASH_ISPDAT : Z := 0x5000C008.
Definition NUMICRO_FLASH_ISPCMD : Z := 0x5000C00C.
Definition NUMICRO_FLASH_ISPTRG : Z := 0x5000C010.
Definition NUMICRO_FLASH_CHEAT : Z := 0x5000C01C.

Definition NUMICRO_APROM_BASE : Z := 0x00000000.
Definition NUMICRO_DATA_BASE : Z := 0x0001F000.
Definition NUMICRO_LDROM_BASE : Z := 0x00100000.
Definition NUMICRO_CONFIG_BASE : Z := 0x00300000.

Definition NUMICRO_CONFIG0 : Z := 0x5000C000.
Definition NUMICRO_CONFIG1 : Z := 0x5000C004.

Definition AHBCLK_ISP_EN : Z := Z.shiftl 1 2.
Definition AHBCLK_SRAM_EN : Z := Z.shiftl 1 4.
Definition AHBCLK_TICK_EN : Z := Z.shiftl 1 5.

Definition ISPCON_ISPEN : Z := Z.shiftl 1 0.
Definition ISPCON_APUEN : Z := Z.shiftl 1 3.
Definition ISPCON_CFGUEN : Z := Z.shiftl 1 4.
Definition ISPCON_LDUEN : Z := Z.shiftl 1 5.
Definition ISPCON_ISPFF : Z := Z.shiftl 1 6.

Definition CONFIG0_LOCK_MASK : Z := Z.shiftl 1 1.

Definition ISPCMD_READ : Z := 0x00.
Definition ISPCMD_WRITE : Z := 0x21.
Definition ISPCMD_ERASE : Z := 0x22.
Definition ISPCMD_CHIPERASE : Z := 0x26.
Definition ISPTRG_ISPGO : Z := Z.shiftl 1 0.

Definition REG_KEY1 : Z := 0x59.
Definition REG_KEY2 : Z := 0x16.
Definition REG_KEY3 : Z := 0x88.

Definition NUMICRO_PAGESIZE : Z := 512.

(** Truncation of a value to [uint32_t]. *)
Definition u32 (x : Z) : Z := x mod 2 ^ 32.

(** ** Data model *)

Record numicro_flash_bank_type : Type := {
  fb_base : Z;
  fb_size : Z
}.

Record numicro_cpu_type : Type := {
  partname : string;
  partid : Z;
  n_banks : Z;
  cpu_bank : list numicro_flash_bank_type
}.

(** Modelled from the spec: the target, its working areas and the generic
    bank and sector records are declared in OpenOCD's headers; the records
    below hold the members the driver reads or writes. *)
Inductive target_state : Type :=
| TARGET_UNKNOWN
| TARGET_RUNNING
| TARGET_HALTED
| TARGET_RESET
| TARGET_DEBUG_RUNNING.

Definition is_halted (st : target_state) : bool :=
  match st with TARGET_HALTED => true | _ => false end.

Record target : Type := {
  state : target_state;
  working_area_size : Z
}.

Record working_area : Type := {
  wa_address : Z;
  wa_size : Z
}.

#[global] Instance working_area_eq_dec : EqDecision working_area.
Proof. solve_decision. Defined.

(** A sector: its offset in the bank, its size, the erased state (-1
    unknown, 0 not erased, 1 erased) and the protected flag. *)
Record flash_sector : Type := {
  sec_offset : Z;
  sec_size : Z;
  sec_is_erased : Z;
  sec_is_protected : Z
}.

(** Private bank information for NuMicro.  The [write_algorithm] member of
    the C struct is never read or written by the driver and is left out. *)
Record numicro_flash_bank : Type := {
  probed : bool;
  cpu : option numicro_cpu_type
}.

(** The C bank holds a [sectors] pointer together with [num_sectors]; the
    list carries its own length. *)
Record flash_bank : Type := {
  bank_target : target;
  bank_base : Z;
  bank_size : Z;
  bank_sectors : list flash_sector;
  bank_driver_priv : numicro_flash_bank
}.

Definition num_sectors (b : flash_bank) : Z := Z.of_nat (length (bank_sectors b)).

(** ** The debug host

    Everything the driver asks of the target goes through the functions
    below; [H] is the state of the target and of the debug link.  A read
    reports the result code and the value left in the destination
    variable. *)

Class Host (H : Type) : Type := {
  host_read_u32 : H -> Z -> (retval * Z) * H;
  host_write_u32 : H -> Z -> Z -> retval * H;
  host_write_memory : H -> Z -> Z -> Z -> list byte -> retval * H;
  host_write_buffer : H -> Z -> Z -> list byte -> retval * H;
  host_alloc_working_area : H -> Z -> (retval * working_area) * H;
  host_free_working_area : H -> working_area -> H;
  host_run_algorithm : H -> list Z -> Z -> Z -> Z -> retval * H;
  host_busy_sleep : H -> Z -> H
}.

(** What the driver did to the target, in order. *)
Inductive event : Type :=
| EvReadU32 (addr : Z) (r : retval) (value : Z)
| EvWriteU32 (addr value : Z) (r : retval)
| EvWriteMemory (addr size count : Z) (data : list byte) (r : retval)
| EvWriteBuffer (addr size : Z) (data : list byte) (r : retval)
| EvAlloc (size : Z) (r : retval) (area : working_area)
| EvFree (area : working_area)
| EvRunAlgorithm (params : list Z) (entry exit timeout_ms : Z) (r : retval)
| EvSleep (ms : Z).

(** The working areas that are allocated and not yet freed after a run of
    events, starting from the areas [l]. *)
Fixpoint remove_area (area : working_area) (l : list working_area)
    : list working_area :=
  match l with
  | [] => []
  | a :: l' => if decide (a = area) then l' else a :: remove_area area l'
  end.

Definition live_step (l : list working_area) (e : event) : list working_area :=
  match e with
  | EvAlloc _ ERROR_OK area => area :: l
  | EvFree area => remove_area area l
  | _ => l
  end.

Definition live_areas (l : list working_area) (evs : list event)
    : list working_area :=
  fold_left live_step evs l.

(** NuMicro Program-LongWord Microcodes. *)
Definition numicro_flash_write_code : list byte :=
  [ x04; x1c; x00; x23; x0d; x1a; x67; x19; x93; x42; x0c; xd0;
    x08; x4e; x37; x60; x80; xcc; x08; x4d; x2f; x60;
    x08; x4d; x01; x26; x2e; x60;
    x2f; x68; xff; x07; xfc; xd4;
    x01; x33; xee; xe7;
    x05; x4b; x18; x68; x40; x21; x08; x40;
    x00; xbe;
    x04; xc0; x00; x50;
    x08; xc0; x00; x50;
    x10; xc0; x00; x50;
    x00; xc0; x00; x50 ].

Definition sizeof_numicro_flash_write_code : Z :=
  Z.of_nat (length numicro_flash_write_code).

(** ** The part catalog *)

(** If DataFlash size equals zero, it means the actual size depends on
    config settings. *)
Definition NUMICRO_BANKS_GENERAL (aprom_size data_size ldrom_size config_size : Z)
    : Z * list numicro_flash_bank_type :=
  (4, [ {| fb_base := NUMICRO_APROM_BASE; fb_size := aprom_size |};
        {| fb_base := NUMICRO_DATA_BASE; fb_size := data_size |};
        {| fb_base := NUMICRO_LDROM_BASE; fb_size := ldrom_size |};
        {| fb_base := NUMICRO_CONFIG_BASE; fb_size := config_size |} ]).

Definition PART (name : string) (id : Z)
    (banks : Z * list numicro_flash_bank_type) : numicro_cpu_type :=
  {| partname := name; partid := id; n_banks := fst banks; cpu_bank := snd banks |}.

Definition numicro_parts : list numicro_cpu_type := [
  (* PART NO, PART ID, Banks *)
  (* M051AN *)
  PART "M052LAN" 0x00005200 (NUMICRO_BANKS_GENERAL (8 * 1024) (4 * 1024) (4 * 1024) 4);
  PART "M054LAN" 0x00005400 (NUMICRO_BANKS_GENERAL (16 * 1024) (4 * 1024) (4 * 1024) 4);
  PART "M058LAN" 0x00005800 (NUMICRO_BANKS_GENERAL (32 * 1024) (4 * 1024) (4 * 1024) 4);
  PART "M0516LAN" 0x00005a00 (NUMICRO_BANKS_GENERAL (64 * 1024) (4 * 1024) (4 * 1024) 4);
  PART "M052ZAN" 0x00005203 (NUMICRO_BANKS_GENERAL (8 * 1024) (4 * 1024) (4 * 1024) 4);
  PART "M054ZAN" 0x00005403 (NUMICRO_BANKS_GENERAL (16 * 1024) (4 * 1024) (4 * 1024) 4);
  PART "M058ZAN" 0x00005803 (NUMICRO_BANKS_GENERAL (32 * 1024) (4 * 1024) (4 * 1024) 4);
  PART "M0516ZAN" 0x00005a03 (NUMICRO_BANKS_GENERAL (64 * 1024) (4 * 1024) (4 * 1024) 4);
  (* M051BN *)
  PART "M052LBN" 0x10005200 (NUMICRO_BANKS_GENERAL (8 * 1024) (4 * 1024) (4 * 1024) 4);
  PART "M054LBN" 0x10005400 (NUMICRO_BANKS_GENERAL (16 * 1024) (4 * 1024) (4 * 1024) 4);
  PART "M058LBN" 0x10005800 (NUMICRO_BANKS_GENERAL (32 * 1024) (4 * 1024) (4 * 1024) 4);
  PART "M0516LBN" 0x10005a00 (NUMICRO_BANKS_GENERAL (64 * 1024) (4 * 1024) (4 * 1024) 4);
  PART "M052ZBN" 0x10005203 (NUMICRO_BANKS_GENERAL (8 * 1024) (4 * 1024) (4 * 1024) 4);
  PART "M054ZBN" 0x10005403 (NUMICRO_BANKS_GENERAL (16 * 1024) (4 * 1024) (4 * 1024) 4);
  PART "M058ZBN" 0x10005803 (NUMICRO_BANKS_GENERAL (32 * 1024) (4 * 1024) (4 * 1024) 4);
  PART "M0516ZBN" 0x10005a03 (NUMICRO_BANKS_GENERAL (64 * 1024) (4 * 1024) (4 * 1024) 4);
  (* M051DN *)
  PART "M0516LDN" 0x20005a00 (NUMICRO_BANKS_GENERAL (64 * 1024) (4 * 1024) (4 * 1024) 4);
  PART "M0516ZDN" 0x20005a03 (NUMICRO_BANKS_GENERAL (64 * 1024) (4 * 1024) (4 * 1024) 4);
  PART "M052LDN" 0x20005200 (NUMICRO_BANKS_GENERAL (8 * 1024) (4 * 1024) (4 * 1024) 4);
  PART "M052ZDN" 0x20005203 (NUMICRO_BANKS_GENERAL (8 * 1024) (4 * 1024) (4 * 1024) 4);
  PART "M054LDN" 0x20005400 (NUMICRO_BANKS_GENERAL (16 * 1024) (4 * 1024) (4 * 1024) 4);
  PART "M054ZDN" 0x20005403 (NUMICRO_BANKS_GENERAL (16 * 1024) (4 * 1024) (4 * 1024) 4);
  PART "M058LDN" 0x20005800 (NUMICRO_BANKS_GENERAL (32 * 1024) (4 * 1024) (4 * 1024) 4);
  PART "M058ZDN" 0x20005803 (NUMICRO_BANKS_GENERAL (32 * 1024) (4 * 1024) (4 * 1024) 4);
  (* M051DE *)
  PART "M0516LDE" 0x30005a00 (NUMICRO_BANKS_GENERAL (64 * 1024) (4 * 1024) (4 * 1024) 4);
  PART "M0516ZDE" 0x30005a03 (NUMICRO_BANKS_GENERAL (64 * 1024) (4 * 1024) (4 * 1024) 4);
  PART "M052LDE" 0x30005200 (NUMICRO_BANKS_GENERAL (8 * 1024) (4 * 1024) (4 * 1024) 4);
  PART "M052ZDE" 0x30005203 (NUMICRO_BANKS_GENERAL (8 * 1024) (4 * 1024) (4 * 1024) 4);
  PART "M054LDE" 0x30005400 (NUMICRO_BANKS_GENERAL (16 * 1024) (4 * 1024) (4 * 1024) 4);
  PART "M054ZDE" 0x30005403 (NUMICRO_BANKS_GENERAL (16 * 1024) (4 * 1024) (4 * 1024) 4);
  PART "M058LDE" 0x30005800 (NUMICRO_BANKS_GENERAL (32 * 1024) (4 * 1024) (4 * 1024) 4);
  PART "M058ZDE" 0x30005803 (NUMICRO_BANKS_GENERAL (32 * 1024) (4 * 1024) (4 * 1024) 4);
  (* M0518 *)
  PART "M0518LC2AE" 0x10051803 (NUMICRO_BANKS_GENERAL (32 * 1024) (4 * 1024) (4 * 1024) 8);
  PART "M0518LD2AE" 0x10051800 (NUMICRO_BANKS_GENERAL (64 * 1024) (4 * 1024) (4 * 1024) 8);
  PART "M0518SC2AE" 0x10051813 (NUMICRO_BANKS_GENERAL (32 * 1024) (4 * 1024) (4 * 1024) 8);
  PART "M0518SD2AE" 0x10051810 (NUMICRO_BANKS_GENERAL (64 * 1024) (4 * 1024) (4 * 1024) 8);
  (* M0519 *)
  PART "M0519LD3AE" 0x00051902 (NUMICRO_BANKS_GENERAL (64 * 1024) (4 * 1024) (8 * 1024) 8);
  PART "M0519LE3AE" 0x00051900 (NUMICRO_BANKS_GENERAL (128 * 1024) (0 * 1024) (8 * 1024) 8);
  PART "M0519SD3AE" 0x00051922 (NUMICRO_BANKS_GENERAL (64 * 1024) (4 * 1024) (8 * 1024) 8);
  PART "M0519SE3AE" 0x00051920 (NUMICRO_BANKS_GENERAL (128 * 1024) (0 * 1024) (8 * 1024) 8);
  PART "M0519VE3AE" 0x00051930 (NUMICRO_BANKS_GENERAL (128 * 1024) (0 * 1024) (8 * 1024) 8);
  (* M058S *)
  PART "M058SFAN" 0x00005818 (NUMICRO_BANKS_GENERAL (32 * 1024) (4 * 1024) (4 * 1024) 8);
  PART "M058SLAN" 0x00005810 (NUMICRO_BANKS_GENERAL (32 * 1024) (4 * 1024) (4 * 1024) 8);
  PART "M058SSAN" 0x00005816 (NUMICRO_BANKS_GENERAL (32 * 1024) (4 * 1024) (4 * 1024) 8);
  PART "M058SZAN" 0x00005813 (NUMICRO_BANKS_GENERAL (32 * 1024) (4 * 1024) (4 * 1024) 8);
  (* MINI51AN *)
  PART "MINI51LAN" 0x00205100 (NUMICRO_BANKS_GENERAL (4 * 1024) (0 * 1024) (2 * 1024) 8);
  PART "MINI51TAN" 0x00205104 (NUMICRO_BANKS_GENERAL (4 * 1024) (0 * 1024) (2 * 1024) 8);
  PART "MINI51ZAN" 0x00205103 (NUMICRO_BANKS_GENERAL (4 * 1024) (0 * 1024) (2 * 1024) 8);
  PART "MINI52LAN" 0x00205200 (NUMICRO_BANKS_GENERAL (8 * 1024) (0 * 1024) (2 * 1024) 8);
  PART "MINI52TAN" 0x00205204 (NUMICRO_BANKS_GENERAL (8 * 1024) (0 * 1024) (2 * 1024) 8);
  PART "MINI52ZAN" 0x00205203 (NUMICRO_BANKS_GENERAL (8 * 1024) (0 * 1024) (2 * 1024) 8);
  PART "MINI54LAN" 0x00205400 (NUMICRO_BANKS_GENERAL (16 * 1024) (0 * 1024) (2 * 1024) 8);
  PART "MINI54TAN" 0x00205404 (NUMICRO_BANKS_GENERAL (16 * 1024) (0 * 1024) (2 * 1024) 8);
  PART "MINI54ZAN" 0x00205403 (NUMICRO_BANKS_GENERAL (16 * 1024) (0 * 1024) (2 * 1024) 8);
  (* MINI51DE *)
  PART "MINI51FDE" 0x20205105 (NUMICRO_BANKS_GENERAL (4 * 1024) (0 * 1024) (2 * 1024) 8);
  PART "MINI51LDE" 0x20205100 (NUMICRO_BANKS_GENERAL (4 * 1024) (0 * 1024) (2 * 1024) 8);
  PART "MINI51TDE" 0x20205104 (NUMICRO_BANKS_GENERAL (4 * 1024) (0 * 1024) (2 * 1024) 8);
  PART "MINI51ZDE" 0x20205103 (NUMICRO_BANKS_GENERAL (4 * 1024) (0 * 1024) (2 * 1024) 8);
  PART "MINI52FDE" 0x20205205 (NUMICRO_BANKS_GENERAL (8 * 1024) (0 * 1024) (2 * 1024) 8);
  PART "MINI52LDE" 0x20205200 (NUMICRO_BANKS_GENERAL (8 * 1024) (0 * 1024) (2 * 1024) 8);
  PART "MINI52TDE" 0x20205204 (NUMICRO_BANKS_GENERAL (8 * 1024) (0 * 1024) (2 * 1024) 8);
  PART "MINI52ZDE" 0x20205203 (NUMICRO_BANKS_GENERAL (8 * 1024) (0 * 1024) (2 * 1024) 8);
  PART "MINI54FDE" 0x20205405 (NUMICRO_BANKS_GENERAL (16 * 1024) (0 * 1024) (2 * 1024) 8);
  PART "MINI54LDE" 0x20205400 (NUMICRO_BANKS_GENERAL (16 * 1024) (0 * 1024) (2 * 1024) 8);
  PART "MINI54TDE" 0x20205404 (NUMICRO_BANKS_GENERAL (16 * 1024) (0 * 1024) (2 * 1024) 8);
  PART "MINI54ZDE" 0x20205403 (NUMICRO_BANKS_GENERAL (16 * 1024) (0 * 1024) (2 * 1024) 8);
  (* MINI55 *)
  PART "MINI55LDE" 0x00505500 (NUMICRO_BANKS_GENERAL (35 * 512) (0 * 1024) (2 * 1024) 8);
  PART "MINI55ZDE" 0x00505503 (NUMICRO_BANKS_GENERAL (35 * 512) (0 * 1024) (2 * 1024) 8);
  (* MINI58 *)
  PART "MINI58FDE" 0x00a05805 (NUMICRO_BANKS_GENERAL (32 * 1024) (0 * 1024) (5 * 512) 8);
  PART "MINI58LDE" 0x00a05800 (NUMICRO_BANKS_GENERAL (32 * 1024) (0 * 1024) (5 * 512) 8);
  PART "MINI58TDE" 0x00a05804 (NUMICRO_BANKS_GENERAL (32 * 1024) (0 * 1024) (5 * 512) 8);
  PART "MINI58ZDE" 0x00a05803 (NUMICRO_BANKS_GENERAL (32 * 1024) (0 * 1024) (5 * 512) 8);
  (* NANO100AN *)
  PART "NANO100LC2AN" 0x00110025 (NUMICRO_BANKS_GENERAL (32 * 1024) (0 * 1024) (4 * 1024) 8);
  PART "NANO100LD2AN" 0x00110019 (NUMICRO_BANKS_GENERAL (64 * 1024) (0 * 1024) (4 * 1024) 8);
  PART "NANO100LD3AN" 0x00110018 (NUMICRO_BANKS_GENERAL (64 * 1024) (0 * 1024) (4 * 1024) 8);
  PART "NANO100SC2AN" 0x00110023 (NUMICRO_BANKS_GENERAL (32 * 1024) (0 * 1024) (4 * 1024) 8);
  PART "NANO100SD2AN" 0x00110016 (NUMICRO_BANKS_GENERAL (64 * 1024) (0 * 1024) (4 * 1024) 8);
  PART "NANO100SD3AN" 0x00110015 (NUMICRO_BANKS_GENERAL (64 * 1024) (0 * 1024) (4 * 1024) 8);
  PART "NANO100VD2AN" 0x00110013 (NUMICRO_BANKS_GENERAL (64 * 1024) (0 * 1024) (4 * 1024) 8);
  PART "NANO100VD3AN" 0x00110012 (NUMICRO_BANKS_GENERAL (64 * 1024) (0 * 1024) (4 * 1024) 8);
  PART "NANO100ZC2AN" 0x00110029 (NUMICRO_BANKS_GENERAL (32 * 1024) (0 * 1024) (4 * 1024) 8);
  PART "NANO100ZD2AN" 0x00110028 (NUMICRO_BANKS_GENERAL (64 * 1024) (0 * 1024) (4 * 1024) 8);
  PART "NANO100ZD3AN" 0x00110027 (NUMICRO_BANKS_GENERAL (64 * 1024) (0 * 1024) (4 * 1024) 8);
  PART "NANO120LC2AN" 0x00112025 (NUMICRO_BANKS_GENERAL (32 * 1024) (0 * 1024) (4 * 1024) 8);
  PART "NANO120LD2AN" 0x00112019 (NUMICRO_BANKS_GENERAL (64 * 1024) (0 * 1024) (4 * 1024) 8);
  PART "NANO120LD3AN" 0x00112018 (NUMICRO_BANKS_GENERAL (64 * 1024) (0 * 1024) (4 * 1024) 8);
  PART "NANO120SC2AN" 0x00112023 (NUMICRO_BANKS_GENERAL (32 * 1024) (0 * 1024) (4 * 1024) 8);
  PART "NANO120SD2AN" 0x00112016 (NUMICRO_BANKS_GENERAL (64 * 1024) (0 * 1024) (4 * 1024) 8);
  PART "NANO120SD3AN" 0x00112015 (NUMICRO_BANKS_GENERAL (64 * 1024) (0 * 1024) (4 * 1024) 8);
  PART "NANO120VD2AN" 0x00112013 (NUMICRO_BANKS_GENERAL (64 * 1024) (0 * 1024) (4 * 1024) 8);
  PART "NANO120VD3AN" 0x00112012 (NUMICRO_BANKS_GENERAL (64 * 1024) (0 * 1024) (4 * 1024) 8);
  PART "NANO120ZC2AN" 0x00112029 (NUMICRO_BANKS_GENERAL (32 * 1024) (0 * 1024) (4 * 1024) 8);
  PART "NANO120ZD2AN" 0x00112028 (NUMICRO_BANKS_GENERAL (64 * 1024) (0 * 1024) (4 * 1024) 8);
  PART "NANO120ZD3AN" 0x00112027 (NUMICRO_BANKS_GENERAL (64 * 1024) (0 * 1024) (4 * 1024) 8);
  (* NANO100BN *)
  PART "NANO100KC2BN" 0x00110040 (NUMICRO_BANKS_GENERAL (64 * 1024) (0 * 1024) (4 * 1024) 8);
  PART "NANO100KD2BN" 0x00110039 (NUMICRO_BANKS_GENERAL (64 * 1024) (0 * 1024) (4 * 1024) 8);
  PART "NANO100KD3BN" 0x00110038 (NUMICRO_BANKS_GENERAL (64 * 1024) (0 * 1024) (4 * 1024) 8);
  PART "NANO100KE3BN" 0x00110030 (NUMICRO_BANKS_GENERAL (123 * 1024) (0 * 1024) (4 * 1024) 8);
  PART "NANO100LC2BN" 0x00110043 (NUMICRO_BANKS_GENERAL (32 * 1024) (0 * 1024) (4 * 1024) 8);
  PART "NANO100LD2BN" 0x0011003f (NUMICRO_BANKS_GENERAL (64 * 1024) (0 * 1024) (4 * 1024) 8);
  PART "NANO100LD3BN" 0x0011003e (NUMICRO_BANKS_GENERAL (64 * 1024) (0 * 1024) (4 * 1024) 8);
  PART "NANO100LE3BN" 0x00110036 (NUMICRO_BANKS_GENERAL (123 * 1024) (0 * 1024) (4 * 1024) 8);
  PART "NANO100ND2BN" 0x00110046 (NUMICRO_BANKS_GENERAL (64 * 1024) (0 * 1024) (4 * 1024) 8);
  PART "NANO100ND3BN" 0x00110045 (NUMICRO_BANKS_GENERAL (64 * 1024) (0 * 1024) (4 * 1024) 8);
  PART "NANO100NE3BN" 0x00110044 (NUMICRO_BANKS_GENERAL (123 * 1024) (0 * 1024) (4 * 1024) 8);
  PART "NANO100SC2BN" 0x00110042 (NUMICRO_BANKS_GENERAL (32 * 1024) (0 * 1024) (4 * 1024) 8);
  PART "NANO100SD2BN" 0x0011003d (NUMICRO_BANKS_GENERAL (64 * 1024) (0 * 1024) (4 * 1024) 8);
  PART "NANO100SD3BN" 0x0011003c (NUMICRO_BANKS_GENERAL (64 * 1024) (0 * 1024) (4 * 1024) 8);
  PART "NANO100SE3BN" 0x00110034 (NUMICRO_BANKS_GENERAL (123 * 1024) (0 * 1024) (4 * 1024) 8);
  PART "NANO110KC2BN" 0x00111040 (NUMICRO_BANKS_GENERAL (32 * 1024) (0 * 1024) (4 * 1024) 8);
  PART "NANO110KD2BN" 0x00111039 (NUMICRO_BANKS_GENERAL (64 * 1024) (0 * 1024) (4 * 1024) 8);
  PART "NANO110KD3BN" 0x00111038 (NUMICRO_BANKS_GENERAL (64 * 1024) (0 * 1024) (4 * 1024) 8);
  PART "NANO110KE3BN" 0x00111030 (NUMICRO_BANKS_GENERAL (123 * 1024) (0 * 1024) (4 * 1024) 8);
  PART "NANO110RC2BN" 0x00111043 (NUMICRO_BANKS_GENERAL (32 * 1024) (0 * 1024) (4 * 1024) 8);
  PART "NANO110RD2BN" 0x00111044 (NUMICRO_BANKS_GENERAL (64 * 1024) (0 * 1024) (4 * 1024) 8);
  PART "NANO110RD3BN" 0x00111045 (NUMICRO_BANKS_GENERAL (64 * 1024) (0 * 1024) (4 * 1024) 8);
  PART "NANO110SC2BN" 0x00111042 (NUMICRO_BANKS_GENERAL (32 * 1024) (0 * 1024) (4 * 1024) 8);
  PART "NANO110SD2BN" 0x0011103d (NUMICRO_BANKS_GENERAL (64 * 1024) (0 * 1024) (4 * 1024) 8);
  PART "NANO110SD3BN" 0x0011103c (NUMICRO_BANKS_GENERAL (64 * 1024) (0 * 1024) (4 * 1024) 8);
  PART "NANO110SE3BN" 0x00111034 (NUMICRO_BANKS_GENERAL (123 * 1024) (0 * 1024) (4 * 1024) 8);
  PART "NANO120KC2BN" 0x00112040 (NUMICRO_BANKS_GENERAL (32 * 1024) (0 * 1024) (4 * 1024) 8);
  PART "NANO120KD2BN" 0x00112039 (NUMICRO_BANKS_GENERAL (64 * 1024) (0 * 1024) (4 * 1024) 8);
  PART "NANO120KD3BN" 0x00112038 (NUMICRO_BANKS_GENERAL (64 * 1024) (0 * 1024) (4 * 1024) 8);
  PART "NANO120KE3BN" 0x00112030 (NUMICRO_BANKS_GENERAL (123 * 1024) (0 * 1024) (4 * 1024) 8);
  PART "NANO120LC2BN" 0x00112043 (NUMICRO_BANKS_GENERAL (32 * 1024) (0 * 1024) (4 * 1024) 8);
  PART "NANO120LD2BN" 0x0011203f (NUMICRO_BANKS_GENERAL (64 * 1024) (0 * 1024) (4 * 1024) 8);
  PART "NANO120LD3BN" 0x0011203e (NUMICRO_BANKS_GENERAL (64 * 1024) (0 * 1024) (4 * 1024) 8);
  PART "NANO120LE3BN" 0x00112036 (NUMICRO_BANKS_GENERAL (123 * 1024) (0 * 1024) (4 * 1024) 8);
  PART "NANO120SC2BN" 0x00112042 (NUMICRO_BANKS_GENERAL (32 * 1024) (0 * 1024) (4 * 1024) 8);
  PART "NANO120SD2BN" 0x0011203d (NUMICRO_BANKS_GENERAL (64 * 1024) (0 * 1024) (4 * 1024) 8);
  PART "NANO120SD3BN" 0x0011203c (NUMICRO_BANKS_GENERAL (64 * 1024) (0 * 1024) (4 * 1024) 8);
  PART "NANO120SE3BN" 0x00112034 (NUMICRO_BANKS_GENERAL (123 * 1024) (0 * 1024) (4 * 1024) 8);
  PART "NANO130KC2BN" 0x00113040 (NUMICRO_BANKS_GENERAL (32 * 1024) (0 * 1024) (4 * 1024) 8);
  PART "NANO130KD2BN" 0x00113039 (NUMICRO_BANKS_GENERAL (64 * 1024) (0 * 1024) (4 * 1024) 8);
  PART "NANO130KD3BN" 0x00113038 (NUMICRO_BANKS_GENERAL (64 * 1024) (0 * 1024) (4 * 1024) 8);
  PART "NANO130KE3BN" 0x00113030 (NUMICRO_BANKS_GENERAL (123 * 1024) (0 * 1024) (4 * 1024) 8);
  PART "NANO130SC2BN" 0x00113042 (NUMICRO_BANKS_GENERAL (32 * 1024) (0 * 1024) (4 * 1024) 8);
  PART "NANO130SD2BN" 0x0011303d (NUMICRO_BANKS_GENERAL (64 * 1024) (0 * 1024) (4 * 1024) 8);
  PART "NANO130SD3BN" 0x0011303c (NUMICRO_BANKS_GENERAL (64 * 1024) (0 * 1024) (4 * 1024) 8);
  PART "NANO130SE3BN" 0x00113034 (NUMICRO_BANKS_GENERAL (123 * 1024) (0 * 1024) (4 * 1024) 8);
  (* NANO103 *)
  PART "NANO103SD3AE" 0x00110301 (NUMICRO_BANKS_GENERAL (64 * 1024) (0 * 1024) (4 * 1024) 8);
  PART "NANO103LD3AE" 0x00110304 (NUMICRO_BANKS_GENERAL (64 * 1024) (0 * 1024) (4 * 1024) 8);
  PART "NANO103ZD3AE" 0x00110307 (NUMICRO_BANKS_GENERAL (64 * 1024) (0 * 1024) (4 * 1024) 8);
  (* NANO112AN *)
  PART "NANO102LB1AN" 0x00110206 (NUMICRO_BANKS_GENERAL (16 * 1024) (0 * 1024) (4 * 1024) 8);
  PART "NANO102LC2AN" 0x00110208 (NUMICRO_BANKS_GENERAL (32 * 1024) (0 * 1024) (4 * 1024) 8);
  PART "NANO102SC2AN" 0x00110212 (NUMICRO_BANKS_GENERAL (32 * 1024) (0 * 1024) (4 * 1024) 8);
  PART "NANO102ZB1AN" 0x00110202 (NUMICRO_BANKS_GENERAL (16 * 1024) (0 * 1024) (4 * 1024) 8);
  PART "NANO102ZC2AN" 0x00110204 (NUMICRO_BANKS_GENERAL (32 * 1024) (0 * 1024) (4 * 1024) 8);
  PART "NANO112LB1AN" 0x00111202 (NUMICRO_BANKS_GENERAL (16 * 1024) (0 * 1024) (4 * 1024) 8);
  PART "NANO112LC2AN" 0x00111204 (NUMICRO_BANKS_GENERAL (32 * 1024) (0 * 1024) (4 * 1024) 8);
  PART "NANO112RB1AN" 0x00111210 (NUMICRO_BANKS_GENERAL (16 * 1024) (0 * 1024) (4 * 1024) 8);
  PART "NANO112RC2AN" 0x00111212 (NUMICRO_BANKS_GENERAL (32 * 1024) (0 * 1024) (4 * 1024) 8);
  PART "NANO112SB1AN" 0x00111206 (NUMICRO_BANKS_GENERAL (16 * 1024) (0 * 1024) (4 * 1024) 8);
  PART "NANO112SC2AN" 0x00111208 (NUMICRO_BANKS_GENERAL (32 * 1024) (0 * 1024) (4 * 1024) 8);
  PART "NANO112VC2AN" 0x00111216 (NUMICRO_BANKS_GENERAL (32 * 1024) (0 * 1024) (4 * 1024) 8);
  (* NUC029AN *)
  PART "NUC029LAN" 0x00295a00 (NUMICRO_BANKS_GENERAL (64 * 1024) (4 * 1024) (4 * 1024) 4);
  PART "NUC029TAN" 0x00295804 (NUMICRO_BANKS_GENERAL (32 * 1024) (4 * 1024) (4 * 1024) 4);
  (* NUC029AE *)
  PART "NUC029FAE" 0x00295415 (NUMICRO_BANKS_GENERAL (16 * 1024) (0 * 1024) (2 * 1024) 8);
  (* NUC100AN *)
  PART "NUC100LD3AN" 0x00010003 (NUMICRO_BANKS_GENERAL (64 * 1024) (4 * 1024) (4 * 1024) 8);
  PART "NUC100LE3AN" 0x00010000 (NUMICRO_BANKS_GENERAL (128 * 1024) (0 * 1024) (4 * 1024) 8);
  PART "NUC100RD3AN" 0x00010012 (NUMICRO_BANKS_GENERAL (64 * 1024) (4 * 1024) (4 * 1024) 8);
  PART "NUC100RE3AN" 0x00010009 (NUMICRO_BANKS_GENERAL (128 * 1024) (0 * 1024) (4 * 1024) 8);
  PART "NUC100VD2AN" 0x00010022 (NUMICRO_BANKS_GENERAL (64 * 1024) (4 * 1024) (4 * 1024) 8);
  PART "NUC100VD3AN" 0x00010021 (NUMICRO_BANKS_GENERAL (64 * 1024) (4 * 1024) (4 * 1024) 8);
  PART "NUC100VE3AN" 0x00100018 (NUMICRO_BANKS_GENERAL (128 * 1024) (0 * 1024) (4 * 1024) 8);
  PART "NUC120LD3AN" 0x00012003 (NUMICRO_BANKS_GENERAL (64 * 1024) (4 * 1024) (4 * 1024) 8);
  PART "NUC120LE3AN" 0x00120000 (NUMICRO_BANKS_GENERAL (128 * 1024) (0 * 1024) (4 * 1024) 8);
  PART "NUC120RD3AN" 0x00012012 (NUMICRO_BANKS_GENERAL (64 * 1024) (4 * 1024) (4 * 1024) 8);
  PART "NUC120RE3AN" 0x00012009 (NUMICRO_BANKS_GENERAL (128 * 1024) (0 * 1024) (4 * 1024) 8);
  PART "NUC120VD2AN" 0x00012022 (NUMICRO_BANKS_GENERAL (64 * 1024) (4 * 1024) (4 * 1024) 8);
  PART "NUC120VD3AN" 0x00012021 (NUMICRO_BANKS_GENERAL (64 * 1024) (4 * 1024) (4 * 1024) 8);
  PART "NUC120VE3AN" 0x00012018 (NUMICRO_BANKS_GENERAL (128 * 1024) (0 * 1024) (4 * 1024) 8);
  (* NUC100BN *)
  PART "NUC100LC1BN" 0x10010008 (NUMICRO_BANKS_GENERAL (32 * 1024) (4 * 1024) (4 * 1024) 8);
  PART "NUC100LD1BN" 0x10010005 (NUMICRO_BANKS_GENERAL (64 * 1024) (4 * 1024) (4 * 1024) 8);
  PART "NUC100LD2BN" 0x10010004 (NUMICRO_BANKS_GENERAL (64 * 1024) (4 * 1024) (4 * 1024) 8);
  PART "NUC100RC1BN" 0x10010017 (NUMICRO_BANKS_GENERAL (32 * 1024) (4 * 1024) (4 * 1024) 8);
  PART "NUC100RD1BN" 0x10010014 (NUMICRO_BANKS_GENERAL (64 * 1024) (4 * 1024) (4 * 1024) 8);
  PART "NUC100RD2BN" 0x10010013 (NUMICRO_BANKS_GENERAL (64 * 1024) (4 * 1024) (4 * 1024) 8);
  PART "NUC120LC1BN" 0x10012008 (NUMICRO_BANKS_GENERAL (32 * 1024) (4 * 1024) (4 * 1024) 8);
  PART "NUC120LD1BN" 0x10012005 (NUMICRO_BANKS_GENERAL (64 * 1024) (4 * 1024) (4 * 1024) 8);
  PART "NUC120LD2BN" 0x10012004 (NUMICRO_BANKS_GENERAL (64 * 1024) (4 * 1024) (4 * 1024) 8);
  PART "NUC120RC1BN" 0x10012017 (NUMICRO_BANKS_GENERAL (32 * 1024) (4 * 1024) (4 * 1024) 8);
  PART "NUC120RD1BN" 0x10012014 (NUMICRO_BANKS_GENERAL (64 * 1024) (4 * 1024) (4 * 1024) 8);
  PART "NUC120RD2BN" 0x10012013 (NUMICRO_BANKS_GENERAL (64 * 1024) (4 * 1024) (4 * 1024) 8);
  (* NUC100CN *)
  PART "NUC130LC1CN" 0x20013008 (NUMICRO_BANKS_GENERAL (32 * 1024) (4 * 1024) (4 * 1024) 8);
  PART "NUC130LD2CN" 0x20013004 (NUMICRO_BANKS_GENERAL (64 * 1024) (4 * 1024) (4 * 1024) 8);
  PART "NUC130LE3CN" 0x20013000 (NUMICRO_BANKS_GENERAL (128 * 1024) (0 * 1024) (4 * 1024) 8);
  PART "NUC130RC1CN" 0x20013017 (NUMICRO_BANKS_GENERAL (32 * 1024) (4 * 1024) (4 * 1024) 8);
  PART "NUC130RD2CN" 0x20013013 (NUMICRO_BANKS_GENERAL (64 * 1024) (4 * 1024) (4 * 1024) 8);
  PART "NUC130RE3CN" 0x20013009 (NUMICRO_BANKS_GENERAL (128 * 1024) (0 * 1024) (4 * 1024) 8);
  PART "NUC130VE3CN" 0x20013018 (NUMICRO_BANKS_GENERAL (128 * 1024) (0 * 1024) (4 * 1024) 8);
  PART "NUC140LC1CN" 0x20014008 (NUMICRO_BANKS_GENERAL (32 * 1024) (4 * 1024) (4 * 1024) 8);
  PART "NUC140LD2CN" 0x20014004 (NUMICRO_BANKS_GENERAL (64 * 1024) (4 * 1024) (4 * 1024) 8);
  PART "NUC140LE3CN" 0x20014000 (NUMICRO_BANKS_GENERAL (128 * 1024) (0 * 1024) (4 * 1024) 8);
  PART "NUC140RC1CN" 0x20014017 (NUMICRO_BANKS_GENERAL (32 * 1024) (4 * 1024) (4 * 1024) 8);
  PART "NUC140RD2CN" 0x20014013 (NUMICRO_BANKS_GENERAL (64 * 1024) (4 * 1024) (4 * 1024) 8);
  PART "NUC140RE3CN" 0x20014009 (NUMICRO_BANKS_GENERAL (128 * 1024) (0 * 1024) (4 * 1024) 8);
  PART "NUC140VE3CN" 0x20014018 (NUMICRO_BANKS_GENERAL (128 * 1024) (0 * 1024) (4 * 1024) 8);
  (* NUC100DN *)
  PART "NUC100LC1DN" 0x30010008 (NUMICRO_BANKS_GENERAL (32 * 1024) (4 * 1024) (4 * 1024) 8);
  PART "NUC100LD1DN" 0x30010005 (NUMICRO_BANKS_GENERAL (64 * 1024) (4 * 1024) (4 * 1024) 8);
  PART "NUC100LD2DN" 0x30010004 (NUMICRO_BANKS_GENERAL (64 * 1024) (4 * 1024) (4 * 1024) 8);
  PART "NUC100LD3DN" 0x30010003 (NUMICRO_BANKS_GENERAL (64 * 1024) (4 * 1024) (4 * 1024) 8);
  PART "NUC100LE3DN" 0x30010000 (NUMICRO_BANKS_GENERAL (128 * 1024) (0 * 1024) (4 * 1024) 8);
  PART "NUC100RC1DN" 0x30010017 (NUMICRO_BANKS_GENERAL (32 * 1024) (4 * 1024) (4 * 1024) 8);
  PART "NUC100RD1DN" 0x30010014 (NUMICRO_BANKS_GENERAL (64 * 1024) (4 * 1024) (4 * 1024) 8);
  PART "NUC100RD2DN" 0x30010013 (NUMICRO_BANKS_GENERAL (64 * 1024) (4 * 1024) (4 * 1024) 8);
  PART "NUC100RD3DN" 0x30010012 (NUMICRO_BANKS_GENERAL (64 * 1024) (4 * 1024) (4 * 1024) 8);
  PART "NUC100RE3DN" 0x30010009 (NUMICRO_BANKS_GENERAL (128 * 1024) (0 * 1024) (4 * 1024) 8);
  PART "NUC100VD2DN" 0x30010022 (NUMICRO_BANKS_GENERAL (64 * 1024) (4 * 1024) (4 * 1024) 8);
  PART "NUC100VD3DN" 0x30010021 (NUMICRO_BANKS_GENERAL (64 * 1024) (4 * 1024) (4 * 1024) 8);
  PART "NUC100VE3DN" 0x30010018 (NUMICRO_BANKS_GENERAL (128 * 1024) (0 * 1024) (4 * 1024) 8);
  PART "NUC120LC1DN" 0x30012008 (NUMICRO_BANKS_GENERAL (32 * 1024) (4 * 1024) (4 * 1024) 8);
  PART "NUC120LD1DN" 0x30012005 (NUMICRO_BANKS_GENERAL (64 * 1024) (4 * 1024) (4 * 1024) 8);
  PART "NUC120LD2DN" 0x30012004 (NUMICRO_BANKS_GENERAL (64 * 1024) (4 * 1024) (4 * 1024) 8);
  PART "NUC120LD3DN" 0x30012003 (NUMICRO_BANKS_GENERAL (64 * 1024) (4 * 1024) (4 * 1024) 8);
  PART "NUC120LE3DN" 0x30012000 (NUMICRO_BANKS_GENERAL (128 * 1024) (0 * 1024) (4 * 1024) 8);
  PART "NUC120RC1DN" 0x30012035 (NUMICRO_BANKS_GENERAL (32 * 1024) (4 * 1024) (4 * 1024) 8);
  PART "NUC120RD1DN" 0x30012032 (NUMICRO_BANKS_GENERAL (64 * 1024) (4 * 1024) (4 * 1024) 8);
  PART "NUC120RD2DN" 0x30012031 (NUMICRO_BANKS_GENERAL (64 * 1024) (4 * 1024) (4 * 1024) 8);
  PART "NUC120RD3DN" 0x30012030 (NUMICRO_BANKS_GENERAL (64 * 1024) (4 * 1024) (4 * 1024) 8);
  PART "NUC120RE3DN" 0x30012027 (NUMICRO_BANKS_GENERAL (128 * 1024) (0 * 1024) (4 * 1024) 8);
  PART "NUC120VD2DN" 0x30012022 (NUMICRO_BANKS_GENERAL (64 * 1024) (4 * 1024) (4 * 1024) 8);
  PART "NUC120VD3DN" 0x30012021 (NUMICRO_BANKS_GENERAL (64 * 1024) (4 * 1024) (4 * 1024) 8);
  PART "NUC120VE3DN" 0x30012018 (NUMICRO_BANKS_GENERAL (128 * 1024) (0 * 1024) (4 * 1024) 8);
  (* NUC121 *)
  PART "NUC121SC2AE" 0x00012105 (NUMICRO_BANKS_GENERAL (32 * 1024) (0 * 1024) (9 * 512) 8);
  PART "NUC121LC2AE" 0x00012125 (NUMICRO_BANKS_GENERAL (32 * 1024) (0 * 1024) (9 * 512) 8);
  PART "NUC121ZC2AE" 0x00012145 (NUMICRO_BANKS_GENERAL (32 * 1024) (0 * 1024) (9 * 512) 8);
  PART "NUC125SC2AE" 0x00012505 (NUMICRO_BANKS_GENERAL (32 * 1024) (0 * 1024) (9 * 512) 8);
  PART "NUC125LC2AE" 0x00012525 (NUMICRO_BANKS_GENERAL (32 * 1024) (0 * 1024) (9 * 512) 8);
  PART "NUC125ZC2AE" 0x00012545 (NUMICRO_BANKS_GENERAL (32 * 1024) (0 * 1024) (9 * 512) 8);
  (* NUC122 *)
  PART "NUC122LC1AN" 0x00012208 (NUMICRO_BANKS_GENERAL (32 * 1024) (4 * 1024) (4 * 1024) 8);
  PART "NUC122LD2AN" 0x00012204 (NUMICRO_BANKS_GENERAL (64 * 1024) (4 * 1024) (4 * 1024) 8);
  PART "NUC122SC1AN" 0x00012226 (NUMICRO_BANKS_GENERAL (32 * 1024) (4 * 1024) (4 * 1024) 8);
  PART "NUC122SD2AN" 0x00012222 (NUMICRO_BANKS_GENERAL (64 * 1024) (4 * 1024) (4 * 1024) 8);
  PART "NUC122ZC1AN" 0x00012235 (NUMICRO_BANKS_GENERAL (32 * 1024) (4 * 1024) (4 * 1024) 8);
  PART "NUC122ZD2AN" 0x00012231 (NUMICRO_BANKS_GENERAL (64 * 1024) (4 * 1024) (4 * 1024) 8);
  (* NUC123AN *)
  PART "NUC123LC2AN1" 0x00012325 (NUMICRO_BANKS_GENERAL (32 * 1024) (4 * 1024) (4 * 1024) 8);
  PART "NUC123LD4AN0" 0x00012335 (NUMICRO_BANKS_GENERAL (64 * 1024) (4 * 1024) (4 * 1024) 8);
  PART "NUC123SC2AN1" 0x00012305 (NUMICRO_BANKS_GENERAL (32 * 1024) (4 * 1024) (4 * 1024) 8);
  PART "NUC123SD4AN0" 0x00012315 (NUMICRO_BANKS_GENERAL (64 * 1024) (4 * 1024) (4 * 1024) 8);
  PART "NUC123ZC2AN1" 0x00012345 (NUMICRO_BANKS_GENERAL (32 * 1024) (4 * 1024) (4 * 1024) 8);
  PART "NUC123ZD4AN0" 0x00012355 (NUMICRO_BANKS_GENERAL (64 * 1024) (4 * 1024) (4 * 1024) 8);
  (* NUC123AE *)
  PART "NUC123LC2AE1" 0x10012325 (NUMICRO_BANKS_GENERAL (32 * 1024) (4 * 1024) (4 * 1024) 8);
  PART "NUC123LD4AE0" 0x10012335 (NUMICRO_BANKS_GENERAL (64 * 1024) (4 * 1024) (4 * 1024) 8);
  PART "NUC123SC2AE1" 0x10012305 (NUMICRO_BANKS_GENERAL (32 * 1024) (4 * 1024) (4 * 1024) 8);
  PART "NUC123SD4AE0" 0x10012315 (NUMICRO_BANKS_GENERAL (64 * 1024) (4 * 1024) (4 * 1024) 8);
  PART "NUC123ZC2AE1" 0x10012345 (NUMICRO_BANKS_GENERAL (32 * 1024) (4 * 1024) (4 * 1024) 8);
  PART "NUC123ZD4AE0" 0x10012355 (NUMICRO_BANKS_GENERAL (64 * 1024) (4 * 1024) (4 * 1024) 8);
  (* NUC131AE *)
  PART "NUC131LC2AE" 0x10013103 (NUMICRO_BANKS_GENERAL (32 * 1024) (4 * 1024) (4 * 1024) 8);
  PART "NUC131LD2AE" 0x10013100 (NUMICRO_BANKS_GENERAL (64 * 1024) (4 * 1024) (4 * 1024) 8);
  PART "NUC131SC2AE" 0x10013113 (NUMICRO_BANKS_GENERAL (32 * 1024) (4 * 1024) (4 * 1024) 8);
  PART "NUC131SD2AE" 0x10013110 (NUMICRO_BANKS_GENERAL (64 * 1024) (4 * 1024) (4 * 1024) 8);
  (* NUC200/220AN *)
  PART "NUC200LC2AN" 0x00020007 (NUMICRO_BANKS_GENERAL (32 * 1024) (4 * 1024) (4 * 1024) 8);
  PART "NUC200LD2AN" 0x00020004 (NUMICRO_BANKS_GENERAL (64 * 1024) (4 * 1024) (4 * 1024) 8);
  PART "NUC200LE3AN" 0x00020000 (NUMICRO_BANKS_GENERAL (128 * 1024) (0 * 1024) (4 * 1024) 8);
  PART "NUC200SC2AN" 0x00020034 (NUMICRO_BANKS_GENERAL (32 * 1024) (4 * 1024) (4 * 1024) 8);
  PART "NUC200SD2AN" 0x00020031 (NUMICRO_BANKS_GENERAL (64 * 1024) (4 * 1024) (4 * 1024) 8);
  PART "NUC200SE3AN" 0x00020027 (NUMICRO_BANKS_GENERAL (128 * 1024) (0 * 1024) (4 * 1024) 8);
  PART "NUC200VE3AN" 0x00020018 (NUMICRO_BANKS_GENERAL (128 * 1024) (0 * 1024) (4 * 1024) 8);
  PART "NUC220LC2AN" 0x00022007 (NUMICRO_BANKS_GENERAL (32 * 1024) (4 * 1024) (4 * 1024) 8);
  PART "NUC220LD2AN" 0x00022004 (NUMICRO_BANKS_GENERAL (64 * 1024) (4 * 1024) (4 * 1024) 8);
  PART "NUC220LE3AN" 0x00022000 (NUMICRO_BANKS_GENERAL (128 * 1024) (0 * 1024) (4 * 1024) 8);
  PART "NUC220SC2AN" 0x00022034 (NUMICRO_BANKS_GENERAL (32 * 1024) (4 * 1024) (4 * 1024) 8);
  PART "NUC220SD2AN" 0x00022031 (NUMICRO_BANKS_GENERAL (64 * 1024) (4 * 1024) (4 * 1024) 8);
  PART "NUC220SE3AN" 0x00022027 (NUMICRO_BANKS_GENERAL (128 * 1024) (0 * 1024) (4 * 1024) 8);
  PART "NUC220VE3AN" 0x00022018 (NUMICRO_BANKS_GENERAL (128 * 1024) (0 * 1024) (4 * 1024) 8);
  (* NUC230/240AE *)
  PART "NUC230LC2AE" 0x10023007 (NUMICRO_BANKS_GENERAL (32 * 1024) (4 * 1024) (8 * 1024) 8);
  PART "NUC230LD2AE" 0x10023004 (NUMICRO_BANKS_GENERAL (64 * 1024) (4 * 1024) (8 * 1024) 8);
  PART "NUC230LE3AE" 0x10023000 (NUMICRO_BANKS_GENERAL (128 * 1024) (0 * 1024) (8 * 1024) 8);
  PART "NUC230SC2AE" 0x10023034 (NUMICRO_BANKS_GENERAL (32 * 1024) (4 * 1024) (8 * 1024) 8);
  PART "NUC230SD2AE" 0x10023031 (NUMICRO_BANKS_GENERAL (64 * 1024) (4 * 1024) (8 * 1024) 8);
  PART "NUC230SE3AE" 0x10023027 (NUMICRO_BANKS_GENERAL (128 * 1024) (0 * 1024) (8 * 1024) 8);
  PART "NUC230VE3AE" 0x10023018 (NUMICRO_BANKS_GENERAL (128 * 1024) (0 * 1024) (8 * 1024) 8);
  PART "NUC240LC2AE" 0x10024007 (NUMICRO_BANKS_GENERAL (32 * 1024) (4 * 1024) (8 * 1024) 8);
  PART "NUC240LD2AE" 0x10024004 (NUMICRO_BANKS_GENERAL (64 * 1024) (4 * 1024) (8 * 1024) 8);
  PART "NUC240LE3AE" 0x10024000 (NUMICRO_BANKS_GENERAL (128 * 1024) (0 * 1024) (8 * 1024) 8);
  PART "NUC240SC2AE" 0x10024034 (NUMICRO_BANKS_GENERAL (32 * 1024) (4 * 1024) (8 * 1024) 8);
  PART "NUC240SD2AE" 0x10024031 (NUMICRO_BANKS_GENERAL (64 * 1024) (4 * 1024) (8 * 1024) 8);
  PART "NUC240SE3AE" 0x10024027 (NUMICRO_BANKS_GENERAL (128 * 1024) (0 * 1024) (8 * 1024) 8);
  PART "NUC240VE3AE" 0x10024018 (NUMICRO_BANKS_GENERAL (128 * 1024) (0 * 1024) (8 * 1024) 8);
  PART "UNKNOWN" 0x00000000 (NUMICRO_BANKS_GENERAL (128 * 1024) (0 * 1024) (16 * 1024) 8)
].

Section Driver.

Context {H : Type} `{Host H}.

(** The state threaded through the driver: the host, the log of accesses
    and the flash bank object. *)
Record St : Type := {
  hw : H;
  trace : list event;
  bank : flash_bank
}.

Definition with_hw (s : St) (h : H) (e : event) : St :=
  {| hw := h; trace := trace s ++ [e]; bank := bank s |}.

Definition with_bank (s : St) (b : flash_bank) : St :=
  {| hw := hw s; trace := trace s; bank := b |}.

(** A computation either yields a value and a new state, or has no defined
    result ([None]): a failed [assert] or an access outside an array. *)
Definition M (A : Type) : Type := St -> option (A * St).

Definition ret {A : Type} (a : A) : M A := fun s => Some (a, s).

Definition bind {A B : Type} (m : M A) (k : A -> M B) : M B :=
  fun s => match m s with
           | Some (a, s') => k a s'
           | None => None
           end.

Definition undefined {A : Type} : M A := fun _ => None.

Definition get_bank : M flash_bank := fun s => Some (bank s, s).

Definition set_bank (b : flash_bank) : M unit := fun s => Some (tt, with_bank s b).

Definition assert (b : bool) : M unit := if b then ret tt else undefined.

End Driver.

Arguments St H : clear implicits.
Arguments M H A : clear implicits.

Notation "'let*' x ':=' m 'in' k" := (bind m (fun x => k))
  (at level 10, x pattern, m at level 100, k at level 200, only parsing).

(** [retval = m; if (retval != ERROR_OK) return retval; k] *)
Definition check {H : Type} (m : M H retval) (k : M H retval) : M H retval :=
  let* r := m in if is_ok r then k else ret r.

Notation "'check*' m 'in' k" := (check m k)
  (at level 10, m at level 100, k at level 200, only parsing).

Section Primitives.

Context {H : Type} `{Host H}.

Definition target_read_u32 (t : target) (addr : Z) : M H (retval * Z) :=
  fun s =>
    let '((r, v), h) := host_read_u32 (hw s) addr in
    Some ((r, v), with_hw s h (EvReadU32 addr r v)).

Definition target_write_u32 (t : target) (addr value : Z) : M H retval :=
  fun s =>
    let '(r, h) := host_write_u32 (hw s) addr value in
    Some (r, with_hw s h (EvWriteU32 addr value r)).

Definition target_write_memory (t : target) (addr size count : Z)
    (data : list byte) : M H retval :=
  fun s =>
    let '(r, h) := host_write_memory (hw s) addr size count data in
    Some (r, with_hw s h (EvWriteMemory addr size count data r)).

Definition target_write_buffer (t : target) (addr size : Z)
    (data : list byte) : M H retval :=
  fun s =>
    let '(r, h) := host_write_buffer (hw s) addr size data in
    Some (r, with_hw s h (EvWriteBuffer addr size data r)).

Definition target_alloc_working_area (t : target) (size : Z)
    : M H (retval * working_area) :=
  fun s =>
    let '((r, area), h) := host_alloc_working_area (hw s) size in
    Some ((r, area), with_hw s h (EvAlloc size r area)).

Definition target_free_working_area (t : target) (area : working_area)
    : M H unit :=
  fun s =>
    Some (tt, with_hw s (host_free_working_area (hw s) area) (EvFree area)).

Definition target_run_algorithm (t : target) (params : list Z)
    (entry exit timeout_ms : Z) : M H retval :=
  fun s =>
    let '(r, h) := host_run_algorithm (hw s) params entry exit timeout_ms in
    Some (r, with_hw s h (EvRunAlgorithm params entry exit timeout_ms r)).

Definition busy_sleep (ms : Z) : M H unit :=
  fun s => Some (tt, with_hw s (host_busy_sleep (hw s) ms) (EvSleep ms)).

(** ** Private methods *)

Definition numicro_reg_unlock (t : target) : M H retval :=
  let* (retval, is_protected) := target_read_u32 t NUMICRO_SYS_WRPROT in
  if negb (is_ok retval) then ret retval else
  check* (if is_protected =? 0 then
            check* target_write_u32 t NUMICRO_SYS_WRPROT REG_KEY1 in
            check* target_write_u32 t NUMICRO_SYS_WRPROT REG_KEY2 in
            target_write_u32 t NUMICRO_SYS_WRPROT REG_KEY3
          else ret ERROR_OK) in
  let* (retval, is_protected) := target_read_u32 t NUMICRO_SYS_WRPROT in
  if negb (is_ok retval) then ret retval else
  ret ERROR_OK.

Definition numicro_init_isp (t : target) : M H retval :=
  if negb (is_halted (state t)) then ret ERROR_TARGET_NOT_HALTED else
  check* numicro_reg_unlock t in
  let* (retval, reg_stat) := target_read_u32 t NUMICRO_SYSCLK_AHBCLK in
  if negb (is_ok retval) then ret retval else
  let reg_stat :=
    Z.lor reg_stat (Z.lor (Z.lor AHBCLK_ISP_EN AHBCLK_SRAM_EN) AHBCLK_TICK_EN) in
  check* target_write_u32 t NUMICRO_SYSCLK_AHBCLK reg_stat in
  let* (retval, reg_stat) := target_read_u32 t NUMICRO_FLASH_ISPCON in
  if negb (is_ok retval) then ret retval else
  let reg_stat :=
    Z.lor reg_stat
      (Z.lor (Z.lor (Z.lor (Z.lor ISPCON_ISPFF ISPCON_LDUEN) ISPCON_APUEN)
                ISPCON_CFGUEN) ISPCON_ISPEN) in
  check* target_write_u32 t NUMICRO_FLASH_ISPCON reg_stat in
  check* target_write_u32 t NUMICRO_FLASH_CHEAT 1 in
  ret ERROR_OK.

(** The completion poll shared by the command engine, the erase loop and
    the single-word write loop: [timeout] counts down from 100, and
    [timeout-- <= 0] on an unsigned counter holds exactly at zero.
    [done] is the test that leaves the loop. *)
Fixpoint poll_ispgo (t : target) (done : Z -> bool) (timeout : nat)
    : M H retval :=
  let* (retval, status) := target_read_u32 t NUMICRO_FLASH_ISPTRG in
  if negb (is_ok retval) then ret retval else
  if done status then ret ERROR_OK else
  match timeout with
  | O => ret ERROR_FAIL
  | S timeout' => let* _ := busy_sleep 1 in poll_ispgo t done timeout'
  end.

Definition go_clear (status : Z) : bool :=
  Z.land status ISPTRG_ISPGO =? 0.

Definition is_zero (status : Z) : bool := status =? 0.

(** [rdata] is the content of the caller's variable before the call; the
    second component of the result is its content afterwards. *)
Definition numicro_fmc_cmd (t : target) (cmd addr wdata rdata : Z)
    : M H (retval * Z) :=
  let* retval := target_write_u32 t NUMICRO_FLASH_ISPCMD cmd in
  if negb (is_ok retval) then ret (retval, rdata) else
  let* retval := target_write_u32 t NUMICRO_FLASH_ISPDAT wdata in
  if negb (is_ok retval) then ret (retval, rdata) else
  let* retval := target_write_u32 t NUMICRO_FLASH_ISPADR addr in
  if negb (is_ok retval) then ret (retval, rdata) else
  let* retval := target_write_u32 t NUMICRO_FLASH_ISPTRG ISPTRG_ISPGO in
  if negb (is_ok retval) then ret (retval, rdata) else
  let* retval := poll_ispgo t go_clear 100 in
  if negb (is_ok retval) then ret (retval, rdata) else
  let* (retval, value) := target_read_u32 t NUMICRO_FLASH_ISPDAT in
  if negb (is_ok retval) then ret (retval, value) else
  ret (ERROR_OK, value).

(** ** Program LongWord Block Write *)

(** [while (target_alloc_working_area(target, buffer_size, &source) != ERROR_OK)]:
    every round divides [buffer_size] by 4, so [log2 buffer_size] rounds
    are always enough; [rounds] only makes the recursion structural. *)
Fixpoint alloc_source (t : target) (write_algorithm : working_area)
    (rounds : nat) (buffer_size : Z) : M H (retval * (Z * working_area)) :=
  let* (r, source) := target_alloc_working_area t buffer_size in
  if is_ok r then ret (ERROR_OK, (buffer_size, source)) else
  let buffer_size := buffer_size / 4 in
  if buffer_size <=? 256 then
    (* free working area, write algorithm already allocated *)
    let* _ := target_free_working_area t write_algorithm in
    ret (ERROR_TARGET_RESOURCE_NOT_AVAILABLE, (buffer_size, source))
  else
    match rounds with
    | O => undefined
    | S rounds' => alloc_source t write_algorithm rounds' buffer_size
    end.

(** [while (count > 0)]: every round programs at least one word, so
    [count] rounds are always enough.  The result is the value of
    [retval] when the loop is left. *)
Fixpoint writeblock_loop (t : target) (write_algorithm source : working_area)
    (buffer_size : Z) (rounds : nat) (buffer : list byte)
    (address count : Z) (retval0 : retval) : M H retval :=
  if negb (0 <? count) then ret retval0 else
  match rounds with
  | O => undefined
  | S rounds' =>
      let thisrun_count :=
        if buffer_size / 4 <? count then buffer_size / 4 else count in
      let* retval :=
        target_write_buffer t (wa_address source) (u32 (thisrun_count * 4))
          (take (Z.to_nat (u32 (thisrun_count * 4))) buffer) in
      if negb (is_ok retval) then ret retval else
      let* retval :=
        target_run_algorithm t
          [wa_address source; address; thisrun_count]
          (wa_address write_algorithm) 0 100000 in
      if negb (is_ok retval) then ret ERROR_FLASH_OPERATION_FAILED else
      writeblock_loop t write_algorithm source buffer_size rounds'
        (drop (Z.to_nat (u32 (thisrun_count * 4))) buffer)
        (u32 (address + thisrun_count * 4))
        (count - thisrun_count) retval
  end.

Definition numicro_writeblock (buffer : list byte) (offset count : Z)
    : M H retval :=
  let* b := get_bank in
  let t := bank_target b in
  let buffer_size := 1024 in
  let address := u32 (bank_base b + offset) in
  (* Increase buffer_size if needed *)
  let buffer_size :=
    if buffer_size <? working_area_size t / 2
    then working_area_size t / 2 else buffer_size in
  (* check code alignment *)
  if negb (Z.land offset 1 =? 0) then ret ERROR_FLASH_DST_BREAKS_ALIGNMENT else
  (* allocate working area with flash programming code *)
  let* (r, write_algorithm) :=
    target_alloc_working_area t sizeof_numicro_flash_write_code in
  if negb (is_ok r) then ret ERROR_TARGET_RESOURCE_NOT_AVAILABLE else
  let* retval :=
    target_write_buffer t (wa_address write_algorithm)
      sizeof_numicro_flash_write_code numicro_flash_write_code in
  if negb (is_ok retval) then ret retval else
  (* memory buffer *)
  let* (r, (buffer_size, source)) :=
    alloc_source t write_algorithm (Z.to_nat (Z.log2 buffer_size)) buffer_size in
  if negb (is_ok r) then ret r else
  let* retval :=
    writeblock_loop t write_algorithm source buffer_size (Z.to_nat count)
      buffer address count retval in
  let* _ := target_free_working_area t source in
  let* _ := target_free_working_area t write_algorithm in
  ret retval.

(** ** Flash Lock checking - examines the lock bit. *)

Definition set_is_protected (sec : flash_sector) (v : Z) : flash_sector :=
  {| sec_offset := sec_offset sec; sec_size := sec_size sec;
     sec_is_erased := sec_is_erased sec; sec_is_protected := v |}.

Definition set_sectors (b : flash_bank) (l : list flash_sector) : flash_bank :=
  {| bank_target := bank_target b; bank_base := bank_base b;
     bank_size := bank_size b; bank_sectors := l;
     bank_driver_priv := bank_driver_priv b |}.

(** [for (unsigned int i = 0; i < bank->num_sectors; i++)
       bank->sectors[i].is_protected = set;]
    with [n] the number of rounds left. *)
Fixpoint protect_loop (set : Z) (n : nat) (i : nat) : M H unit :=
  match n with
  | O => ret tt
  | S n' =>
      let* b := get_bank in
      match bank_sectors b !! i with
      | None => undefined
      | Some sec =>
          let* _ :=
            set_bank (set_sectors b (<[i := set_is_protected sec set]> (bank_sectors b))) in
          protect_loop set n' (S i)
      end
  end.

(** [config] is the content of the local array [config[2]] on entry, which
    the C code leaves uninitialised. *)
Definition numicro_protect_check (config : Z * Z) : M H retval :=
  let* b := get_bank in
  let t := bank_target b in
  if negb (is_halted (state t)) then ret ERROR_TARGET_NOT_HALTED else
  check* numicro_init_isp t in
  (* Read CONFIG0,CONFIG1 *)
  let* (_, config0) := numicro_fmc_cmd t ISPCMD_READ NUMICRO_CONFIG0 0 (fst config) in
  let* (_, config1) := numicro_fmc_cmd t ISPCMD_READ NUMICRO_CONFIG1 0 (snd config) in
  let set := if Z.land config0 CONFIG0_LOCK_MASK =? 0 then 1 else 0 in
  let* _ := protect_loop set (length (bank_sectors b)) 0%nat in
  ret ERROR_OK.

(** ** Sector erase *)

(** The failure check that ends each erase round and each write. *)
Definition check_ispff (t : target) : M H retval :=
  let* (retval, status) := target_read_u32 t NUMICRO_FLASH_ISPCON in
  if negb (is_ok retval) then ret retval else
  if negb (Z.land status ISPCON_ISPFF =? 0) then
    (* if bit is set, then must write to it to clear it. *)
    target_write_u32 t NUMICRO_FLASH_ISPCON (Z.lor status ISPCON_ISPFF)
  else ret ERROR_OK.

(** [for (unsigned int i = first; i <= last; i++)], with [n] the number of
    rounds left. *)
Fixpoint erase_loop (t : target) (n : nat) (i : Z) : M H retval :=
  match n with
  | O => ret ERROR_OK
  | S n' =>
      let* b := get_bank in
      match bank_sectors b !! Z.to_nat i with
      | None => undefined
      | Some sec =>
          check* target_write_u32 t NUMICRO_FLASH_ISPADR
                   (u32 (bank_base b + sec_offset sec)) in
          check* target_write_u32 t NUMICRO_FLASH_ISPTRG ISPTRG_ISPGO in
          (* wait for busy to clear - check the GO flag *)
          check* poll_ispgo t is_zero 100 in
          (* check for failure *)
          check* check_ispff t in
          erase_loop t n' (i + 1)
      end
  end.

Definition numicro_erase (first last : Z) : M H retval :=
  let* b := get_bank in
  let t := bank_target b in
  if negb (is_halted (state t)) then ret ERROR_TARGET_NOT_HALTED else
  check* numicro_init_isp t in
  check* target_write_u32 t NUMICRO_FLASH_ISPCMD ISPCMD_ERASE in
  erase_loop t (Z.to_nat (last + 1 - first)) first.

(** ** The write routine *)

(** [for (uint32_t i = 0; i < count; i += 4)], with [n] the number of
    rounds left. *)
Fixpoint write_loop (t : target) (buffer : list byte) (offset : Z)
    (n : nat) (i : Z) : M H retval :=
  match n with
  | O => ret ERROR_OK
  | S n' =>
      let* b := get_bank in
      check* target_write_u32 t NUMICRO_FLASH_ISPADR
               (u32 (bank_base b + offset + i)) in
      check* target_write_memory t NUMICRO_FLASH_ISPDAT 4 1
               (take 4 (drop (Z.to_nat i) buffer)) in
      check* target_write_u32 t NUMICRO_FLASH_ISPTRG ISPTRG_ISPGO in
      (* wait for busy to clear - check the GO flag *)
      check* poll_ispgo t is_zero 100 in
      write_loop t buffer offset n' (i + 4)
  end.

Definition numicro_write (buffer : list byte) (offset count : Z)
    : M H retval :=
  let* b := get_bank in
  let t := bank_target b in
  if negb (is_halted (state t)) then ret ERROR_TARGET_NOT_HALTED else
  check* numicro_init_isp t in
  check* target_write_u32 t NUMICRO_FLASH_ISPCMD ISPCMD_WRITE in
  let* _ := assert (offset mod 4 =? 0) in
  let* _ := assert (count mod 4 =? 0) in
  let words_remaining := count / 4 in
  (* try using a block write *)
  let* retval := numicro_writeblock buffer offset words_remaining in
  check* (if is_resource_not_available retval then
            (* if block write failed (no sufficient working area),
               we use normal (slow) single word accesses *)
            write_loop t buffer offset (Z.to_nat (count / 4)) 0
          else ret ERROR_OK) in
  (* check for failure *)
  check* check_ispff t in
  ret ERROR_OK.

(** ** Geometry *)

(** The linear scan of [numicro_parts]. *)
Fixpoint search_parts (part_id : Z) (parts : list numicro_cpu_type)
    : option numicro_cpu_type :=
  match parts with
  | [] => None
  | p :: parts' =>
      if part_id =? partid p then Some p else search_parts part_id parts'
  end.

Definition numicro_get_cpu_type (t : target)
    : M H (retval * option numicro_cpu_type) :=
  (* Read NuMicro PartID *)
  let* (retval, part_id) := target_read_u32 t NUMICRO_SYS_BASE in
  if negb (is_ok retval) then ret (ERROR_FLASH_OPERATION_FAILED, None) else
  match search_parts part_id numicro_parts with
  | Some p => ret (ERROR_OK, Some p)
  | None => ret (ERROR_FAIL, None)
  end.

(** The scan of the first [n_banks] regions of a part. *)
Fixpoint search_banks (base : Z) (banks : list numicro_flash_bank_type)
    : option Z :=
  match banks with
  | [] => None
  | r :: banks' =>
      if base =? fb_base r then Some (fb_size r) else search_banks base banks'
  end.

Definition numicro_get_flash_size (b : flash_bank) (cpu : numicro_cpu_type)
    : retval * Z :=
  match search_banks (bank_base b) (take (Z.to_nat (n_banks cpu)) (cpu_bank cpu)) with
  | Some flash_size => (ERROR_OK, flash_size)
  | None => (ERROR_FLASH_OPERATION_FAILED, 0)
  end.

(** The sector array filled by the probe loop: [num_pages] sectors from
    [offset] on. *)
Fixpoint init_sectors (num_pages : nat) (offset : Z) : list flash_sector :=
  match num_pages with
  | O => []
  | S n =>
      {| sec_offset := offset; sec_size := NUMICRO_PAGESIZE;
         sec_is_erased := -1; sec_is_protected := 0 |}
      :: init_sectors n (offset + NUMICRO_PAGESIZE)
  end.

Definition numicro_probe : M H retval :=
  let* b := get_bank in
  let t := bank_target b in
  let* (retval, cpu) := numicro_get_cpu_type t in
  match is_ok retval, cpu with
  | true, Some cpu =>
      let '(retval, flash_size) := numicro_get_flash_size b cpu in
      if negb (is_ok retval) then ret ERROR_FLASH_OPERATION_FAILED else
      let num_pages := flash_size / NUMICRO_PAGESIZE in
      let* _ :=
        set_bank
          {| bank_target := bank_target b; bank_base := bank_base b;
             bank_size := flash_size;
             bank_sectors := init_sectors (Z.to_nat num_pages) 0;
             bank_driver_priv := {| probed := true; cpu := Some cpu |} |} in
      ret ERROR_OK
  | _, _ => ret ERROR_FLASH_OPERATION_FAILED
  end.

(** Standard approach to autoprobing. *)
Definition numicro_auto_probe : M H retval :=
  let* b := get_bank in
  if probed (bank_driver_priv b) then ret ERROR_OK else numicro_probe.

(** This is the function called in the config file.  [argc] is the number
    of arguments of the bank command.  The private bank information starts
    out zeroed; the write alignment of 4 that the function also sets
    belongs to the flash core and is not modelled. *)
Definition numicro_flash_bank_command (argc : Z) : M H retval :=
  if argc <? 6 then ret ERROR_COMMAND_SYNTAX_ERROR else
  let* b := get_bank in
  let* _ :=
    set_bank
      {| bank_target := bank_target b; bank_base := bank_base b;
         bank_size := bank_size b; bank_sectors := bank_sectors b;
         bank_driver_priv := {| probed := false; cpu := None |} |} in
  ret ERROR_OK.

(** ** The ISP commands

    [argv] holds the command's arguments, [t] is the current target of the
    command context, and [parse_u32] is the number parser behind
    [COMMAND_PARSE_NUMBER(u32, ...)].  [ispdat] and [rdat] are the contents
    of the uninitialised locals that receive the data register. *)

Section Commands.

Variable parse_u32 : string -> retval * Z.

Definition numicro_handle_read_isp_command (argv : list string) (t : target)
    (ispdat : Z) : M H retval :=
  match argv with
  | [arg0] =>
      let '(r, address) := parse_u32 arg0 in
      if negb (is_ok r) then ret r else
      check* numicro_init_isp t in
      let* (retval, ispdat) := numicro_fmc_cmd t ISPCMD_READ address 0 ispdat in
      if negb (is_ok retval) then ret retval else
      ret ERROR_OK
  | _ => ret ERROR_COMMAND_SYNTAX_ERROR
  end.

Definition numicro_handle_write_isp_command (argv : list string) (t : target)
    (rdat : Z) : M H retval :=
  match argv with
  | [arg0; arg1] =>
      let '(r, address) := parse_u32 arg0 in
      if negb (is_ok r) then ret r else
      let '(r, ispdat) := parse_u32 arg1 in
      if negb (is_ok r) then ret r else
      check* numicro_init_isp t in
      let* (retval, rdat) := numicro_fmc_cmd t ISPCMD_WRITE address ispdat rdat in
      if negb (is_ok retval) then ret retval else
      ret ERROR_OK
  | _ => ret ERROR_COMMAND_SYNTAX_ERROR
  end.

Definition numicro_handle_chip_erase_command (argv : list string) (t : target)
    (rdat : Z) : M H retval :=
  match argv with
  | [] =>
      check* numicro_init_isp t in
      let* (retval, rdat) := numicro_fmc_cmd t ISPCMD_CHIPERASE 0 0 rdat in
      if negb (is_ok retval) then ret retval else
      ret ERROR_OK
  | _ => ret ERROR_COMMAND_SYNTAX_ERROR
  end.

End Commands.

End Primitives.

(** * Logs of target accesses *)

(** ** The shape of the logs *)

(** A successful read and a successful write. *)
Definition Rd (addr v : Z) : event := EvReadU32 addr ERROR_OK v.
Definition Wr (addr v : Z) : event := EvWriteU32 addr v ERROR_OK.

(** The log of a successful register unlock: [p] and [p'] are the two
    values read from the protection register. *)
Definition unlock_events (p p' : Z) : list event :=
  Rd NUMICRO_SYS_WRPROT p
  :: (if p =? 0 then
        [Wr NUMICRO_SYS_WRPROT REG_KEY1; Wr NUMICRO_SYS_WRPROT REG_KEY2;
         Wr NUMICRO_SYS_WRPROT REG_KEY3]
      else [])
  ++ [Rd NUMICRO_SYS_WRPROT p'].

(** The log of a successful ISP initialisation: [a] and [c] are the values
    read from the clock and the control register. *)
Definition init_isp_events (p p' a c : Z) : list event :=
  unlock_events p p'
  ++ [Rd NUMICRO_SYSCLK_AHBCLK a;
      Wr NUMICRO_SYSCLK_AHBCLK
        (Z.lor a (Z.lor (Z.lor AHBCLK_ISP_EN AHBCLK_SRAM_EN) AHBCLK_TICK_EN));
      Rd NUMICRO_FLASH_ISPCON c;
      Wr NUMICRO_FLASH_ISPCON
        (Z.lor c (Z.lor (Z.lor (Z.lor (Z.lor ISPCON_ISPFF ISPCON_LDUEN)
                                  ISPCON_APUEN) ISPCON_CFGUEN) ISPCON_ISPEN));
      Wr NUMICRO_FLASH_CHEAT 1].

(** Polls that found the controller busy, each followed by the 1 ms pause. *)
Definition busy_events (busy : list Z) : list event :=
  flat_map (fun st => [Rd NUMICRO_FLASH_ISPTRG st; EvSleep 1]) busy.

(** How a poll loop with [n] retries ends, given the statuses [busy] of
    the polls before the last one, and the result [rlast] and status
    [final] of the last one. *)
Definition poll_outcome (done : Z -> bool) (n : nat) (busy : list Z)
    (rlast : retval) (final : Z) (r : retval) : Prop :=
  (rlast <> ERROR_OK /\ r = rlast) \/
  (rlast = ERROR_OK /\ done final = true /\ r = ERROR_OK) \/
  (rlast = ERROR_OK /\ done final = false /\ length busy = n /\ r = ERROR_FAIL).

(** A poll loop that ran out of retries ends the log: 101 reads of the
    trigger register, none of which satisfied [done]. *)
Definition timed_out (done : Z -> bool) (evs : list event) : Prop :=
  exists pre busy final,
    evs = pre ++ busy_events busy ++ [Rd NUMICRO_FLASH_ISPTRG final] /\
    length busy = 100%nat /\
    Forall (fun st => done st = false) (busy ++ [final]).

(** The four register writes that start a command. *)
Definition fmc_writes (cmd addr wdata : Z) : list event :=
  [Wr NUMICRO_FLASH_ISPCMD cmd; Wr NUMICRO_FLASH_ISPDAT wdata;
   Wr NUMICRO_FLASH_ISPADR addr; Wr NUMICRO_FLASH_ISPTRG ISPTRG_ISPGO].

(** The failure check: the control register reads [st]; when ISPFF is set
    in it the value is written back, with result [r]. *)
Definition ispff_events (st : Z) (r : retval) : list event :=
  Rd NUMICRO_FLASH_ISPCON st
  :: (if Z.land st ISPCON_ISPFF =? 0 then []
      else [EvWriteU32 NUMICRO_FLASH_ISPCON (Z.lor st ISPCON_ISPFF) r]).

(** The sectors [first .. last] of a bank. *)
Definition sector_range (b : flash_bank) (first last : Z) : list flash_sector :=
  take (Z.to_nat (last + 1 - first)) (drop (Z.to_nat first) (bank_sectors b)).

(** One completed erase round on sector [sec]: [busy] are the statuses of
    the polls that found the trigger register non-zero, [st] is the control
    register read by the failure check. *)
Definition erase_round_events (base : Z) (sec : flash_sector)
    (round : list Z * Z) : list event :=
  [Wr NUMICRO_FLASH_ISPADR (u32 (base + sec_offset sec));
   Wr NUMICRO_FLASH_ISPTRG ISPTRG_ISPGO]
  ++ busy_events round.1
  ++ [Rd NUMICRO_FLASH_ISPTRG 0]
  ++ ispff_events round.2 ERROR_OK.

Fixpoint erase_events (base : Z) (secs : list flash_sector)
    (rounds : list (list Z * Z)) : list event :=
  match secs, rounds with
  | sec :: secs', round :: rounds' =>
      erase_round_events base sec round ++ erase_events base secs' rounds'
  | _, _ => []
  end.

(** One round of the single-word write loop, for the word at [i]. *)
Definition write_round_events (base offset : Z) (buffer : list byte)
    (i : Z) (busy : list Z) : list event :=
  [Wr NUMICRO_FLASH_ISPADR (u32 (base + offset + i));
   EvWriteMemory NUMICRO_FLASH_ISPDAT 4 1 (take 4 (drop (Z.to_nat i) buffer)) ERROR_OK;
   Wr NUMICRO_FLASH_ISPTRG ISPTRG_ISPGO]
  ++ busy_events busy
  ++ [Rd NUMICRO_FLASH_ISPTRG 0].

Fixpoint write_events (base offset : Z) (buffer : list byte) (i : Z)
    (rounds : list (list Z)) : list event :=
  match rounds with
  | [] => []
  | busy :: rounds' =>
      write_round_events base offset buffer i busy
      ++ write_events base offset buffer (i + 4) rounds'
  end.

(** ** Working-area requests *)

(** The size [numicro_writeblock] first asks for. *)
Definition initial_buffer_size (t : target) : Z :=
  Z.max 1024 (working_area_size t / 2).

(** The sizes requested for the data buffer when every request fails,
    starting from [b]: the next request is a quarter of the last one, and
    the driver gives up once that quarter is 256 or less.  [rounds] bounds
    the recursion as in [alloc_source]. *)
Fixpoint shrink_sizes (rounds : nat) (b : Z) : list Z :=
  b :: (if b / 4 <=? 256 then []
        else match rounds with
             | O => []
             | S rounds' => shrink_sizes rounds' (b / 4)
             end).

(** The sizes of the working areas requested in a log, in order. *)
Definition alloc_requests (evs : list event) : list Z :=
  flat_map (fun e => match e with EvAlloc size _ _ => [size] | _ => [] end) evs.

(** [evs] are failed requests for the sizes [sizes]. *)
Definition failed_allocs (sizes : list Z) (evs : list event) : Prop :=
  Forall2 (fun size e => exists r area, e = EvAlloc size r area /\ r <> ERROR_OK)
    sizes evs.

(** The log of a block write that ends for want of a working area: either
    the request for the routine image fails, or the image is uploaded,
    every size for the data buffer is refused, and the image area is
    freed. *)
Definition gave_up_events (t : target) (evs : list event) : Prop :=
  exists area,
    (exists rr, rr <> ERROR_OK /\
       evs = [EvAlloc sizeof_numicro_flash_write_code rr area]) \/
    (exists fevs,
       evs = EvAlloc sizeof_numicro_flash_write_code ERROR_OK area
             :: EvWriteBuffer (wa_address area)
                  sizeof_numicro_flash_write_code
                  numicro_flash_write_code ERROR_OK
             :: fevs ++ [EvFree area] /\
       failed_allocs
         (shrink_sizes (Z.to_nat (Z.log2 (initial_buffer_size t)))
            (initial_buffer_size t)) fevs).

(** Events that move data or run code, and touch no working area. *)
Definition transfer_only (e : event) : Prop :=
  match e with
  | EvWriteBuffer _ _ _ _ | EvRunAlgorithm _ _ _ _ _ => True
  | _ => False
  end.

(** ** Views of a log *)

(** The values written to the register at [addr], in order. *)
Definition writes_to (addr : Z) (evs : list event) : list Z :=
  flat_map (fun e => match e with
                     | EvWriteU32 a v _ => if a =? addr then [v] else []
                     | _ => []
                     end) evs.

(** The words handed to the data register by the single-word loop. *)
Definition word_writes (evs : list event) : list (list byte) :=
  flat_map (fun e => match e with
                     | EvWriteMemory a _ _ data _ =>
                         if a =? NUMICRO_FLASH_ISPDAT then [data] else []
                     | _ => []
                     end) evs.

(** The steps of an erase: the writes to the command, address and trigger
    registers, and the polls that read the trigger register as zero. *)
Definition erase_step (e : event) : bool :=
  match e with
  | EvWriteU32 a _ _ =>
      (a =? NUMICRO_FLASH_ISPCMD) || (a =? NUMICRO_FLASH_ISPADR)
      || (a =? NUMICRO_FLASH_ISPTRG)
  | EvReadU32 a r v => (a =? NUMICRO_FLASH_ISPTRG) && is_ok r && (v =? 0)
  | _ => false
  end.

Definition erase_view (evs : list event) : list event :=
  List.filter erase_step evs.

(** The accesses to the control register, and the GO triggers. *)
Definition ispff_step (e : event) : bool :=
  match e with
  | EvReadU32 a _ _ => a =? NUMICRO_FLASH_ISPCON
  | EvWriteU32 a _ _ =>
      (a =? NUMICRO_FLASH_ISPCON) || (a =? NUMICRO_FLASH_ISPTRG)
  | _ => false
  end.

Definition ispff_view (evs : list event) : list event :=
  List.filter ispff_step evs.

(** * Reasoning about runs of the driver *)

Section Logic.

Context {H : Type} `{Host H}.

(** What is assumed of the host: every answer it gives satisfies [A]. *)
Record host_respects (A : event -> Prop) : Prop := {
  respects_read : forall h addr,
    A (EvReadU32 addr (host_read_u32 h addr).1.1 (host_read_u32 h addr).1.2);
  respects_write : forall h addr v,
    A (EvWriteU32 addr v (host_write_u32 h addr v).1);
  respects_write_memory : forall h addr size count data,
    A (EvWriteMemory addr size count data
         (host_write_memory h addr size count data).1);
  respects_write_buffer : forall h addr size data,
    A (EvWriteBuffer addr size data (host_write_buffer h addr size data).1);
  respects_alloc : forall h size,
    A (EvAlloc size (host_alloc_working_area h size).1.1
         (host_alloc_working_area h size).1.2);
  respects_run : forall h params entry exit tmo,
    A (EvRunAlgorithm params entry exit tmo
         (host_run_algorithm h params entry exit tmo).1);
  respects_free : forall area, A (EvFree area);
  respects_sleep : forall ms, A (EvSleep ms)
}.

(** [emits A m s Q]: from [s] the computation [m] has a result; it leaves
    the bank as it was, appends the events [evs] to the log, all of them
    within the assumption [A], and [Q] holds of the result. *)
Definition emits (A : event -> Prop) {X : Type} (m : M H X) (s : St H)
    (Q : X -> list event -> St H -> Prop) : Prop :=
  exists x s' evs,
    m s = Some (x, s') /\ trace s' = trace s ++ evs /\ bank s' = bank s /\
    Forall A evs /\ Q x evs s'.

End Logic.

(** ** Assumptions on the host *)

(** No assumption on the host. *)
Definition any_host (e : event) : Prop := True.

(** Every register access succeeds. *)
Definition registers_ok (e : event) : Prop :=
  match e with
  | EvReadU32 _ r _ => r = ERROR_OK
  | EvWriteU32 _ _ r => r = ERROR_OK
  | _ => True
  end.

(** Every access to registers and memory succeeds. *)
Definition link_ok (e : event) : Prop :=
  match e with
  | EvReadU32 _ r _ => r = ERROR_OK
  | EvWriteU32 _ _ r => r = ERROR_OK
  | EvWriteMemory _ _ _ _ r => r = ERROR_OK
  | _ => True
  end.

(** The flash controller is never found busy. *)
Definition idle_trigger (e : event) : Prop :=
  match e with
  | EvReadU32 addr _ v => addr = NUMICRO_FLASH_ISPTRG -> v = 0
  | _ => True
  end.

(** A host that cannot serve the accelerator: the routine image uploads,
    but no request for a data buffer is granted. *)
Definition accel_unavailable (e : event) : Prop :=
  match e with
  | EvAlloc size r _ => size <> sizeof_numicro_flash_write_code -> r <> ERROR_OK
  | EvWriteBuffer _ _ _ r => r = ERROR_OK
  | _ => True
  end.

(** A host on which the registers work and the controller is never busy,
    but which has no working area for a data buffer. *)
Definition fallback_host (e : event) : Prop :=
  accel_unavailable e /\ link_ok e /\ idle_trigger e.

(** * Checks on the catalog *)

(** A region of part [p] is found by its base address among the first
    [n_banks] regions, with its own size. *)
Definition region_found (p : numicro_cpu_type) (r : numicro_flash_bank_type)
    : bool :=
  match search_banks (fb_base r) (take (Z.to_nat (n_banks p)) (cpu_bank p)) with
  | Some size => size =? fb_size r
  | None => false
  end.

Definition part_ok (p : numicro_cpu_type) : bool :=
  forallb (region_found p) (cpu_bank p)
  && forallb (fun r => 0 <=? fb_size r) (cpu_bank p).

(** * A scripted debug host

    A small concrete host used to run the driver.  The script fixes what
    the registers read, the result of every kind of access, which requests
    for a working area are granted, and for how many polls the trigger
    register reads busy after each GO; the state counts the polls since
    the last GO and holds the address of the next working area. *)

Record sim_script : Type := {
  sim_regs : Z -> Z;
  sim_read_ret : Z -> retval;
  sim_write_ret : Z -> retval;
  sim_write_memory_ret : retval;
  sim_write_buffer_ret : retval;
  sim_alloc_ok : Z -> bool;
  sim_run_ret : retval;
  sim_busy_polls : nat
}.

Record sim_state (c : sim_script) : Type := {
  sim_polls : nat;
  sim_next_area : Z
}.

Arguments sim_polls {c} _.
Arguments sim_next_area {c} _.

Definition sim_read_u32 (c : sim_script) (h : sim_state c) (addr : Z)
    : (retval * Z) * sim_state c :=
  if addr =? NUMICRO_FLASH_ISPTRG then
    if (sim_polls h <? sim_busy_polls c)%nat then
      ((sim_read_ret c addr, 1),
       {| sim_polls := S (sim_polls h); sim_next_area := sim_next_area h |})
    else ((sim_read_ret c addr, 0), h)
  else ((sim_read_ret c addr, sim_regs c addr), h).

Definition sim_write_u32 (c : sim_script) (h : sim_state c) (addr value : Z)
    : retval * sim_state c :=
  if addr =? NUMICRO_FLASH_ISPTRG then
    (sim_write_ret c addr,
     {| sim_polls := 0; sim_next_area := sim_next_area h |})
  else (sim_write_ret c addr, h).

Definition sim_alloc_working_area (c : sim_script) (h : sim_state c) (size : Z)
    : (retval * working_area) * sim_state c :=
  if sim_alloc_ok c size then
    ((ERROR_OK, {| wa_address := sim_next_area h; wa_size := size |}),
     {| sim_polls := sim_polls h;
        sim_next_area := sim_next_area h + size |})
  else
    ((ERROR_TARGET_RESOURCE_NOT_AVAILABLE,
      {| wa_address := 0; wa_size := 0 |}), h).

#[global] Instance sim_host (c : sim_script) : Host (sim_state c) := {
  host_read_u32 := sim_read_u32 c;
  host_write_u32 := sim_write_u32 c;
  host_write_memory := fun h _ _ _ _ => (sim_write_memory_ret c, h);
  host_write_buffer := fun h _ _ _ => (sim_write_buffer_ret c, h);
  host_alloc_working_area := sim_alloc_working_area c;
  host_free_working_area := fun h _ => h;
  host_run_algorithm := fun h _ _ _ _ => (sim_run_ret c, h);
  host_busy_sleep := fun h _ => h
}.

(** ** Scripts *)

(** A host on which everything works: registers unlocked, no failure flag,
    the flash controller never busy, every working area granted. *)
Definition sim_good : sim_script :=
  {| sim_regs := fun a => if a =? NUMICRO_SYS_WRPROT then 1 else 0;
     sim_read_ret := fun _ => ERROR_OK;
     sim_write_ret := fun _ => ERROR_OK;
     sim_write_memory_ret := ERROR_OK;
     sim_write_buffer_ret := ERROR_OK;
     sim_alloc_ok := fun _ => true;
     sim_run_ret := ERROR_OK;
     sim_busy_polls := 0 |}.

(** As [sim_good], but after each GO the trigger register reads busy for
    [n] polls. *)
Definition sim_busy (n : nat) : sim_script :=
  {| sim_regs := sim_regs sim_good;
     sim_read_ret := fun _ => ERROR_OK;
     sim_write_ret := fun _ => ERROR_OK;
     sim_write_memory_ret := ERROR_OK;
     sim_write_buffer_ret := ERROR_OK;
     sim_alloc_ok := fun _ => true;
     sim_run_ret := ERROR_OK;
     sim_busy_polls := n |}.

(** As [sim_good], but the control register always reads with the failure
    flag ISPFF set. *)
Definition sim_ispff : sim_script :=
  {| sim_regs := fun a =>
       if a =? NUMICRO_SYS_WRPROT then 1
       else if a =? NUMICRO_FLASH_ISPCON then ISPCON_ISPFF else 0;
     sim_read_ret := fun _ => ERROR_OK;
     sim_write_ret := fun _ => ERROR_OK;
     sim_write_memory_ret := ERROR_OK;
     sim_write_buffer_ret := ERROR_OK;
     sim_alloc_ok := fun _ => true;
     sim_run_ret := ERROR_OK;
     sim_busy_polls := 0 |}.

(** As [sim_good], with the part identifier register reading [id]. *)
Definition sim_part (id : Z) : sim_script :=
  {| sim_regs := fun a =>
       if a =? NUMICRO_SYS_WRPROT then 1
       else if a =? NUMICRO_SYS_BASE then id else 0;
     sim_read_ret := fun _ => ERROR_OK;
     sim_write_ret := fun _ => ERROR_OK;
     sim_write_memory_ret := ERROR_OK;
     sim_write_buffer_ret := ERROR_OK;
     sim_alloc_ok := fun _ => true;
     sim_run_ret := ERROR_OK;
     sim_busy_polls := 0 |}.

(** As [sim_good], but only requests of the size of the routine image are
    granted. *)
Definition sim_no_buffer : sim_script :=
  {| sim_regs := sim_regs sim_good;
     sim_read_ret := fun _ => ERROR_OK;
     sim_write_ret := fun _ => ERROR_OK;
     sim_write_memory_ret := ERROR_OK;
     sim_write_buffer_ret := ERROR_OK;
     sim_alloc_ok := fun size => size =? sizeof_numicro_flash_write_code;
     sim_run_ret := ERROR_OK;
     sim_busy_polls := 0 |}.

(** As [sim_good], but running the routine on the target fails. *)
Definition sim_run_fails : sim_script :=
  {| sim_regs := sim_regs sim_good;
     sim_read_ret := fun _ => ERROR_OK;
     sim_write_ret := fun _ => ERROR_OK;
     sim_write_memory_ret := ERROR_OK;
     sim_write_buffer_ret := ERROR_OK;
     sim_alloc_ok := fun _ => true;
     sim_run_ret := ERROR_FAIL;
     sim_busy_polls := 0 |}.

(** As [sim_good], but writing a buffer to target memory fails. *)
Definition sim_upload_fails : sim_script :=
  {| sim_regs := sim_regs sim_good;
     sim_read_ret := fun _ => ERROR_OK;
     sim_write_ret := fun _ => ERROR_OK;
     sim_write_memory_ret := ERROR_OK;
     sim_write_buffer_ret := ERROR_FAIL;
     sim_alloc_ok := fun _ => true;
     sim_run_ret := ERROR_OK;
     sim_busy_polls := 0 |}.

(** ** Targets, banks and runs *)

Definition halted_target : target :=
  {| state := TARGET_HALTED; working_area_size := 4096 |}.

Definition running_target : target :=
  {| state := TARGET_RUNNING; working_area_size := 4096 |}.

(** A bank as [numicro_flash_bank_command] leaves it: nothing probed. *)
Definition fresh_bank (t : target) (base : Z) : flash_bank :=
  {| bank_target := t; bank_base := base; bank_size := 0;
     bank_sectors := [];
     bank_driver_priv := {| probed := false; cpu := None |} |}.

(** A probed program-flash bank of 32768 bytes: 64 sectors of 512 bytes. *)
Definition aprom_bank (t : target) : flash_bank :=
  {| bank_target := t; bank_base := NUMICRO_APROM_BASE; bank_size := 32768;
     bank_sectors := init_sectors 64 0;
     bank_driver_priv := {| probed := true; cpu := None |} |}.

(** The start of a run: working areas are handed out from 0x20000000. *)
Definition start (c : sim_script) (b : flash_bank) : St (sim_state c) :=
  {| hw := {| sim_polls := 0; sim_next_area := 0x20000000 |};
     trace := []; bank := b |}.

Definition result_of {H A : Type} (o : option (A * St H)) : option A :=
  fst <$> o.

Definition trace_of {H A : Type} (o : option (A * St H)) : list event :=
  match o with Some (_, s) => trace s | None => [] end.

Definition bank_of {H A : Type} (o : option (A * St H)) : option flash_bank :=
  (fun x => bank (snd x)) <$> o.

(** The number parser of the command layer, reduced to what the examples
    need: every argument reads as address 0. *)
Definition parse_zero (arg : string) : retval * Z := (ERROR_OK, 0).

(** * Further views and assumptions *)

(** [e] is an access to a register, or a write to memory, that failed with
    result [r]. *)
Definition failed_with (r : retval) (e : event) : Prop :=
  r <> ERROR_OK /\
  match e with
  | EvReadU32 _ r' _ => r' = r
  | EvWriteU32 _ _ r' => r' = r
  | EvWriteMemory _ _ _ _ r' => r' = r
  | _ => False
  end.

(** The log ends with an access that failed with [r]. *)
Definition stops_at (r : retval) (evs : list event) : Prop :=
  exists pre e, evs = pre ++ [e] /\ failed_with r e.

(** The values read from the register at [addr], in order. *)
Definition reads_of (addr : Z) (evs : list event) : list Z :=
  flat_map (fun e => match e with
                     | EvReadU32 a r v =>
                         if (a =? addr) && is_ok r then [v] else []
                     | _ => []
                     end) evs.

(** An event of the command engine: a 1 ms pause, or an access to one of
    the command, data, address and trigger registers. *)
Definition fmc_event (e : event) : Prop :=
  match e with
  | EvSleep ms => ms = 1
  | EvReadU32 a _ _ =>
      a = NUMICRO_FLASH_ISPTRG \/ a = NUMICRO_FLASH_ISPDAT
  | EvWriteU32 a _ _ =>
      a = NUMICRO_FLASH_ISPCMD \/ a = NUMICRO_FLASH_ISPDAT \/
      a = NUMICRO_FLASH_ISPADR \/ a = NUMICRO_FLASH_ISPTRG
  | _ => False
  end.

(** A host that serves the accelerator: every working area is granted,
    every upload succeeds and the routine runs to its end. *)
Definition accel_ok (e : event) : Prop :=
  match e with
  | EvAlloc _ r _ => r = ERROR_OK
  | EvWriteBuffer _ _ _ r => r = ERROR_OK
  | EvRunAlgorithm _ _ _ _ r => r = ERROR_OK
  | _ => True
  end.

(** A host on which the registers work and serve the accelerator. *)
Definition cooperative (e : event) : Prop := accel_ok e /\ link_ok e.

(** A host on which the registers work and the controller is never found
    busy. *)
Definition responsive (e : event) : Prop := link_ok e /\ idle_trigger e.

(** One round of the block loop: the [n] words [data] are uploaded to the
    data buffer and the routine is run to program them at [address]. *)
Definition block_round (write_algorithm source : working_area)
    (chunk : Z * Z * list byte) : list event :=
  let '(address, n, data) := chunk in
  [EvWriteBuffer (wa_address source) (n * 4) data ERROR_OK;
   EvRunAlgorithm [wa_address source; address; n]
     (wa_address write_algorithm) 0 100000 ERROR_OK].

(** Consecutive chunks: the first is programmed at [address], each of the
    others where the one before it ended. *)
Fixpoint chained (address : Z) (chunks : list (Z * Z * list byte)) : Prop :=
  match chunks with
  | [] => True
  | (a, n, _) :: rest => a = address /\ chained (u32 (address + n * 4)) rest
  end.

(** The number of words and the bytes of a list of chunks. *)
Definition chunk_words (chunks : list (Z * Z * list byte)) : Z :=
  foldr (fun c acc => c.1.2 + acc) 0 chunks.

Definition chunk_bytes (chunks : list (Z * Z * list byte)) : list byte :=
  flat_map (fun c => c.2) chunks.

(** The sum of the sizes of the sectors of a bank. *)
Definition sectors_size (l : list flash_sector) : Z :=
  foldr (fun sec acc => sec_size sec + acc) 0 l.

(** The shape of a catalog entry: four regions, at the program, data,
    loader and configuration bases in this order; the configuration region
    holds one or two words, every other region whole pages. *)
Definition region_geometry (r : numicro_flash_bank_type) : bool :=
  if fb_base r =? NUMICRO_CONFIG_BASE
  then (fb_size r =? 4) || (fb_size r =? 8)
  else (0 <=? fb_size r) && (fb_size r mod NUMICRO_PAGESIZE =? 0).

Definition part_geometry (p : numicro_cpu_type) : bool :=
  (n_banks p =? 4)
  && bool_decide (map fb_base (cpu_bank p)
                  = [NUMICRO_APROM_BASE; NUMICRO_DATA_BASE;
                     NUMICRO_LDROM_BASE; NUMICRO_CONFIG_BASE])
  && forallb region_geometry (cpu_bank p).

(** A host that grants every working area and takes every upload; running
    the routine may fail. *)
Definition upload_ok (e : event) : Prop :=
  match e with
  | EvAlloc _ r _ => r = ERROR_OK
  | EvWriteBuffer _ _ _ r => r = ERROR_OK
  | _ => True
  end.

(** * Theorems *)

Lemma is_ok_true (r : retval) : is_ok r = true <-> r = ERROR_OK.
Proof. destruct r; simpl; split; congruence. Qed.

Lemma is_ok_false (r : retval) : is_ok r = false <-> r <> ERROR_OK.
Proof. destruct r; simpl; split; congruence. Qed.

Lemma any_host_respected {H : Type} `{Host H} : host_respects any_host.
Proof. split; intros; exact I. Qed.

Section Rules.

Context {H : Type} `{Host H}.
Variable A : event -> Prop.
Hypothesis HA : host_respects A.

Lemma emits_ret {X : Type} (x : X) s (Q : X -> list event -> St H -> Prop) :
  Q x [] s -> emits A (ret x) s Q.
Proof.
  intros HQ. exists x, s, []. rewrite app_nil_r. by repeat split.
Qed.

Lemma emits_bind {X Y : Type} (m : M H X) (k : X -> M H Y) s
    (Q : Y -> list event -> St H -> Prop) :
  emits A m s (fun x evs s' =>
    emits A (k x) s' (fun y evs' s'' => Q y (evs ++ evs') s'')) ->
  emits A (bind m k) s Q.
Proof.
  intros (x & s' & evs & Hm & Ht & Hb & HA1 & (y & s'' & evs' & Hk & Ht' & Hb' & HA2 & HQ)).
  exists y, s'', (evs ++ evs'). unfold bind. rewrite Hm.
  repeat split; try done.
  - by rewrite Ht', Ht, app_assoc.
  - congruence.
  - by apply Forall_app.
Qed.

Lemma emits_mono {X : Type} (m : M H X) s
    (Q Q' : X -> list event -> St H -> Prop) :
  emits A m s Q ->
  (forall x evs s', Forall A evs -> bank s' = bank s -> Q x evs s' -> Q' x evs s') ->
  emits A m s Q'.
Proof.
  intros (x & s' & evs & Hm & Ht & Hb & HA1 & HQ) Himp.
  exists x, s', evs. repeat split; auto.
Qed.

Lemma emits_check (m k : M H retval) s (Q : retval -> list event -> St H -> Prop) :
  emits A m s (fun r evs s' =>
    if is_ok r then emits A k s' (fun y evs' s'' => Q y (evs ++ evs') s'')
    else Q r evs s') ->
  emits A (check m k) s Q.
Proof.
  intros Hm. unfold check. apply emits_bind.
  eapply emits_mono; [exact Hm|]. intros r evs s' _ _ Hr. simpl in Hr.
  destruct (is_ok r); [exact Hr|].
  apply emits_ret. by rewrite app_nil_r.
Qed.

Lemma emits_get_bank s (Q : flash_bank -> list event -> St H -> Prop) :
  Q (bank s) [] s -> emits A get_bank s Q.
Proof.
  intros HQ. exists (bank s), s, []. rewrite app_nil_r. by repeat split.
Qed.

Lemma emits_assert (b : bool) s (Q : unit -> list event -> St H -> Prop) :
  b = true -> Q tt [] s -> emits A (assert b) s Q.
Proof. intros -> HQ. by apply emits_ret. Qed.

Lemma emits_read t addr s (Q : retval * Z -> list event -> St H -> Prop) :
  (forall r v h, A (EvReadU32 addr r v) ->
     Q (r, v) [EvReadU32 addr r v] (with_hw s h (EvReadU32 addr r v))) ->
  emits A (target_read_u32 t addr) s Q.
Proof.
  intros HQ. unfold emits, target_read_u32.
  pose proof (respects_read A HA (hw s) addr) as Hr.
  destruct (host_read_u32 (hw s) addr) as [[r v] h]. simpl in Hr.
  eexists _, _, _. do 3 (split; [reflexivity|]).
  split; [by repeat constructor|by apply HQ].
Qed.

Lemma emits_write t addr v s (Q : retval -> list event -> St H -> Prop) :
  (forall r h, A (EvWriteU32 addr v r) ->
     Q r [EvWriteU32 addr v r] (with_hw s h (EvWriteU32 addr v r))) ->
  emits A (target_write_u32 t addr v) s Q.
Proof.
  intros HQ. unfold emits, target_write_u32.
  pose proof (respects_write A HA (hw s) addr v) as Hr.
  destruct (host_write_u32 (hw s) addr v) as [r h]. simpl in Hr.
  eexists _, _, _. do 3 (split; [reflexivity|]).
  split; [by repeat constructor|by apply HQ].
Qed.

Lemma emits_write_memory t addr size count data s
    (Q : retval -> list event -> St H -> Prop) :
  (forall r h, A (EvWriteMemory addr size count data r) ->
     Q r [EvWriteMemory addr size count data r]
       (with_hw s h (EvWriteMemory addr size count data r))) ->
  emits A (target_write_memory t addr size count data) s Q.
Proof.
  intros HQ. unfold emits, target_write_memory.
  pose proof (respects_write_memory A HA (hw s) addr size count data) as Hr.
  destruct (host_write_memory (hw s) addr size count data) as [r h]. simpl in Hr.
  eexists _, _, _. do 3 (split; [reflexivity|]).
  split; [by repeat constructor|by apply HQ].
Qed.

Lemma emits_write_buffer t addr size data s
    (Q : retval -> list event -> St H -> Prop) :
  (forall r h, A (EvWriteBuffer addr size data r) ->
     Q r [EvWriteBuffer addr size data r]
       (with_hw s h (EvWriteBuffer addr size data r))) ->
  emits A (target_write_buffer t addr size data) s Q.
Proof.
  intros HQ. unfold emits, target_write_buffer.
  pose proof (respects_write_buffer A HA (hw s) addr size data) as Hr.
  destruct (host_write_buffer (hw s) addr size data) as [r h]. simpl in Hr.
  eexists _, _, _. do 3 (split; [reflexivity|]).
  split; [by repeat constructor|by apply HQ].
Qed.

Lemma emits_alloc t size s
    (Q : retval * working_area -> list event -> St H -> Prop) :
  (forall r area h, A (EvAlloc size r area) ->
     Q (r, area) [EvAlloc size r area] (with_hw s h (EvAlloc size r area))) ->
  emits A (target_alloc_working_area t size) s Q.
Proof.
  intros HQ. unfold emits, target_alloc_working_area.
  pose proof (respects_alloc A HA (hw s) size) as Hr.
  destruct (host_alloc_working_area (hw s) size) as [[r area] h]. simpl in Hr.
  eexists _, _, _. do 3 (split; [reflexivity|]).
  split; [by repeat constructor|by apply HQ].
Qed.

Lemma emits_free t area s (Q : unit -> list event -> St H -> Prop) :
  (forall h, Q tt [EvFree area] (with_hw s h (EvFree area))) ->
  emits A (target_free_working_area t area) s Q.
Proof.
  intros HQ. unfold emits, target_free_working_area.
  eexists _, _, _. do 3 (split; [reflexivity|]).
  split; [|apply HQ]. constructor; [apply (respects_free A HA)|constructor].
Qed.

Lemma emits_run t params entry exit tmo s
    (Q : retval -> list event -> St H -> Prop) :
  (forall r h, A (EvRunAlgorithm params entry exit tmo r) ->
     Q r [EvRunAlgorithm params entry exit tmo r]
       (with_hw s h (EvRunAlgorithm params entry exit tmo r))) ->
  emits A (target_run_algorithm t params entry exit tmo) s Q.
Proof.
  intros HQ. unfold emits, target_run_algorithm.
  pose proof (respects_run A HA (hw s) params entry exit tmo) as Hr.
  destruct (host_run_algorithm (hw s) params entry exit tmo) as [r h]. simpl in Hr.
  eexists _, _, _. do 3 (split; [reflexivity|]).
  split; [by repeat constructor|by apply HQ].
Qed.

Lemma emits_sleep ms s (Q : unit -> list event -> St H -> Prop) :
  (forall h, Q tt [EvSleep ms] (with_hw s h (EvSleep ms))) ->
  emits A (busy_sleep ms) s Q.
Proof.
  intros HQ. unfold emits, busy_sleep.
  eexists _, _, _. do 3 (split; [reflexivity|]).
  split; [|apply HQ]. constructor; [apply (respects_sleep A HA)|constructor].
Qed.

End Rules.

Arguments poll_ispgo : simpl never.
Arguments alloc_source : simpl never.
Arguments writeblock_loop : simpl never.
Arguments protect_loop : simpl never.
Arguments erase_loop : simpl never.
Arguments write_loop : simpl never.
Arguments unlock_events : simpl never.
Arguments init_isp_events : simpl never.
Arguments busy_events : simpl never.
Arguments ispff_events : simpl never.
Arguments erase_round_events : simpl never.
Arguments fmc_writes : simpl never.
Arguments write_round_events : simpl never.
Arguments shrink_sizes : simpl never.

Lemma registers_ok_read evs addr r v :
  Forall registers_ok evs -> EvReadU32 addr r v ∈ evs -> r = ERROR_OK.
Proof. intros Hall Hin. by apply (proj1 (Forall_forall _ _) Hall) in Hin. Qed.

Lemma registers_ok_write evs addr r v :
  Forall registers_ok evs -> EvWriteU32 addr v r ∈ evs -> r = ERROR_OK.
Proof. intros Hall Hin. by apply (proj1 (Forall_forall _ _) Hall) in Hin. Qed.

(** Membership of an event in a log given as a concatenation. *)
Ltac in_log :=
  repeat first [rewrite elem_of_app | rewrite elem_of_cons]; solve [eauto 20].

(** [Forall] over a part of a log from [Forall] over the whole. *)
Ltac part_of Hall :=
  repeat first [rewrite Forall_app in Hall | rewrite Forall_cons in Hall];
  repeat first [rewrite Forall_app | rewrite Forall_cons];
  tauto.

(** The tail of a log is a suffix of it. *)
Ltac suffix_log :=
  rewrite <- ?app_assoc;
  repeat first [reflexivity | apply suffix_cons_r | apply suffix_app_r].

(** Two spellings of the same log. *)
Ltac same_log :=
  cbn [app]; rewrite <- ?app_assoc; rewrite ?app_nil_r; reflexivity.

(** A failed access contradicts the assumption that registers work. *)
Ltac link_failed Hall Hne :=
  exfalso; apply Hne;
  first [ eapply registers_ok_read; [exact Hall | in_log]
        | eapply registers_ok_write; [exact Hall | in_log] ].

Lemma link_ok_registers_ok evs :
  Forall link_ok evs -> Forall registers_ok evs.
Proof.
  intros Hl. eapply Forall_impl; [exact Hl|].
  intros [] Hx; simpl in *; auto.
Qed.

Lemma timed_out_not_idle evs :
  timed_out is_zero evs -> Forall idle_trigger evs -> False.
Proof.
  intros (pre & busy & final & -> & _ & Hb) Hidle.
  rewrite !Forall_app in Hidle. destruct Hidle as (_ & _ & Hf).
  apply Forall_app in Hb as [_ Hb]. apply Forall_cons in Hf as [Hf _].
  apply Forall_cons in Hb as [Hb _]. simpl in Hf.
  rewrite Hf in Hb; done.
Qed.

Section Components.

Context {H : Type} `{Host H}.
Variable A : event -> Prop.
Hypothesis HA : host_respects A.

Ltac step :=
  lazymatch goal with
  | |- emits _ (bind _ _) _ _ => apply emits_bind
  | |- emits _ (check _ _) _ _ => apply emits_check
  | |- emits _ (ret _) _ _ => apply emits_ret
  | |- emits _ get_bank _ _ => apply emits_get_bank
  | |- emits _ (target_read_u32 _ _) _ _ =>
      apply (emits_read A HA); intros ? ? ? ?
  | |- emits _ (target_write_u32 _ _ _) _ _ =>
      apply (emits_write A HA); intros ? ? ?
  | |- emits _ (target_write_memory _ _ _ _ _) _ _ =>
      apply (emits_write_memory A HA); intros ? ? ?
  | |- emits _ (target_write_buffer _ _ _ _) _ _ =>
      apply (emits_write_buffer A HA); intros ? ? ?
  | |- emits _ (target_alloc_working_area _ _) _ _ =>
      apply (emits_alloc A HA); intros ? ? ? ?
  | |- emits _ (target_free_working_area _ _) _ _ =>
      apply (emits_free A HA); intros ?
  | |- emits _ (target_run_algorithm _ _ _ _ _) _ _ =>
      apply (emits_run A HA); intros ? ? ?
  | |- emits _ (busy_sleep _) _ _ =>
      apply (emits_sleep A HA); intros ?
  end.

(** Case analysis on a result code that the code tests with [is_ok]. *)
Ltac on_result r :=
  let E := fresh "E" in
  destruct (is_ok r) eqn:E; cbn;
  [apply is_ok_true in E; subst r | apply is_ok_false in E].

Lemma numicro_reg_unlock_spec t s :
  emits A (numicro_reg_unlock t) s (fun r evs _ =>
    (r = ERROR_OK -> exists p p', evs = unlock_events p p') /\
    (r <> ERROR_OK -> Forall registers_ok evs -> False)).
Proof.
  unfold numicro_reg_unlock.
  step. step. cbn. on_result r.
  2:{ step. split; [congruence|]. intros _ Hall. link_failed Hall E. }
  step.
  destruct (v =? 0) eqn:Hv.
  - step. step. on_result r.
    2:{ split; [congruence|]. intros _ Hall. link_failed Hall E. }
    step. step. on_result r.
    2:{ split; [congruence|]. intros _ Hall. link_failed Hall E. }
    step. on_result r.
    2:{ split; [congruence|]. intros _ Hall. link_failed Hall E. }
    step. step. cbn. on_result r.
    2:{ step. split; [congruence|]. intros _ Hall. link_failed Hall E. }
    step. split; [|congruence]. intros _.
    exists v, v0. unfold unlock_events. rewrite Hv. reflexivity.
  - step. cbn. step. step. cbn. on_result r.
    2:{ step. split; [congruence|]. intros _ Hall. link_failed Hall E. }
    step. split; [|congruence]. intros _.
    exists v, v0. unfold unlock_events. rewrite Hv. reflexivity.
Qed.

Lemma numicro_init_isp_spec t s :
  emits A (numicro_init_isp t) s (fun r evs _ =>
    (is_halted (state t) = false -> r = ERROR_TARGET_NOT_HALTED /\ evs = []) /\
    (r = ERROR_OK ->
       is_halted (state t) = true /\
       exists p p' a c, evs = init_isp_events p p' a c) /\
    (is_halted (state t) = true -> r <> ERROR_OK ->
       Forall registers_ok evs -> False)).
Proof.
  unfold numicro_init_isp.
  destruct (is_halted (state t)) eqn:Hh; cbn;
    [|step; split; [done|split; congruence]].
  step. eapply emits_mono; [apply numicro_reg_unlock_spec|].
  intros r evs s1 _ _ [Hu Hf]. cbn.
  on_result r.
  2:{ split; [congruence|]. split; [congruence|]. intros _ _. by apply Hf. }
  destruct Hu as (p & p' & ->); [done|]. clear Hf.
  step. step. cbn. on_result r.
  2:{ step. split; [congruence|]. split; [congruence|].
      intros _ _ Hall. link_failed Hall E. }
  step. step. on_result r.
  2:{ split; [congruence|]. split; [congruence|].
      intros _ _ Hall. link_failed Hall E. }
  step. step. cbn. on_result r.
  2:{ step. split; [congruence|]. split; [congruence|].
      intros _ _ Hall. link_failed Hall E. }
  step. step. on_result r.
  2:{ split; [congruence|]. split; [congruence|].
      intros _ _ Hall. link_failed Hall E. }
  step. step. on_result r.
  2:{ split; [congruence|]. split; [congruence|].
      intros _ _ Hall. link_failed Hall E. }
  step. split; [congruence|]. split; [|congruence]. intros _. split; [done|].
  exists p, p', v, v0. unfold init_isp_events, unlock_events. cbn.
  rewrite <- ?app_assoc. reflexivity.
Qed.

Lemma poll_ispgo_unfold t done n :
  poll_ispgo t done n =
  (let* (retval, status) := target_read_u32 t NUMICRO_FLASH_ISPTRG in
   if negb (is_ok retval) then ret retval else
   if done status then ret ERROR_OK else
   match n with
   | O => ret ERROR_FAIL
   | S n' => let* _ := busy_sleep 1 in poll_ispgo t done n'
   end).
Proof. destruct n; reflexivity. Qed.

Lemma poll_ispgo_spec t done n s :
  emits A (poll_ispgo t done n) s (fun r evs _ =>
    exists busy rlast final,
      evs = busy_events busy ++ [EvReadU32 NUMICRO_FLASH_ISPTRG rlast final] /\
      Forall (fun st => done st = false) busy /\
      (length busy <= n)%nat /\
      poll_outcome done n busy rlast final r).
Proof.
  revert s. induction n as [|n IH]; intros s; rewrite poll_ispgo_unfold.
  - step. step. cbn. on_result r.
    + destruct (done v) eqn:Hd; step; exists [], ERROR_OK, v; cbn;
        (split; [done|]); (split; [constructor|]); (split; [lia|]);
        unfold poll_outcome; cbn.
      * right. left. auto.
      * right. right. auto.
    + step. exists [], r, v. cbn.
      split; [done|]. split; [constructor|]. split; [lia|]. left. auto.
  - step. step. cbn. on_result r.
    + destruct (done v) eqn:Hd.
      * step. exists [], ERROR_OK, v. cbn.
        split; [done|]. split; [constructor|]. split; [lia|].
        right. left. auto.
      * step. step. eapply emits_mono; [apply IH|].
        intros r evs s1 _ _ (busy & rlast & final & -> & Hb & Hl & Ho).
        exists (v :: busy), rlast, final. cbn.
        split; [done|]. split; [by constructor|]. split; [lia|].
        unfold poll_outcome in *. cbn.
        destruct Ho as [?|[?|(? & ? & ? & ?)]]; auto.
        right. right. repeat split; auto.
    + step. exists [], r, v. cbn.
      split; [done|]. split; [constructor|]. split; [lia|]. left. auto.
Qed.

Lemma numicro_fmc_cmd_spec t cmd addr wdata rdata s :
  emits A (numicro_fmc_cmd t cmd addr wdata rdata) s (fun rv evs _ =>
    (rv.1 = ERROR_OK ->
       exists busy final,
         evs = fmc_writes cmd addr wdata ++ busy_events busy
               ++ [Rd NUMICRO_FLASH_ISPTRG final; Rd NUMICRO_FLASH_ISPDAT rv.2] /\
         Forall (fun st => go_clear st = false) busy /\
         (length busy <= 100)%nat /\ go_clear final = true) /\
    (rv.1 <> ERROR_OK -> Forall registers_ok evs ->
       exists busy final,
         rv.1 = ERROR_FAIL /\ rv.2 = rdata /\
         evs = fmc_writes cmd addr wdata ++ busy_events busy
               ++ [Rd NUMICRO_FLASH_ISPTRG final] /\
         Forall (fun st => go_clear st = false) busy /\
         length busy = 100%nat /\ go_clear final = false)).
Proof.
  unfold numicro_fmc_cmd.
  step. step. on_result r.
  2:{ step. cbn. split; [congruence|]. intros _ Hall. link_failed Hall E. }
  step. step. on_result r.
  2:{ step. cbn. split; [congruence|]. intros _ Hall. link_failed Hall E. }
  step. step. on_result r.
  2:{ step. cbn. split; [congruence|]. intros _ Hall. link_failed Hall E. }
  step. step. on_result r.
  2:{ step. cbn. split; [congruence|]. intros _ Hall. link_failed Hall E. }
  step. eapply emits_mono; [apply poll_ispgo_spec|].
  intros r evs s1 _ _ (busy & rlast & final & -> & Hb & Hl & Ho). cbn.
  destruct Ho as [[Hne ->]|[(-> & Hd & ->)|(-> & Hd & Hn & ->)]]; cbn.
  - apply is_ok_false in Hne as Hne'. rewrite Hne'. cbn.
    step. cbn. split; [congruence|]. intros _ Hall. link_failed Hall Hne.
  - step. step. cbn. on_result r.
    + step. cbn. split; [|congruence]. intros _.
      exists busy, final. repeat split; auto.
      unfold fmc_writes. cbn. rewrite <- app_assoc. reflexivity.
    + step. cbn. split; [congruence|]. intros _ Hall. link_failed Hall E.
  - step. cbn. split; [congruence|]. intros _ _.
    exists busy, final. repeat split; auto.
    by rewrite app_nil_r.
Qed.

Lemma poll_ispgo_spec' t done n s :
  emits A (poll_ispgo t done n) s (fun r evs _ =>
    (r = ERROR_OK ->
       exists busy final,
         evs = busy_events busy ++ [Rd NUMICRO_FLASH_ISPTRG final] /\
         Forall (fun st => done st = false) busy /\
         (length busy <= n)%nat /\ done final = true) /\
    (r <> ERROR_OK -> Forall registers_ok evs ->
       r = ERROR_FAIL /\
       exists busy final,
         evs = busy_events busy ++ [Rd NUMICRO_FLASH_ISPTRG final] /\
         length busy = n /\
         Forall (fun st => done st = false) (busy ++ [final]))).
Proof.
  eapply emits_mono; [apply poll_ispgo_spec|].
  intros r evs s' _ _ (busy & rlast & final & -> & Hb & Hl & Ho).
  destruct Ho as [[Hne ->]|[(-> & Hd & ->)|(-> & Hd & Hn & ->)]].
  - split; [congruence|]. intros _ Hall. link_failed Hall Hne.
  - split; [|congruence]. intros _. by exists busy, final.
  - split; [congruence|]. intros _ _. split; [done|].
    exists busy, final. repeat split; auto.
    apply Forall_app. split; [done|]. by constructor.
Qed.

Lemma check_ispff_spec t s :
  emits A (check_ispff t) s (fun r evs _ =>
    (r = ERROR_OK -> exists st, evs = ispff_events st ERROR_OK) /\
    (r <> ERROR_OK -> Forall registers_ok evs -> False)).
Proof.
  unfold check_ispff.
  step. step. cbn. on_result r.
  2:{ step. split; [congruence|]. intros _ Hall. link_failed Hall E. }
  destruct (Z.land v ISPCON_ISPFF =? 0) eqn:Hff; cbn.
  - step. split; [|congruence]. intros _. exists v.
    unfold ispff_events. by rewrite Hff.
  - step. cbn. split.
    + intros ->. exists v. unfold ispff_events. by rewrite Hff.
    + intros Hne Hall. link_failed Hall Hne.
Qed.

Lemma erase_loop_unfold t n i :
  erase_loop t n i =
  match n with
  | O => ret ERROR_OK
  | S n' =>
      let* b := get_bank in
      match bank_sectors b !! Z.to_nat i with
      | None => undefined
      | Some sec =>
          check* target_write_u32 t NUMICRO_FLASH_ISPADR
                   (u32 (bank_base b + sec_offset sec)) in
          check* target_write_u32 t NUMICRO_FLASH_ISPTRG ISPTRG_ISPGO in
          check* poll_ispgo t is_zero 100 in
          check* check_ispff t in
          erase_loop t n' (i + 1)
      end
  end.
Proof. destruct n; reflexivity. Qed.

Lemma take_drop_cons {X : Type} (l : list X) (k n : nat) x xs :
  take (S n) (drop k l) = x :: xs ->
  l !! k = Some x /\ take n (drop (S k) l) = xs.
Proof.
  revert k. induction l as [|y l IH]; intros [|k]; cbn; try done.
  - rewrite drop_0. intros [= -> <-]. done.
  - intros Hk. by apply IH.
Qed.

Lemma timed_out_app done pre evs :
  timed_out done evs -> timed_out done (pre ++ evs).
Proof.
  intros (pre' & busy & final & -> & Hl & Hb).
  exists (pre ++ pre'), busy, final. by rewrite <- app_assoc.
Qed.

Lemma timed_out_suffix done evs evs' :
  evs' `suffix_of` evs -> timed_out done evs' -> timed_out done evs.
Proof. intros [pre ->]. apply timed_out_app. Qed.

Lemma erase_loop_spec t n : forall i s secs,
  0 <= i ->
  take n (drop (Z.to_nat i) (bank_sectors (bank s))) = secs ->
  length secs = n ->
  emits A (erase_loop t n i) s (fun r evs _ =>
    (r = ERROR_OK ->
       exists rounds,
         evs = erase_events (bank_base (bank s)) secs rounds /\
         length rounds = n /\
         Forall (fun round =>
                   Forall (fun st => is_zero st = false) round.1 /\
                   (length round.1 <= 100)%nat) rounds) /\
    (r <> ERROR_OK -> Forall registers_ok evs ->
       r = ERROR_FAIL /\ timed_out is_zero evs)).
Proof.
  induction n as [|n IH]; intros i s secs Hi Hsecs Hlen;
    rewrite erase_loop_unfold.
  - step. split; [|congruence]. intros _. exists [].
    destruct secs; [|done]. cbn. repeat split; auto.
  - destruct secs as [|sec secs]; [done|].
    apply take_drop_cons in Hsecs as [Hsec Hsecs].
    step. step. rewrite Hsec.
    step. step. on_result r.
    2:{ split; [congruence|]. intros _ Hall. link_failed Hall E. }
    step. step. on_result r.
    2:{ cbn. split; [congruence|]. intros _ Hall. link_failed Hall E. }
    step. eapply emits_mono; [apply poll_ispgo_spec'|].
    intros r evs s1 _ Hb1 [Hok Hfail]. cbn in Hb1. on_result r.
    2:{ split; [congruence|]. intros _ Hall.
        destruct Hfail as [-> (busy & final & -> & Hl & Hb)]; [done| |].
        { part_of Hall. }
        split; [done|].
        exists [EvWriteU32 NUMICRO_FLASH_ISPADR
                  (u32 (bank_base (bank s) + sec_offset sec)) ERROR_OK;
                EvWriteU32 NUMICRO_FLASH_ISPTRG ISPTRG_ISPGO ERROR_OK],
          busy, final. cbn. repeat split; auto. }
    destruct Hok as (busy & final & -> & Hb & Hl & Hd); [done|].
    apply Z.eqb_eq in Hd. subst final.
    clear Hfail.
    step. eapply emits_mono; [apply check_ispff_spec|].
    intros r evs s2 _ Hb2 [Hok Hfail]. on_result r.
    2:{ split; [congruence|]. intros _ Hall. exfalso. apply Hfail; [done|].
        part_of Hall. }
    destruct Hok as (st & ->); [done|]. clear Hfail.
    eapply emits_mono.
    { apply (IH (i + 1) _ secs); [lia| |by injection Hlen].
      rewrite Hb2, Hb1.
      replace (Z.to_nat (i + 1)) with (S (Z.to_nat i)) by lia. exact Hsecs. }
    intros r evs s3 Hall3 _ [Hok Hfail]. rewrite Hb2, Hb1 in Hok.
    split.
    + intros ->. destruct Hok as (rounds & -> & Hlr & Hr); [done|].
      exists ((busy, st) :: rounds). cbn.
      split.
      { unfold erase_round_events. cbn. rewrite <- !app_assoc. reflexivity. }
      split; [by rewrite Hlr|]. constructor; [|done]. by split.
    + intros Hne Hall.
      destruct Hfail as [-> Hto]; [done| |].
      { part_of Hall. }
      split; [done|].
      eapply timed_out_suffix; [|exact Hto].
      suffix_log.
Qed.

Lemma length_sector_range b first last :
  0 <= first -> last < num_sectors b ->
  length (sector_range b first last) = Z.to_nat (last + 1 - first).
Proof.
  unfold sector_range, num_sectors. intros Hf Hl.
  rewrite length_take, length_drop. lia.
Qed.

Lemma numicro_erase_spec first last s :
  is_halted (state (bank_target (bank s))) = true ->
  0 <= first -> last < num_sectors (bank s) ->
  emits A (numicro_erase first last) s (fun r evs _ =>
    (r = ERROR_OK ->
       exists p p' a c rounds,
         evs = init_isp_events p p' a c
               ++ Wr NUMICRO_FLASH_ISPCMD ISPCMD_ERASE
               :: erase_events (bank_base (bank s))
                    (sector_range (bank s) first last) rounds /\
         length rounds = Z.to_nat (last + 1 - first) /\
         Forall (fun round =>
                   Forall (fun st => is_zero st = false) round.1 /\
                   (length round.1 <= 100)%nat) rounds) /\
    (r <> ERROR_OK -> Forall registers_ok evs ->
       r = ERROR_FAIL /\ timed_out is_zero evs)).
Proof.
  intros Hh Hf Hl. unfold numicro_erase.
  step. step. rewrite Hh. cbn.
  step. eapply emits_mono; [apply numicro_init_isp_spec|].
  intros r evs s1 _ Hb1 (_ & Hok & Hfail). on_result r.
  2:{ split; [congruence|]. intros _ Hall. exfalso. by apply Hfail. }
  destruct Hok as (_ & p & p' & a & c & ->); [done|]. clear Hfail.
  step. step. on_result r.
  2:{ split; [congruence|]. intros _ Hall. link_failed Hall E. }
  eapply emits_mono.
  { apply (erase_loop_spec _ _ first _ (sector_range (bank s) first last));
      [done| |].
    - cbn. rewrite Hb1. reflexivity.
    - by apply length_sector_range. }
  intros r evs s2 _ _ [Hok Hfail]. cbn in Hok. rewrite Hb1 in Hok. split.
  - intros ->. destruct Hok as (rounds & -> & Hlr & Hr); [done|].
    exists p, p', a, c, rounds. split; [|done]. same_log.
  - intros Hne Hall. destruct Hfail as [-> Hto]; [done| |].
    { part_of Hall. }
    split; [done|]. eapply timed_out_suffix; [|exact Hto].
    suffix_log.
Qed.

Lemma alloc_source_unfold t wa rounds b :
  alloc_source t wa rounds b =
  (let* (r, source) := target_alloc_working_area t b in
   if is_ok r then ret (ERROR_OK, (b, source)) else
   let buffer_size := b / 4 in
   if buffer_size <=? 256 then
     let* _ := target_free_working_area t wa in
     ret (ERROR_TARGET_RESOURCE_NOT_AVAILABLE, (buffer_size, source))
   else
     match rounds with
     | O => undefined
     | S rounds' => alloc_source t wa rounds' buffer_size
     end).
Proof. destruct rounds; reflexivity. Qed.

Lemma shrink_sizes_unfold rounds b :
  shrink_sizes rounds b =
  b :: (if b / 4 <=? 256 then []
        else match rounds with
             | O => []
             | S rounds' => shrink_sizes rounds' (b / 4)
             end).
Proof. destruct rounds; reflexivity. Qed.

Lemma alloc_source_spec t wa rounds : forall b s,
  256 < b -> b < 2 ^ (Z.of_nat rounds + 1) ->
  emits A (alloc_source t wa rounds b) s (fun res evs _ =>
    (res.1 = ERROR_OK /\ 256 < res.2.1 /\
     exists tried fevs,
       evs = fevs ++ [EvAlloc res.2.1 ERROR_OK res.2.2] /\
       failed_allocs tried fevs /\
       (tried ++ [res.2.1]) `prefix_of` shrink_sizes rounds b) \/
    (res.1 = ERROR_TARGET_RESOURCE_NOT_AVAILABLE /\
     exists fevs,
       evs = fevs ++ [EvFree wa] /\
       failed_allocs (shrink_sizes rounds b) fevs)).
Proof.
  induction rounds as [|n IH]; intros b s Hb Hr.
  { exfalso. change (2 ^ (Z.of_nat 0 + 1)) with 2 in Hr. lia. }
  rewrite alloc_source_unfold, shrink_sizes_unfold.
  step. step. cbn. on_result r.
  { step. left. cbn. split; [done|]. split; [done|].
    exists [], []. split; [done|]. split; [constructor|].
    by apply prefix_cons, prefix_nil. }
  destruct (b / 4 <=? 256) eqn:Hq.
  - step. step. step. right. cbn. split; [done|].
    exists [EvAlloc b r area]. split; [done|].
    constructor; [by exists r, area|constructor].
  - apply Z.leb_gt in Hq.
    assert (b / 4 < 2 ^ (Z.of_nat n + 1)) as Hr'.
    { apply Z.div_lt_upper_bound; [lia|].
      replace (Z.of_nat (S n) + 1) with (Z.of_nat n + 1 + 1) in Hr by lia.
      rewrite (Z.pow_add_r _ _ 1) in Hr by lia.
      assert (0 < 2 ^ (Z.of_nat n + 1)) by (apply Z.pow_pos_nonneg; lia).
      lia. }
    eapply emits_mono; [apply (IH (b / 4)); [exact Hq|exact Hr']|].
    intros [r' [bs src]] evs s1 _ _ Hres. cbn in *.
    destruct Hres as [(-> & Hbs & tried & fevs & -> & Hf & Hp)
                     |(-> & fevs & -> & Hf)].
    + left. split; [done|]. split; [done|].
      exists (b :: tried), (EvAlloc b r area :: fevs).
      split; [done|]. split.
      * constructor; [by exists r, area|done].
      * cbn. by apply prefix_cons.
    + right. split; [done|].
      exists (EvAlloc b r area :: fevs). split; [done|].
      constructor; [by exists r, area|done].
Qed.

Lemma initial_buffer_size_eq t :
  (if 1024 <? working_area_size t / 2 then working_area_size t / 2 else 1024)
  = initial_buffer_size t.
Proof.
  unfold initial_buffer_size.
  destruct (1024 <? working_area_size t / 2) eqn:E;
    [apply Z.ltb_lt in E|apply Z.ltb_ge in E]; lia.
Qed.

Lemma initial_buffer_size_rounds t :
  256 < initial_buffer_size t /\
  initial_buffer_size t
  < 2 ^ (Z.of_nat (Z.to_nat (Z.log2 (initial_buffer_size t))) + 1).
Proof.
  assert (1024 <= initial_buffer_size t) by (unfold initial_buffer_size; lia).
  split; [lia|].
  pose proof (Z.log2_nonneg (initial_buffer_size t)).
  rewrite Z2Nat.id by done.
  replace (Z.log2 (initial_buffer_size t) + 1)
    with (Z.succ (Z.log2 (initial_buffer_size t))) by lia.
  apply Z.log2_spec. lia.
Qed.

Lemma land_1_of_mod_4 offset : offset mod 4 = 0 -> Z.land offset 1 = 0.
Proof.
  intros Hm. change 1 with (Z.ones 1). rewrite Z.land_ones by lia.
  change (2 ^ 1) with 2.
  assert (offset = 2 * (offset / 4) * 2) as ->
    by (pose proof (Z.div_mod offset 4); lia).
  apply Z.mod_mul. lia.
Qed.

(** With no data buffer to be had, the block write ends with
    resource-not-available, after asking for each size in turn. *)
Lemma numicro_writeblock_unavailable buffer offset count s :
  (forall e, A e -> accel_unavailable e) ->
  Z.land offset 1 = 0 ->
  emits A (numicro_writeblock buffer offset count) s (fun r evs _ =>
    r = ERROR_TARGET_RESOURCE_NOT_AVAILABLE /\
    gave_up_events (bank_target (bank s)) evs).
Proof.
  intros HU Hal. unfold numicro_writeblock.
  step. step. rewrite Hal. cbn. rewrite initial_buffer_size_eq.
  step. step. cbn. on_result r.
  2:{ step. split; [done|]. exists area. left. by exists r. }
  step. step. on_result r.
  2:{ apply HU in H2. cbn in H2. done. }
  destruct (initial_buffer_size_rounds (bank_target (bank s))) as [Hlo Hhi].
  step. eapply emits_mono; [by apply alloc_source_spec|].
  intros [r [bs src]] evs s1 Hall _ Hres. cbn in Hres.
  destruct Hres as [(-> & Hbs & tried & fevs & -> & Hf & Hp)
                   |(-> & fevs & -> & Hf)]; cbn.
  - exfalso. apply Forall_app in Hall as [_ Hall].
    apply Forall_cons in Hall as [Hall _]. apply HU in Hall. cbn in Hall.
    apply Hall; [|done]. unfold sizeof_numicro_flash_write_code. cbn. lia.
  - step. split; [done|]. exists area. right. exists fevs. split; [|done].
    cbn. by rewrite app_nil_r.
Qed.

Lemma write_loop_unfold t buffer offset n i :
  write_loop t buffer offset n i =
  match n with
  | O => ret ERROR_OK
  | S n' =>
      let* b := get_bank in
      check* target_write_u32 t NUMICRO_FLASH_ISPADR
               (u32 (bank_base b + offset + i)) in
      check* target_write_memory t NUMICRO_FLASH_ISPDAT 4 1
               (take 4 (drop (Z.to_nat i) buffer)) in
      check* target_write_u32 t NUMICRO_FLASH_ISPTRG ISPTRG_ISPGO in
      check* poll_ispgo t is_zero 100 in
      write_loop t buffer offset n' (i + 4)
  end.
Proof. destruct n; reflexivity. Qed.

Lemma link_ok_write_memory evs addr size count data r :
  Forall link_ok evs -> EvWriteMemory addr size count data r ∈ evs ->
  r = ERROR_OK.
Proof. intros Hall Hin. by apply (proj1 (Forall_forall _ _) Hall) in Hin. Qed.

Lemma write_loop_spec t buffer offset n : forall i s,
  emits A (write_loop t buffer offset n i) s (fun r evs _ =>
    (r = ERROR_OK ->
       exists rounds,
         evs = write_events (bank_base (bank s)) offset buffer i rounds /\
         length rounds = n /\
         Forall (fun busy => Forall (fun st => is_zero st = false) busy /\
                             (length busy <= 100)%nat) rounds) /\
    (r <> ERROR_OK -> Forall link_ok evs ->
       r = ERROR_FAIL /\ timed_out is_zero evs)).
Proof.
  induction n as [|n IH]; intros i s; rewrite write_loop_unfold.
  - step. split; [|congruence]. intros _. exists []. by repeat split.
  - step. step. step. step. on_result r.
    2:{ split; [congruence|]. intros _ Hall.
        apply link_ok_registers_ok in Hall. link_failed Hall E. }
    step. step. on_result r.
    2:{ split; [congruence|]. intros _ Hall. exfalso. apply E.
        eapply link_ok_write_memory; [exact Hall|in_log]. }
    step. step. on_result r.
    2:{ split; [congruence|]. intros _ Hall.
        apply link_ok_registers_ok in Hall. link_failed Hall E. }
    step. eapply emits_mono; [apply poll_ispgo_spec'|].
    intros r evs s1 _ Hb1 [Hok Hfail]. cbn in Hb1. on_result r.
    2:{ split; [congruence|]. intros _ Hall.
        destruct Hfail as [-> (busy & final & -> & Hl & Hb)]; [done| |].
        { apply link_ok_registers_ok in Hall. part_of Hall. }
        split; [done|].
        eexists [_; _; _], busy, final. cbn. repeat split; auto. }
    destruct Hok as (busy & final & -> & Hb & Hl & Hd); [done|].
    apply Z.eqb_eq in Hd. subst final. clear Hfail.
    eapply emits_mono; [apply (IH (i + 4))|].
    intros r evs s2 _ _ [Hok Hfail]. rewrite Hb1 in Hok. split.
    + intros ->. destruct Hok as (rounds & -> & Hlr & Hr); [done|].
      exists (busy :: rounds). split.
      { cbn. unfold write_round_events. same_log. }
      split; [cbn; by rewrite Hlr|]. constructor; [|done]. by split.
    + intros Hne Hall. destruct Hfail as [-> Hto]; [done| |].
      { part_of Hall. }
      split; [done|]. eapply timed_out_suffix; [|exact Hto]. suffix_log.
Qed.

(** When the accelerator cannot be used, the write goes through the
    single-word loop, and fails only if the link fails or a poll times
    out. *)
Lemma numicro_write_fallback buffer offset count s :
  (forall e, A e -> accel_unavailable e) ->
  is_halted (state (bank_target (bank s))) = true ->
  offset mod 4 = 0 -> count mod 4 = 0 ->
  emits A (numicro_write buffer offset count) s (fun r evs _ =>
    (r = ERROR_OK ->
       exists p p' a c wbevs rounds st,
         evs = init_isp_events p p' a c
               ++ Wr NUMICRO_FLASH_ISPCMD ISPCMD_WRITE
               :: wbevs
               ++ write_events (bank_base (bank s)) offset buffer 0 rounds
               ++ ispff_events st ERROR_OK /\
         gave_up_events (bank_target (bank s)) wbevs /\
         length rounds = Z.to_nat (count / 4)) /\
    (r <> ERROR_OK -> Forall link_ok evs ->
       r = ERROR_FAIL /\ timed_out is_zero evs)).
Proof.
  intros HU Hh Ho Hc. unfold numicro_write.
  step. step. rewrite Hh. cbn.
  step. eapply emits_mono; [apply numicro_init_isp_spec|].
  intros r evs s1 _ Hb1 (_ & Hok & Hfail). on_result r.
  2:{ split; [congruence|]. intros _ Hall. exfalso. apply Hfail; auto.
      by apply link_ok_registers_ok. }
  destruct Hok as (_ & p & p' & a & c & ->); [done|]. clear Hfail.
  step. step. on_result r.
  2:{ split; [congruence|]. intros _ Hall.
      apply link_ok_registers_ok in Hall. link_failed Hall E. }
  step. apply emits_assert; [by apply Z.eqb_eq|].
  step. apply emits_assert; [by apply Z.eqb_eq|].
  step. eapply emits_mono.
  { apply numicro_writeblock_unavailable; [done|by apply land_1_of_mod_4]. }
  intros r wbevs s2 _ Hb2 [-> Hgu]. cbn in Hb2, Hgu. cbn.
  rewrite Hb1 in Hgu.
  step. eapply emits_mono; [apply write_loop_spec|].
  intros r evs s3 _ Hb3 [Hok Hfail]. rewrite Hb2, Hb1 in Hok. on_result r.
  2:{ split; [congruence|]. intros _ Hall.
      destruct Hfail as [-> Hto]; [done| |].
      { part_of Hall. }
      split; [done|]. eapply timed_out_suffix; [|exact Hto]. suffix_log. }
  destruct Hok as (rounds & -> & Hlr & Hr); [done|]. clear Hfail.
  step. eapply emits_mono; [apply check_ispff_spec|].
  intros r evs s4 _ _ [Hok Hfail]. on_result r.
  2:{ split; [congruence|]. intros _ Hall. exfalso. apply Hfail; [done|].
      apply link_ok_registers_ok in Hall. part_of Hall. }
  destruct Hok as (st & ->); [done|].
  step. split; [|congruence]. intros _.
  exists p, p', a, c, wbevs, rounds, st. split; [|done]. same_log.
Qed.

End Components.

(** * Properties of the driver *)

Lemma sim_respects_registers_ok (c : sim_script) :
  (forall a, sim_read_ret c a = ERROR_OK) ->
  (forall a, sim_write_ret c a = ERROR_OK) ->
  host_respects (H := sim_state c) registers_ok.
Proof.
  intros Hr Hw. split; try (intros; exact I).
  - intros h addr. simpl. unfold sim_read_u32.
    destruct (addr =? NUMICRO_FLASH_ISPTRG);
      [destruct (sim_polls h <? sim_busy_polls c)%nat|]; simpl; apply Hr.
  - intros h addr v. simpl. unfold sim_write_u32.
    destruct (addr =? NUMICRO_FLASH_ISPTRG); simpl; apply Hw.
Qed.

(** C6: when the target is not halted, every public flash operation
    (erase, write, protect_check, and the read_isp, write_isp and chip_erase
    commands, which all start with numicro_init_isp) returns
    ERROR_TARGET_NOT_HALTED and leaves the state as it was: nothing is
    added to the log of target accesses and the host has not been touched,
    so no register has been written. *)
Theorem not_halted_fails_without_access {H : Type} `{Host H}
    (parse_u32 : string -> retval * Z) (t : target) (s : St H) :
  is_halted (state t) = false ->
  numicro_init_isp t s = Some (ERROR_TARGET_NOT_HALTED, s) /\
  (forall arg0 address ispdat,
     parse_u32 arg0 = (ERROR_OK, address) ->
     numicro_handle_read_isp_command parse_u32 [arg0] t ispdat s
     = Some (ERROR_TARGET_NOT_HALTED, s)) /\
  (forall arg0 arg1 address ispdat rdat,
     parse_u32 arg0 = (ERROR_OK, address) ->
     parse_u32 arg1 = (ERROR_OK, ispdat) ->
     numicro_handle_write_isp_command parse_u32 [arg0; arg1] t rdat s
     = Some (ERROR_TARGET_NOT_HALTED, s)) /\
  (forall rdat,
     numicro_handle_chip_erase_command [] t rdat s
     = Some (ERROR_TARGET_NOT_HALTED, s)) /\
  (bank_target (bank s) = t ->
   (forall first last,
      numicro_erase first last s = Some (ERROR_TARGET_NOT_HALTED, s)) /\
   (forall buffer offset count,
      numicro_write buffer offset count s = Some (ERROR_TARGET_NOT_HALTED, s)) /\
   (forall config,
      numicro_protect_check config s = Some (ERROR_TARGET_NOT_HALTED, s))).
Proof.
  intros Hh.
  assert (numicro_init_isp t s = Some (ERROR_TARGET_NOT_HALTED, s)) as Hinit.
  { unfold numicro_init_isp. rewrite Hh. reflexivity. }
  split; [exact Hinit|]. split; [|split; [|split; [|]]].
  - intros arg0 address ispdat Hp. unfold numicro_handle_read_isp_command.
    rewrite Hp. simpl. unfold check, bind. rewrite Hinit. reflexivity.
  - intros arg0 arg1 address ispdat rdat Hp0 Hp1.
    unfold numicro_handle_write_isp_command.
    rewrite Hp0, Hp1. simpl. unfold check, bind. rewrite Hinit. reflexivity.
  - intros rdat. unfold numicro_handle_chip_erase_command.
    unfold check, bind. rewrite Hinit. reflexivity.
  - intros Ht. split; [|split].
    + intros first last. unfold numicro_erase, bind, get_bank.
      rewrite Ht, Hh. reflexivity.
    + intros buffer offset count. unfold numicro_write, bind, get_bank.
      rewrite Ht, Hh. reflexivity.
    + intros config. unfold numicro_protect_check, bind, get_bank.
      rewrite Ht, Hh. reflexivity.
Qed.

Lemma not_halted_fails_without_access_witness :
  let s := start sim_good (aprom_bank running_target) in
  numicro_handle_chip_erase_command [] running_target 0 s
  = Some (ERROR_TARGET_NOT_HALTED, s) /\
  numicro_erase 0 63 s = Some (ERROR_TARGET_NOT_HALTED, s).
Proof.
  intros s.
  destruct (not_halted_fails_without_access parse_zero running_target s)
    as (_ & _ & _ & Hce & Hbank); [reflexivity|].
  destruct Hbank as (He & _ & _); [reflexivity|].
  split; [apply Hce|apply He].
Defined.

(** C7: when the register accesses succeed, numicro_fmc_cmd writes the
    command code to ISPCMD, the write data to ISPDAT, the address to ISPADR
    and the GO bit to ISPTRG, in this order, and then polls ISPTRG with a
    1 ms pause after every poll that finds GO set.  [busy] are the statuses
    of those polls, at most 100 of them, and [final] is the last status
    read.  Either GO is clear in [final]: the data register is read and its
    value returned with ERROR_OK.  Or GO is still set at the 101st poll,
    after 100 retries: the command fails with ERROR_FAIL (the time-out)
    without reading the data register, and the caller's variable keeps its
    content. *)
Theorem numicro_fmc_cmd_protocol {H : Type} `{Host H}
    (t : target) (cmd addr wdata rdata : Z) (s : St H) :
  host_respects registers_ok ->
  exists r v s' busy final,
    numicro_fmc_cmd t cmd addr wdata rdata s = Some ((r, v), s') /\
    Forall (fun st => Z.land st ISPTRG_ISPGO <> 0) busy /\
    (length busy <= 100)%nat /\
    ((Z.land final ISPTRG_ISPGO = 0 /\ r = ERROR_OK /\
      trace s' =
        trace s
        ++ [Wr NUMICRO_FLASH_ISPCMD cmd; Wr NUMICRO_FLASH_ISPDAT wdata;
            Wr NUMICRO_FLASH_ISPADR addr;
            Wr NUMICRO_FLASH_ISPTRG ISPTRG_ISPGO]
        ++ flat_map (fun st => [Rd NUMICRO_FLASH_ISPTRG st; EvSleep 1]) busy
        ++ [Rd NUMICRO_FLASH_ISPTRG final; Rd NUMICRO_FLASH_ISPDAT v])
     \/
     (Z.land final ISPTRG_ISPGO <> 0 /\ length busy = 100%nat /\
      r = ERROR_FAIL /\ v = rdata /\
      trace s' =
        trace s
        ++ [Wr NUMICRO_FLASH_ISPCMD cmd; Wr NUMICRO_FLASH_ISPDAT wdata;
            Wr NUMICRO_FLASH_ISPADR addr;
            Wr NUMICRO_FLASH_ISPTRG ISPTRG_ISPGO]
        ++ flat_map (fun st => [Rd NUMICRO_FLASH_ISPTRG st; EvSleep 1]) busy
        ++ [Rd NUMICRO_FLASH_ISPTRG final])).
Proof.
  intros HA.
  destruct (numicro_fmc_cmd_spec registers_ok HA t cmd addr wdata rdata s)
    as ([r v] & s' & evs & Hrun & Htr & _ & Hall & Hok & Hfail).
  simpl in Hok, Hfail.
  assert (forall l, Forall (fun st => go_clear st = false) l ->
                    Forall (fun st => Z.land st ISPTRG_ISPGO <> 0) l) as Hgo.
  { intros l Hl. eapply Forall_impl; [exact Hl|].
    intros st Hst. unfold go_clear in Hst. by apply Z.eqb_neq. }
  destruct (decide (r = ERROR_OK)) as [->|Hne].
  - destruct Hok as (busy & final & -> & Hb & Hl & Hd); [done|].
    exists ERROR_OK, v, s', busy, final.
    split; [done|]. split; [by apply Hgo|]. split; [done|].
    left. split; [by apply Z.eqb_eq|]. split; [done|]. exact Htr.
  - destruct Hfail as (busy & final & -> & -> & -> & Hb & Hl & Hd); [done..|].
    exists ERROR_FAIL, rdata, s', busy, final.
    split; [done|]. split; [by apply Hgo|]. split; [lia|].
    right. split; [by apply Z.eqb_neq|]. repeat split; auto.
Qed.

Lemma numicro_fmc_cmd_protocol_witness :
  exists r v s' busy final,
    numicro_fmc_cmd halted_target ISPCMD_READ NUMICRO_CONFIG0 0 7
      (start (sim_busy 2) (aprom_bank halted_target))
    = Some ((r, v), s') /\
    Forall (fun st => Z.land st ISPTRG_ISPGO <> 0) busy /\
    (length busy <= 100)%nat /\
    ((Z.land final ISPTRG_ISPGO = 0 /\ r = ERROR_OK /\
      trace s' =
        [Wr NUMICRO_FLASH_ISPCMD ISPCMD_READ; Wr NUMICRO_FLASH_ISPDAT 0;
         Wr NUMICRO_FLASH_ISPADR NUMICRO_CONFIG0;
         Wr NUMICRO_FLASH_ISPTRG ISPTRG_ISPGO]
        ++ flat_map (fun st => [Rd NUMICRO_FLASH_ISPTRG st; EvSleep 1]) busy
        ++ [Rd NUMICRO_FLASH_ISPTRG final; Rd NUMICRO_FLASH_ISPDAT v])
     \/
     (Z.land final ISPTRG_ISPGO <> 0 /\ length busy = 100%nat /\
      r = ERROR_FAIL /\ v = 7 /\
      trace s' =
        [Wr NUMICRO_FLASH_ISPCMD ISPCMD_READ; Wr NUMICRO_FLASH_ISPDAT 0;
         Wr NUMICRO_FLASH_ISPADR NUMICRO_CONFIG0;
         Wr NUMICRO_FLASH_ISPTRG ISPTRG_ISPGO]
        ++ flat_map (fun st => [Rd NUMICRO_FLASH_ISPTRG st; EvSleep 1]) busy
        ++ [Rd NUMICRO_FLASH_ISPTRG final])).
Proof.
  apply (numicro_fmc_cmd_protocol halted_target ISPCMD_READ NUMICRO_CONFIG0 0 7
           (start (sim_busy 2) (aprom_bank halted_target))).
  apply sim_respects_registers_ok; reflexivity.
Defined.

Example numicro_fmc_cmd_busy_twice :
  trace_of (numicro_fmc_cmd halted_target ISPCMD_READ NUMICRO_CONFIG0 0 7
              (start (sim_busy 2) (aprom_bank halted_target)))
  = [Wr NUMICRO_FLASH_ISPCMD ISPCMD_READ; Wr NUMICRO_FLASH_ISPDAT 0;
     Wr NUMICRO_FLASH_ISPADR NUMICRO_CONFIG0;
     Wr NUMICRO_FLASH_ISPTRG ISPTRG_ISPGO;
     Rd NUMICRO_FLASH_ISPTRG 1; EvSleep 1;
     Rd NUMICRO_FLASH_ISPTRG 1; EvSleep 1;
     Rd NUMICRO_FLASH_ISPTRG 0; Rd NUMICRO_FLASH_ISPDAT 0].
Proof. vm_compute. reflexivity. Qed.

Example numicro_fmc_cmd_stuck :
  result_of (numicro_fmc_cmd halted_target ISPCMD_READ NUMICRO_CONFIG0 0 7
               (start (sim_busy 101) (aprom_bank halted_target)))
  = Some (ERROR_FAIL, 7) /\
  length (trace_of (numicro_fmc_cmd halted_target ISPCMD_READ NUMICRO_CONFIG0 0 7
               (start (sim_busy 101) (aprom_bank halted_target))))
  = (4 + 101 + 100)%nat.
Proof. vm_compute. split; reflexivity. Qed.

(** ** Erase *)

Lemma erase_view_app evs evs' :
  erase_view (evs ++ evs') = erase_view evs ++ erase_view evs'.
Proof. apply List.filter_app. Qed.

Lemma ispff_view_app evs evs' :
  ispff_view (evs ++ evs') = ispff_view evs ++ ispff_view evs'.
Proof. apply List.filter_app. Qed.

Lemma erase_view_init p p' a c : erase_view (init_isp_events p p' a c) = [].
Proof.
  unfold init_isp_events, unlock_events. destruct (p =? 0); reflexivity.
Qed.

Lemma ispff_view_init p p' a c :
  ispff_view (init_isp_events p p' a c)
  = [Rd NUMICRO_FLASH_ISPCON c;
     Wr NUMICRO_FLASH_ISPCON
       (Z.lor c (Z.lor (Z.lor (Z.lor (Z.lor ISPCON_ISPFF ISPCON_LDUEN)
                                 ISPCON_APUEN) ISPCON_CFGUEN) ISPCON_ISPEN))].
Proof.
  unfold init_isp_events, unlock_events. destruct (p =? 0); reflexivity.
Qed.

Lemma erase_view_busy busy :
  Forall (fun st => is_zero st = false) busy ->
  erase_view (busy_events busy) = [].
Proof.
  induction 1 as [|st busy Hst _ IH]; [reflexivity|].
  unfold busy_events in *. simpl. unfold is_zero in Hst. rewrite Hst.
  simpl. exact IH.
Qed.

Lemma ispff_view_busy busy : ispff_view (busy_events busy) = [].
Proof. induction busy as [|st busy IH]; [reflexivity|exact IH]. Qed.

Lemma erase_view_ispff st r : erase_view (ispff_events st r) = [].
Proof.
  unfold ispff_events. destruct (Z.land st ISPCON_ISPFF =? 0); reflexivity.
Qed.

Lemma ispff_view_ispff st r : ispff_view (ispff_events st r) = ispff_events st r.
Proof.
  unfold ispff_events. destruct (Z.land st ISPCON_ISPFF =? 0); reflexivity.
Qed.

Lemma erase_view_events base secs : forall rounds,
  length rounds = length secs ->
  Forall (fun round : list Z * Z =>
            Forall (fun st => is_zero st = false) round.1 /\
            (length round.1 <= 100)%nat) rounds ->
  erase_view (erase_events base secs rounds)
  = flat_map (fun sec =>
                [Wr NUMICRO_FLASH_ISPADR (u32 (base + sec_offset sec));
                 Wr NUMICRO_FLASH_ISPTRG ISPTRG_ISPGO;
                 Rd NUMICRO_FLASH_ISPTRG 0]) secs.
Proof.
  induction secs as [|sec secs IH]; intros [|round rounds] Hl Hr; try done.
  apply Forall_cons in Hr as [[Hb _] Hr].
  change (erase_events base (sec :: secs) (round :: rounds))
    with (erase_round_events base sec round ++ erase_events base secs rounds).
  unfold erase_round_events. rewrite !erase_view_app.
  rewrite erase_view_busy by done. rewrite erase_view_ispff.
  rewrite IH by (simpl in Hl; auto with lia). reflexivity.
Qed.

Lemma ispff_view_events base secs : forall rounds,
  length rounds = length secs ->
  ispff_view (erase_events base secs rounds)
  = flat_map (fun round : list Z * Z =>
                Wr NUMICRO_FLASH_ISPTRG ISPTRG_ISPGO
                :: ispff_events round.2 ERROR_OK) rounds.
Proof.
  induction secs as [|sec secs IH]; intros [|round rounds] Hl; try done.
  change (erase_events base (sec :: secs) (round :: rounds))
    with (erase_round_events base sec round ++ erase_events base secs rounds).
  unfold erase_round_events. rewrite !ispff_view_app.
  rewrite ispff_view_busy, ispff_view_ispff.
  rewrite IH by (simpl in Hl; auto with lia). reflexivity.
Qed.

Lemma writes_to_app addr evs evs' :
  writes_to addr (evs ++ evs') = writes_to addr evs ++ writes_to addr evs'.
Proof. apply flat_map_app. Qed.

Lemma writes_to_erase_view addr evs :
  addr = NUMICRO_FLASH_ISPCMD ->
  writes_to addr (erase_view evs) = writes_to addr evs.
Proof.
  intros ->. induction evs as [|e evs IH]; [reflexivity|].
  unfold erase_view in *. simpl.
  destruct e; simpl; try exact IH.
  - destruct (_ && _ && _); simpl; exact IH.
  - destruct (addr =? NUMICRO_FLASH_ISPCMD) eqn:E1; simpl.
    + rewrite E1. by rewrite IH.
    + destruct (_ || _); simpl; [rewrite E1|]; exact IH.
Qed.

(** C2, as the code has it: a failure flag (ISPFF) found set after a
    sector's erase does not abort the range and is not reported.  On a
    halted target and a range within the bank, numicro_erase always
    returns.  When it returns ERROR_OK it has triggered the erase of every
    sector of the range, and after each trigger it has read the control
    register and, where ISPFF was set in the status [st] read, written
    [st | ISPFF] back to clear the flag before going on with the next
    sector.  When it returns an error although every register access
    succeeded, the error is ERROR_FAIL from a poll that ran out of retries.
    The log only grows and the bank is unchanged: nothing is rolled back. *)
Theorem numicro_erase_clears_failure_flag {H : Type} `{Host H}
    (first last : Z) (s : St H) :
  is_halted (state (bank_target (bank s))) = true ->
  0 <= first -> last < num_sectors (bank s) ->
  exists r s' evs,
    numicro_erase first last s = Some (r, s') /\
    trace s' = trace s ++ evs /\ bank s' = bank s /\
    (r = ERROR_OK ->
       exists c statuses,
         length statuses = Z.to_nat (last + 1 - first) /\
         ispff_view evs =
           [Rd NUMICRO_FLASH_ISPCON c;
            Wr NUMICRO_FLASH_ISPCON
              (Z.lor c (Z.lor (Z.lor (Z.lor (Z.lor ISPCON_ISPFF ISPCON_LDUEN)
                                        ISPCON_APUEN) ISPCON_CFGUEN)
                          ISPCON_ISPEN))]
           ++ flat_map (fun st =>
                          Wr NUMICRO_FLASH_ISPTRG ISPTRG_ISPGO
                          :: Rd NUMICRO_FLASH_ISPCON st
                          :: (if Z.land st ISPCON_ISPFF =? 0 then []
                              else [Wr NUMICRO_FLASH_ISPCON
                                      (Z.lor st ISPCON_ISPFF)]))
                statuses) /\
    (r <> ERROR_OK -> Forall registers_ok evs ->
       r = ERROR_FAIL /\ timed_out is_zero evs).
Proof.
  intros Hh Hf Hl.
  destruct (numicro_erase_spec any_host any_host_respected first last s Hh Hf Hl)
    as (r & s' & evs & Hrun & Htr & Hb & _ & Hok & Hfail).
  exists r, s', evs. split; [done|]. split; [done|]. split; [done|].
  split; [|exact Hfail].
  intros Hr. destruct (Hok Hr) as (p & p' & a & c & rounds & -> & Hlr & Hrounds).
  exists c, (map snd rounds). split; [by rewrite length_map|].
  rewrite ispff_view_app, ispff_view_init.
  change (Wr NUMICRO_FLASH_ISPCMD ISPCMD_ERASE :: ?l)
    with ([Wr NUMICRO_FLASH_ISPCMD ISPCMD_ERASE] ++ l).
  rewrite ispff_view_app.
  rewrite ispff_view_events
    by (rewrite length_sector_range by done; exact Hlr).
  f_equal. simpl. clear. induction rounds as [|[busy st] rounds IH]; [done|].
  cbn [flat_map map snd]. rewrite IH. unfold ispff_events.
  destruct (Z.land st ISPCON_ISPFF =? 0); reflexivity.
Qed.

Lemma numicro_erase_clears_failure_flag_witness :
  exists r s' evs,
    numicro_erase 0 1 (start sim_ispff (aprom_bank halted_target))
    = Some (r, s') /\
    trace s' = [] ++ evs /\ bank s' = aprom_bank halted_target /\
    (r = ERROR_OK ->
       exists c statuses,
         length statuses = Z.to_nat (1 + 1 - 0) /\
         ispff_view evs =
           [Rd NUMICRO_FLASH_ISPCON c;
            Wr NUMICRO_FLASH_ISPCON
              (Z.lor c (Z.lor (Z.lor (Z.lor (Z.lor ISPCON_ISPFF ISPCON_LDUEN)
                                        ISPCON_APUEN) ISPCON_CFGUEN)
                          ISPCON_ISPEN))]
           ++ flat_map (fun st =>
                          Wr NUMICRO_FLASH_ISPTRG ISPTRG_ISPGO
                          :: Rd NUMICRO_FLASH_ISPCON st
                          :: (if Z.land st ISPCON_ISPFF =? 0 then []
                              else [Wr NUMICRO_FLASH_ISPCON
                                      (Z.lor st ISPCON_ISPFF)]))
                statuses) /\
    (r <> ERROR_OK -> Forall registers_ok evs ->
       r = ERROR_FAIL /\ timed_out is_zero evs).
Proof.
  apply (numicro_erase_clears_failure_flag 0 1
           (start sim_ispff (aprom_bank halted_target))).
  - reflexivity.
  - lia.
  - vm_compute. reflexivity.
Defined.

(** C2, as stated, fails: with ISPFF set in every read of the control
    register, erasing sectors 0 and 1 returns ERROR_OK; after the flag is
    found set for sector 0 it is written back and sector 1 (address 512)
    is erased all the same. *)
Lemma numicro_erase_ispff_counterexample :
  let out := numicro_erase 0 1 (start sim_ispff (aprom_bank halted_target)) in
  Z.land ISPCON_ISPFF ISPCON_ISPFF <> 0 /\
  result_of out = Some ERROR_OK /\
  drop 8 (trace_of out)
  = [Wr NUMICRO_FLASH_ISPADR 0; Wr NUMICRO_FLASH_ISPTRG ISPTRG_ISPGO;
     Rd NUMICRO_FLASH_ISPTRG 0;
     Rd NUMICRO_FLASH_ISPCON ISPCON_ISPFF; Wr NUMICRO_FLASH_ISPCON ISPCON_ISPFF;
     Wr NUMICRO_FLASH_ISPADR 512; Wr NUMICRO_FLASH_ISPTRG ISPTRG_ISPGO;
     Rd NUMICRO_FLASH_ISPTRG 0;
     Rd NUMICRO_FLASH_ISPCON ISPCON_ISPFF; Wr NUMICRO_FLASH_ISPCON ISPCON_ISPFF].
Proof. vm_compute. repeat split; try reflexivity. discriminate. Qed.

(** C4, as the code has it: numicro_erase never writes the bank.  For a
    range within the bank it returns, and the bank (every sector's erased
    and protected flag, inside and outside the range) is as it was
    before. *)
Theorem numicro_erase_keeps_sector_flags {H : Type} `{Host H}
    (first last : Z) (s : St H) :
  0 <= first -> last < num_sectors (bank s) ->
  exists r s',
    numicro_erase first last s = Some (r, s') /\ bank s' = bank s.
Proof.
  intros Hf Hl.
  destruct (is_halted (state (bank_target (bank s)))) eqn:Hh.
  - destruct (numicro_erase_spec any_host any_host_respected first last s Hh Hf Hl)
      as (r & s' & evs & Hrun & _ & Hb & _).
    by exists r, s'.
  - exists ERROR_TARGET_NOT_HALTED, s. split; [|done].
    unfold numicro_erase, bind, get_bank. rewrite Hh. reflexivity.
Qed.

Lemma numicro_erase_keeps_sector_flags_witness :
  exists r s',
    numicro_erase 0 63 (start sim_good (aprom_bank halted_target))
    = Some (r, s') /\
    bank s' = aprom_bank halted_target.
Proof.
  apply (numicro_erase_keeps_sector_flags 0 63
           (start sim_good (aprom_bank halted_target))).
  - lia.
  - vm_compute. reflexivity.
Defined.

(** C4, as stated, fails: erasing sectors 0..63 of a probed 32768-byte
    bank succeeds, and all 64 sectors still have is_erased = -1 (unknown),
    not 1. *)
Lemma numicro_erase_flags_counterexample :
  let out := numicro_erase 0 63 (start sim_good (aprom_bank halted_target)) in
  result_of out = Some ERROR_OK /\
  (map sec_is_erased <$> (bank_sectors <$> bank_of out)) = Some (repeat (-1) 64) /\
  ~ (forall b sec,
       bank_of out = Some b -> sec ∈ sector_range b 0 63 ->
       sec_is_erased sec = 1).
Proof.
  split; [vm_compute; reflexivity|]. split; [vm_compute; reflexivity|].
  intros Hall.
  specialize (Hall (aprom_bank halted_target)
                {| sec_offset := 0; sec_size := NUMICRO_PAGESIZE;
                   sec_is_erased := -1; sec_is_protected := 0 |}).
  assert (-1 = 1) as Habs; [|discriminate Habs].
  apply Hall; [vm_compute; reflexivity|]. by left.
Qed.

(** C5, as the code has it: a successful numicro_erase over a range within
    the bank writes the erase command code to the command register exactly
    once, before the first sector; then, for each sector of the range in
    order, it writes the sector's absolute address to the address register,
    sets GO in the trigger register, and polls the trigger register until
    it reads zero. *)
Theorem numicro_erase_command_once {H : Type} `{Host H}
    (first last : Z) (s : St H) :
  is_halted (state (bank_target (bank s))) = true ->
  0 <= first -> last < num_sectors (bank s) ->
  exists r s' evs,
    numicro_erase first last s = Some (r, s') /\
    trace s' = trace s ++ evs /\
    (r = ERROR_OK ->
       writes_to NUMICRO_FLASH_ISPCMD evs = [ISPCMD_ERASE] /\
       erase_view evs =
         Wr NUMICRO_FLASH_ISPCMD ISPCMD_ERASE
         :: flat_map (fun sec =>
                        [Wr NUMICRO_FLASH_ISPADR
                           (u32 (bank_base (bank s) + sec_offset sec));
                         Wr NUMICRO_FLASH_ISPTRG ISPTRG_ISPGO;
                         Rd NUMICRO_FLASH_ISPTRG 0])
              (sector_range (bank s) first last)).
Proof.
  intros Hh Hf Hl.
  destruct (numicro_erase_spec any_host any_host_respected first last s Hh Hf Hl)
    as (r & s' & evs & Hrun & Htr & Hb & _ & Hok & _).
  exists r, s', evs. split; [done|]. split; [done|].
  intros Hr. destruct (Hok Hr) as (p & p' & a & c & rounds & -> & Hlr & Hrounds).
  assert (erase_view
            (init_isp_events p p' a c ++
             Wr NUMICRO_FLASH_ISPCMD ISPCMD_ERASE
             :: erase_events (bank_base (bank s))
                  (sector_range (bank s) first last) rounds)
          = Wr NUMICRO_FLASH_ISPCMD ISPCMD_ERASE
            :: flat_map (fun sec =>
                           [Wr NUMICRO_FLASH_ISPADR
                              (u32 (bank_base (bank s) + sec_offset sec));
                            Wr NUMICRO_FLASH_ISPTRG ISPTRG_ISPGO;
                            Rd NUMICRO_FLASH_ISPTRG 0])
                 (sector_range (bank s) first last)) as Hview.
  { rewrite erase_view_app, erase_view_init.
    change (Wr NUMICRO_FLASH_ISPCMD ISPCMD_ERASE :: ?l)
      with ([Wr NUMICRO_FLASH_ISPCMD ISPCMD_ERASE] ++ l).
    rewrite erase_view_app.
    rewrite erase_view_events
      by (try rewrite length_sector_range by done; done).
    reflexivity. }
  split; [|exact Hview].
  rewrite <- (writes_to_erase_view NUMICRO_FLASH_ISPCMD) by done.
  rewrite Hview. clear.
  change (Wr NUMICRO_FLASH_ISPCMD ISPCMD_ERASE :: ?l)
    with ([Wr NUMICRO_FLASH_ISPCMD ISPCMD_ERASE] ++ l).
  rewrite writes_to_app.
  induction (sector_range (bank s) first last) as [|sec secs IH]; [done|].
  exact IH.
Qed.

Lemma numicro_erase_command_once_witness :
  exists r s' evs,
    numicro_erase 0 1 (start sim_good (aprom_bank halted_target))
    = Some (r, s') /\
    trace s' = [] ++ evs /\
    (r = ERROR_OK ->
       writes_to NUMICRO_FLASH_ISPCMD evs = [ISPCMD_ERASE] /\
       erase_view evs =
         Wr NUMICRO_FLASH_ISPCMD ISPCMD_ERASE
         :: flat_map (fun sec =>
                        [Wr NUMICRO_FLASH_ISPADR
                           (u32 (NUMICRO_APROM_BASE + sec_offset sec));
                         Wr NUMICRO_FLASH_ISPTRG ISPTRG_ISPGO;
                         Rd NUMICRO_FLASH_ISPTRG 0])
              (sector_range (aprom_bank halted_target) 0 1)).
Proof.
  apply (numicro_erase_command_once 0 1
           (start sim_good (aprom_bank halted_target))).
  - reflexivity.
  - lia.
  - vm_compute. reflexivity.
Defined.

(** C5, as stated, fails: erasing the two sectors 0 and 1 writes the
    command register once, not once per sector. *)
Lemma numicro_erase_command_counterexample :
  let out := numicro_erase 0 1 (start sim_good (aprom_bank halted_target)) in
  result_of out = Some ERROR_OK /\
  length (sector_range (aprom_bank halted_target) 0 1) = 2%nat /\
  writes_to NUMICRO_FLASH_ISPCMD (trace_of out) = [ISPCMD_ERASE] /\
  length (writes_to NUMICRO_FLASH_ISPCMD (trace_of out))
  <> length (sector_range (aprom_bank halted_target) 0 1) /\
  drop 7 (trace_of out)
  = [Wr NUMICRO_FLASH_ISPCMD ISPCMD_ERASE;
     Wr NUMICRO_FLASH_ISPADR 0; Wr NUMICRO_FLASH_ISPTRG ISPTRG_ISPGO;
     Rd NUMICRO_FLASH_ISPTRG 0; Rd NUMICRO_FLASH_ISPCON 0;
     Wr NUMICRO_FLASH_ISPADR 512; Wr NUMICRO_FLASH_ISPTRG ISPTRG_ISPGO;
     Rd NUMICRO_FLASH_ISPTRG 0; Rd NUMICRO_FLASH_ISPCON 0].
Proof. vm_compute. repeat split; try reflexivity. discriminate. Qed.

(** ** Lock check *)

Lemma with_bank_id {H : Type} (s : St H) :
  with_bank s (set_sectors (bank s) (bank_sectors (bank s))) = s.
Proof. destruct s as [h tr [t base size secs priv]]. reflexivity. Qed.

Lemma protect_loop_unfold {H : Type} `{Host H} set n i :
  protect_loop (H := H) set n i =
  match n with
  | O => ret tt
  | S n' =>
      let* b := get_bank in
      match bank_sectors b !! i with
      | None => undefined
      | Some sec =>
          let* _ :=
            set_bank (set_sectors b (<[i := set_is_protected sec set]> (bank_sectors b))) in
          protect_loop set n' (S i)
      end
  end.
Proof. destruct n; reflexivity. Qed.

(** The loop paints the sectors from [i] on and leaves those before. *)
Lemma protect_loop_paints {H : Type} `{Host H} set n : forall i (s : St H),
  (i + n)%nat = length (bank_sectors (bank s)) ->
  protect_loop set n i s
  = Some (tt, with_bank s
                (set_sectors (bank s)
                   (take i (bank_sectors (bank s))
                    ++ map (fun sec => set_is_protected sec set)
                         (drop i (bank_sectors (bank s)))))).
Proof.
  induction n as [|n IH]; intros i s Hlen; rewrite protect_loop_unfold.
  - rewrite drop_ge, take_ge, app_nil_r by lia.
    unfold ret. by rewrite with_bank_id.
  - unfold bind, get_bank.
    destruct (lookup_lt_is_Some_2 (bank_sectors (bank s)) i) as [sec Hsec];
      [lia|].
    rewrite Hsec. unfold set_bank.
    rewrite IH by (simpl; rewrite length_insert; lia).
    simpl. f_equal. f_equal. unfold with_bank, set_sectors. simpl.
    f_equal. f_equal.
    rewrite (take_S_r _ _ (set_is_protected sec set))
      by (apply list_lookup_insert_eq; lia).
    rewrite take_insert_ge by lia. rewrite drop_insert_lt by lia.
    rewrite (drop_S _ _ _ Hsec). simpl. by rewrite <- app_assoc.
Qed.

(** C10: numicro_protect_check does not look at the result of the two
    configuration reads.  On a halted target, once numicro_init_isp has
    succeeded, whatever results [r0] and [r1] the two numicro_fmc_cmd calls
    give (time-outs and link errors included), numicro_protect_check
    returns ERROR_OK, and it has set is_protected of every sector of the
    bank to the same value: 1 if bit 1 is clear in [c0], the content of
    config[0] after the first call (what the local held before, if the
    read did not get to the data register), and 0 otherwise.  The bank
    afterwards is the bank before with is_protected of each sector
    replaced by that value: offset, size and erased state of every sector,
    and target, base, size and private information of the bank, are
    kept. *)
Theorem numicro_protect_check_ignores_read_status {H : Type} `{Host H}
    (config : Z * Z) (s : St H) :
  is_halted (state (bank_target (bank s))) = true ->
  result_of (numicro_init_isp (bank_target (bank s)) s) = Some ERROR_OK ->
  exists s1 r0 c0 s2 r1 c1 s3 s',
    numicro_init_isp (bank_target (bank s)) s = Some (ERROR_OK, s1) /\
    numicro_fmc_cmd (bank_target (bank s)) ISPCMD_READ NUMICRO_CONFIG0 0
      config.1 s1 = Some ((r0, c0), s2) /\
    numicro_fmc_cmd (bank_target (bank s)) ISPCMD_READ NUMICRO_CONFIG1 0
      config.2 s2 = Some ((r1, c1), s3) /\
    numicro_protect_check config s = Some (ERROR_OK, s') /\
    hw s' = hw s3 /\ trace s' = trace s3 /\
    Forall (fun sec =>
              sec_is_protected sec
              = if Z.land c0 CONFIG0_LOCK_MASK =? 0 then 1 else 0)
      (bank_sectors (bank s')) /\
    bank s' =
      {| bank_target := bank_target (bank s);
         bank_base := bank_base (bank s);
         bank_size := bank_size (bank s);
         bank_sectors :=
           map (fun sec =>
                  {| sec_offset := sec_offset sec;
                     sec_size := sec_size sec;
                     sec_is_erased := sec_is_erased sec;
                     sec_is_protected :=
                       if Z.land c0 CONFIG0_LOCK_MASK =? 0 then 1 else 0 |})
             (bank_sectors (bank s));
         bank_driver_priv := bank_driver_priv (bank s) |}.
Proof.
  intros Hh Hinit. set (t := bank_target (bank s)) in *.
  destruct (numicro_init_isp_spec any_host any_host_respected t s)
    as (r & s1 & evs1 & Hrun1 & _ & Hb1 & _).
  rewrite Hrun1 in Hinit. injection Hinit as ->.
  destruct (numicro_fmc_cmd_spec any_host any_host_respected t
              ISPCMD_READ NUMICRO_CONFIG0 0 config.1 s1)
    as ([r0 c0] & s2 & evs2 & Hrun2 & _ & Hb2 & _).
  destruct (numicro_fmc_cmd_spec any_host any_host_respected t
              ISPCMD_READ NUMICRO_CONFIG1 0 config.2 s2)
    as ([r1 c1] & s3 & evs3 & Hrun3 & _ & Hb3 & _).
  assert (bank s3 = bank s) as Hb by congruence.
  eexists s1, r0, c0, s2, r1, c1, s3, _.
  split; [exact Hrun1|]. split; [exact Hrun2|]. split; [exact Hrun3|].
  split.
  - unfold numicro_protect_check, check, bind, get_bank. fold t.
    rewrite Hh. simpl. rewrite Hrun1. simpl. rewrite Hrun2, Hrun3.
    rewrite protect_loop_paints by (simpl; by rewrite Hb).
    reflexivity.
  - simpl. rewrite Hb. rewrite drop_0.
    split; [done|]. split; [done|]. split; [|done].
    apply Forall_forall. intros sec Hsec.
    apply list_elem_of_fmap in Hsec as (sec0 & -> & _). reflexivity.
Qed.

Lemma numicro_protect_check_ignores_read_status_witness :
  exists s1 r0 c0 s2 r1 c1 s3 s',
    numicro_init_isp halted_target
      (start (sim_busy 101) (aprom_bank halted_target))
    = Some (ERROR_OK, s1) /\
    numicro_fmc_cmd halted_target ISPCMD_READ NUMICRO_CONFIG0 0 0 s1
    = Some ((r0, c0), s2) /\
    numicro_fmc_cmd halted_target ISPCMD_READ NUMICRO_CONFIG1 0 0 s2
    = Some ((r1, c1), s3) /\
    numicro_protect_check (0, 0)
      (start (sim_busy 101) (aprom_bank halted_target))
    = Some (ERROR_OK, s') /\
    hw s' = hw s3 /\ trace s' = trace s3 /\
    Forall (fun sec =>
              sec_is_protected sec
              = if Z.land c0 CONFIG0_LOCK_MASK =? 0 then 1 else 0)
      (bank_sectors (bank s')) /\
    bank s' =
      {| bank_target := halted_target;
         bank_base := NUMICRO_APROM_BASE;
         bank_size := 32768;
         bank_sectors :=
           map (fun sec =>
                  {| sec_offset := sec_offset sec;
                     sec_size := sec_size sec;
                     sec_is_erased := sec_is_erased sec;
                     sec_is_protected :=
                       if Z.land c0 CONFIG0_LOCK_MASK =? 0 then 1 else 0 |})
             (init_sectors 64 0);
         bank_driver_priv := {| probed := true; cpu := None |} |}.
Proof.
  apply (numicro_protect_check_ignores_read_status (0, 0)
           (start (sim_busy 101) (aprom_bank halted_target))).
  - reflexivity.
  - vm_compute. reflexivity.
Defined.

(** With the GO bit stuck both configuration reads time out, and the lock
    state reported is whatever the uninitialised local held: from a bank
    whose sectors are all unprotected, a local that held 0 marks every
    sector protected, a local that held 2 leaves them unprotected. *)
Example numicro_protect_check_stuck_go :
  let s := start (sim_busy 101) (aprom_bank halted_target) in
  result_of (numicro_fmc_cmd halted_target ISPCMD_READ NUMICRO_CONFIG0 0 2 s)
  = Some (ERROR_FAIL, 2) /\
  result_of (numicro_protect_check (2, 0) s) = Some ERROR_OK /\
  map sec_is_protected (bank_sectors (aprom_bank halted_target))
  = repeat 0 64 /\
  (map sec_is_protected <$> (bank_sectors <$> bank_of (numicro_protect_check (2, 0) s)))
  = Some (repeat 0 64) /\
  (map sec_is_protected <$> (bank_sectors <$> bank_of (numicro_protect_check (0, 0) s)))
  = Some (repeat 1 64).
Proof. vm_compute. repeat split; reflexivity. Qed.

(** ** Geometry *)

Lemma numicro_parts_ok : forallb part_ok numicro_parts = true.
Proof. vm_compute. reflexivity. Qed.

Lemma search_parts_first id before p after :
  partid p = id -> Forall (fun q => partid q <> id) before ->
  search_parts id (before ++ p :: after) = Some p.
Proof.
  intros Hp. induction 1 as [|q before Hq _ IH]; simpl.
  - rewrite Hp, Z.eqb_refl. reflexivity.
  - destruct (id =? partid q) eqn:E; [|exact IH].
    apply Z.eqb_eq in E. congruence.
Qed.

Lemma search_parts_absent id parts :
  Forall (fun q => partid q <> id) parts -> search_parts id parts = None.
Proof.
  induction 1 as [|q parts Hq _ IH]; simpl; [reflexivity|].
  destruct (id =? partid q) eqn:E; [|exact IH].
  apply Z.eqb_eq in E. congruence.
Qed.

Lemma search_banks_absent base banks :
  Forall (fun r => fb_base r <> base) banks -> search_banks base banks = None.
Proof.
  induction 1 as [|r banks Hr _ IH]; simpl; [reflexivity|].
  destruct (base =? fb_base r) eqn:E; [|exact IH].
  apply Z.eqb_eq in E. congruence.
Qed.

Lemma catalog_region_found p region :
  p ∈ numicro_parts -> region ∈ cpu_bank p ->
  search_banks (fb_base region) (take (Z.to_nat (n_banks p)) (cpu_bank p))
  = Some (fb_size region) /\ 0 <= fb_size region.
Proof.
  intros Hp Hr.
  pose proof numicro_parts_ok as Hok.
  rewrite forallb_forall in Hok.
  apply list_elem_of_In in Hp. specialize (Hok p Hp).
  unfold part_ok in Hok. apply andb_true_iff in Hok as [Hf Hs].
  rewrite forallb_forall in Hf, Hs. apply list_elem_of_In in Hr.
  specialize (Hf region Hr). specialize (Hs region Hr).
  unfold region_found in Hf.
  destruct (search_banks _ _) as [size|]; [|done].
  apply Z.eqb_eq in Hf. apply Z.leb_le in Hs. by subst.
Qed.

Lemma length_init_sectors n offset : length (init_sectors n offset) = n.
Proof. revert offset. induction n as [|n IH]; intros; simpl; auto. Qed.

Lemma init_sectors_lookup n : forall offset i sec,
  init_sectors n offset !! i = Some sec ->
  sec = {| sec_offset := offset + Z.of_nat i * NUMICRO_PAGESIZE;
           sec_size := NUMICRO_PAGESIZE;
           sec_is_erased := -1; sec_is_protected := 0 |}.
Proof.
  induction n as [|n IH]; intros offset [|i] sec; simpl; try done.
  - intros [= <-]. f_equal. lia.
  - intros Hi. rewrite (IH _ _ _ Hi). f_equal. lia.
Qed.

(** C8: the part identifier read from the system register selects the
    first catalog entry with exactly that identifier.  If the bank's base
    address is the base of one of that entry's regions, the probe succeeds:
    the bank size is that region's size, there are size / 512 sectors (of
    512 bytes each, at consecutive offsets, erased state unknown, not
    protected), and the bank is marked probed with that entry.  If no
    region of the entry has that base, or if no catalog entry has the
    identifier, the probe fails with ERROR_FLASH_OPERATION_FAILED and the
    bank is as it was before (in particular not marked probed). *)
Theorem numicro_probe_resolves_geometry {H : Type} `{Host H}
    (s : St H) (id : Z) (h' : H) :
  host_read_u32 (hw s) NUMICRO_SYS_BASE = ((ERROR_OK, id), h') ->
  (forall before p after,
     numicro_parts = before ++ p :: after ->
     partid p = id ->
     Forall (fun q => partid q <> id) before ->
     (forall region,
        region ∈ cpu_bank p -> fb_base region = bank_base (bank s) ->
        exists s',
          numicro_probe s = Some (ERROR_OK, s') /\
          bank_size (bank s') = fb_size region /\
          num_sectors (bank s') = fb_size region / NUMICRO_PAGESIZE /\
          (forall i sec,
             bank_sectors (bank s') !! i = Some sec ->
             sec = {| sec_offset := Z.of_nat i * NUMICRO_PAGESIZE;
                      sec_size := NUMICRO_PAGESIZE;
                      sec_is_erased := -1; sec_is_protected := 0 |}) /\
          bank_driver_priv (bank s') = {| probed := true; cpu := Some p |} /\
          bank_base (bank s') = bank_base (bank s) /\
          bank_target (bank s') = bank_target (bank s)) /\
     (Forall (fun region => fb_base region <> bank_base (bank s))
        (take (Z.to_nat (n_banks p)) (cpu_bank p)) ->
      exists s',
        numicro_probe s = Some (ERROR_FLASH_OPERATION_FAILED, s') /\
        bank s' = bank s)) /\
  (Forall (fun q => partid q <> id) numicro_parts ->
   exists s',
     numicro_probe s = Some (ERROR_FLASH_OPERATION_FAILED, s') /\
     bank s' = bank s).
Proof.
  intros Hread. split.
  - intros before p after Hparts Hid Hbefore.
    assert (search_parts id numicro_parts = Some p) as Hsearch
      by (rewrite Hparts; by apply search_parts_first).
    assert (p ∈ numicro_parts) as Hin
      by (rewrite Hparts; apply elem_of_app; right; by left).
    split.
    + intros region Hregion Hbase.
      destruct (catalog_region_found p region Hin Hregion) as [Hfound Hsize].
      eexists. split.
      * unfold numicro_probe, numicro_get_cpu_type, bind, get_bank,
          target_read_u32.
        rewrite Hread. cbn [is_ok negb]. unfold ret. rewrite Hsearch.
        cbn [is_ok negb]. unfold numicro_get_flash_size.
        rewrite <- Hbase, Hfound. cbn [is_ok negb]. unfold set_bank.
        reflexivity.
      * simpl. split; [done|]. split.
        { unfold num_sectors. simpl. rewrite length_init_sectors.
          apply Z2Nat.id. apply Z.div_pos; [done|reflexivity]. }
        split; [|done].
        intros i sec Hi. apply init_sectors_lookup in Hi. exact Hi.
    + intros Hnone. eexists. split.
      { unfold numicro_probe, numicro_get_cpu_type, bind, get_bank,
          target_read_u32.
        rewrite Hread. cbn [is_ok negb]. unfold ret. rewrite Hsearch.
        cbn [is_ok negb]. unfold numicro_get_flash_size.
        rewrite search_banks_absent by done. reflexivity. }
      reflexivity.
  - intros Habsent. eexists. split.
    { unfold numicro_probe, numicro_get_cpu_type, bind, get_bank,
        target_read_u32.
      rewrite Hread. cbn [is_ok negb]. unfold ret.
      rewrite search_parts_absent by done. reflexivity. }
    reflexivity.
Qed.

Lemma numicro_probe_resolves_geometry_witness :
  exists s',
    numicro_probe (start (sim_part 0x00005800) (fresh_bank halted_target 0))
    = Some (ERROR_OK, s') /\
    bank_size (bank s') = 32 * 1024 /\
    num_sectors (bank s') = 64 /\
    probed (bank_driver_priv (bank s')) = true.
Proof.
  destruct (numicro_probe_resolves_geometry
              (start (sim_part 0x00005800) (fresh_bank halted_target 0))
              0x00005800
              {| sim_polls := 0; sim_next_area := 0x20000000 |})
    as [Hfound _]; [reflexivity|].
  destruct (Hfound (take 2 numicro_parts)
              (PART "M058LAN" 0x00005800
                 (NUMICRO_BANKS_GENERAL (32 * 1024) (4 * 1024) (4 * 1024) 4))
              (drop 3 numicro_parts)) as [Hregion _].
  - reflexivity.
  - reflexivity.
  - repeat constructor; simpl; lia.
  - destruct (Hregion {| fb_base := NUMICRO_APROM_BASE; fb_size := 32 * 1024 |})
      as (s' & Hrun & Hsize & Hnum & _ & Hpriv & _).
    + by left.
    + reflexivity.
    + exists s'. rewrite Hpriv. done.
Defined.

Example numicro_probe_unknown_part :
  let out := numicro_probe (start (sim_part 0x12345678) (fresh_bank halted_target 0)) in
  result_of out = Some ERROR_FLASH_OPERATION_FAILED /\
  bank_of out = Some (fresh_bank halted_target 0).
Proof. vm_compute. split; reflexivity. Qed.

Example numicro_probe_m058lan :
  let out := numicro_probe (start (sim_part 0x00005800) (fresh_bank halted_target 0)) in
  result_of out = Some ERROR_OK /\
  (bank_size <$> bank_of out) = Some 32768 /\
  (num_sectors <$> bank_of out) = Some 64.
Proof. vm_compute. repeat split; reflexivity. Qed.

(** Auto-probe is the memoized probe: nothing is read once the bank is
    marked probed. *)
Lemma numicro_auto_probe_probed {H : Type} `{Host H} (s : St H) :
  probed (bank_driver_priv (bank s)) = true ->
  numicro_auto_probe s = Some (ERROR_OK, s).
Proof.
  intros Hp. unfold numicro_auto_probe, bind, get_bank. by rewrite Hp.
Qed.

Example numicro_bank_command_then_probe :
  let s := start (sim_part 0x00005800) (aprom_bank halted_target) in
  (bank_driver_priv <$> bank_of (numicro_flash_bank_command 6 s))
  = Some {| probed := false; cpu := None |} /\
  result_of (numicro_flash_bank_command 5 s) = Some ERROR_COMMAND_SYNTAX_ERROR.
Proof. vm_compute. split; reflexivity. Qed.

(** ** Write *)

Lemma host_respects_impl {H : Type} `{Host H} (A B : event -> Prop) :
  (forall e, A e -> B e) -> host_respects A -> host_respects B.
Proof. intros HAB []. split; intros; apply HAB; auto. Qed.

Lemma shrink_sizes_head rounds b : shrink_sizes rounds b !! 0%nat = Some b.
Proof. by rewrite shrink_sizes_unfold. Qed.

Lemma shrink_sizes_step rounds : forall b i x y,
  shrink_sizes rounds b !! i = Some x ->
  shrink_sizes rounds b !! S i = Some y ->
  y = x / 4.
Proof.
  induction rounds as [|n IH]; intros b i x y; rewrite shrink_sizes_unfold.
  - destruct (b / 4 <=? 256); destruct i; simpl; done.
  - destruct (b / 4 <=? 256); [destruct i; simpl; done|].
    destruct i as [|i]; simpl.
    + intros [= <-]. rewrite shrink_sizes_head. by intros [= <-].
    + apply IH.
Qed.

Lemma shrink_sizes_above rounds : forall b,
  256 < b -> Forall (fun x => 256 < x) (shrink_sizes rounds b).
Proof.
  induction rounds as [|n IH]; intros b Hb; rewrite shrink_sizes_unfold.
  - destruct (b / 4 <=? 256); by repeat constructor.
  - destruct (b / 4 <=? 256) eqn:E; [by repeat constructor|].
    constructor; [done|]. apply IH. by apply Z.leb_gt.
Qed.

Lemma shrink_sizes_last rounds : forall b x,
  256 < b -> b < 2 ^ (Z.of_nat rounds + 1) ->
  last (shrink_sizes rounds b) = Some x -> x / 4 <= 256.
Proof.
  induction rounds as [|n IH]; intros b x Hb Hr.
  { exfalso. change (2 ^ (Z.of_nat 0 + 1)) with 2 in Hr. lia. }
  rewrite shrink_sizes_unfold.
  destruct (b / 4 <=? 256) eqn:E.
  - simpl. intros [= <-]. by apply Z.leb_le.
  - apply Z.leb_gt in E.
    assert (b / 4 < 2 ^ (Z.of_nat n + 1)) as Hr'.
    { apply Z.div_lt_upper_bound; [lia|].
      replace (Z.of_nat (S n) + 1) with (Z.of_nat n + 1 + 1) in Hr by lia.
      rewrite (Z.pow_add_r _ _ 1) in Hr by lia.
      assert (0 < 2 ^ (Z.of_nat n + 1)) by (apply Z.pow_pos_nonneg; lia).
      lia. }
    rewrite (shrink_sizes_unfold n (b / 4)).
    rewrite last_cons_cons. rewrite <- shrink_sizes_unfold.
    by apply IH.
Qed.

Lemma live_areas_app l evs evs' :
  live_areas l (evs ++ evs') = live_areas (live_areas l evs) evs'.
Proof. apply fold_left_app. Qed.

Lemma alloc_requests_app evs evs' :
  alloc_requests (evs ++ evs') = alloc_requests evs ++ alloc_requests evs'.
Proof. apply flat_map_app. Qed.

Lemma word_writes_app evs evs' :
  word_writes (evs ++ evs') = word_writes evs ++ word_writes evs'.
Proof. apply flat_map_app. Qed.

Lemma failed_allocs_requests sizes fevs :
  failed_allocs sizes fevs ->
  alloc_requests fevs = sizes /\ (forall l, live_areas l fevs = l) /\
  word_writes fevs = [].
Proof.
  induction 1 as [|size e sizes fevs (r & area & -> & Hr) _ (IH1 & IH2 & IH3)].
  - by repeat split.
  - split; [|split].
    + simpl. by rewrite IH1.
    + intros l. simpl. destruct r; try done; apply IH2.
    + exact IH3.
Qed.

Lemma gave_up_events_requests t evs :
  gave_up_events t evs ->
  (alloc_requests evs = [sizeof_numicro_flash_write_code] \/
   alloc_requests evs =
     sizeof_numicro_flash_write_code
     :: shrink_sizes (Z.to_nat (Z.log2 (initial_buffer_size t)))
          (initial_buffer_size t)) /\
  (forall l, live_areas l evs = l) /\
  word_writes evs = [].
Proof.
  intros (area & [(rr & Hrr & ->)|(fevs & -> & Hf)]).
  - split; [by left|]. split; [|done]. intros l. simpl. by destruct rr.
  - apply failed_allocs_requests in Hf as (Hreq & Hlive & Hww).
    split; [|split].
    + right. simpl. rewrite alloc_requests_app, Hreq. simpl.
      by rewrite app_nil_r.
    + intros l.
      change (live_areas l (?a :: ?b :: ?r))
        with (live_areas (area :: l) r).
      rewrite live_areas_app, Hlive. simpl.
      destruct (decide (area = area)); done.
    + simpl. rewrite word_writes_app, Hww. reflexivity.
Qed.

Lemma word_writes_init p p' a c : word_writes (init_isp_events p p' a c) = [].
Proof.
  unfold init_isp_events, unlock_events. destruct (p =? 0); reflexivity.
Qed.

Lemma word_writes_busy busy : word_writes (busy_events busy) = [].
Proof. induction busy as [|st busy IH]; [reflexivity|exact IH]. Qed.

Lemma word_writes_ispff st r : word_writes (ispff_events st r) = [].
Proof.
  unfold ispff_events. destruct (Z.land st ISPCON_ISPFF =? 0); reflexivity.
Qed.

Lemma word_writes_events base offset buffer rounds : forall i,
  length (word_writes (write_events base offset buffer i rounds))
  = length rounds.
Proof.
  induction rounds as [|busy rounds IH]; intros i; [reflexivity|].
  change (write_events base offset buffer i (busy :: rounds))
    with (write_round_events base offset buffer i busy
          ++ write_events base offset buffer (i + 4) rounds).
  rewrite word_writes_app, length_app, IH.
  unfold write_round_events. rewrite !word_writes_app, word_writes_busy.
  reflexivity.
Qed.

Lemma sim_respects_fallback (c : sim_script) :
  (forall a, sim_read_ret c a = ERROR_OK) ->
  (forall a, sim_write_ret c a = ERROR_OK) ->
  sim_write_memory_ret c = ERROR_OK ->
  sim_write_buffer_ret c = ERROR_OK ->
  (forall size, size <> sizeof_numicro_flash_write_code ->
                sim_alloc_ok c size = false) ->
  sim_busy_polls c = 0%nat ->
  host_respects (H := sim_state c) fallback_host.
Proof.
  intros Hr Hw Hm Hb Ha Hp. unfold fallback_host.
  split.
  - intros h addr. simpl. unfold sim_read_u32. rewrite Hp.
    destruct (addr =? NUMICRO_FLASH_ISPTRG) eqn:E; simpl.
    + by rewrite Hr.
    + rewrite Hr. repeat split; auto. intros ->. by rewrite Z.eqb_refl in E.
  - intros h addr v. simpl. unfold sim_write_u32.
    destruct (addr =? NUMICRO_FLASH_ISPTRG); simpl; by rewrite Hw.
  - intros h addr size count data. simpl. by rewrite Hm.
  - intros h addr size data. simpl. by rewrite Hb.
  - intros h size. simpl. unfold sim_alloc_working_area.
    destruct (sim_alloc_ok c size) eqn:E; simpl; [|done].
    repeat split; auto. intros Hne. by rewrite Ha in E.
  - intros. by repeat split.
  - intros. by repeat split.
  - intros. by repeat split.
Qed.

(** C9: numicro_writeblock first asks for a data buffer of
    max(1024, working_area_size / 2) bytes.  After each refusal it asks
    for a quarter of the last size, and it gives up, freeing the routine
    area and returning ERROR_TARGET_RESOURCE_NOT_AVAILABLE, once that
    quarter is 256 or less: every size asked for is above 256.  On a host
    that has no working area for the data buffer (or none at all), the
    log of numicro_writeblock is one of two: the request for the routine
    area alone, refused; or that request granted, the upload of the
    routine image, one refused request for each of these sizes in order,
    and the release of the routine area.  While the registers work and
    the controller is not stuck, numicro_write still returns ERROR_OK: it
    writes the count / 4 words one by one. *)
Theorem numicro_write_without_working_area {H : Type} `{Host H}
    (buffer : list byte) (offset count : Z) (s : St H) :
  host_respects fallback_host ->
  is_halted (state (bank_target (bank s))) = true ->
  offset mod 4 = 0 -> count mod 4 = 0 ->
  let t := bank_target (bank s) in
  let sizes :=
    shrink_sizes (Z.to_nat (Z.log2 (initial_buffer_size t)))
      (initial_buffer_size t) in
  sizes !! 0%nat = Some (Z.max 1024 (working_area_size t / 2)) /\
  (forall i x y, sizes !! i = Some x -> sizes !! S i = Some y -> y = x / 4) /\
  Forall (fun x => 256 < x) sizes /\
  (forall x, last sizes = Some x -> x / 4 <= 256) /\
  (exists s' evs,
     numicro_writeblock buffer offset (count / 4) s
     = Some (ERROR_TARGET_RESOURCE_NOT_AVAILABLE, s') /\
     trace s' = trace s ++ evs /\
     (exists area,
        (exists rr,
           rr <> ERROR_OK /\
           evs = [EvAlloc sizeof_numicro_flash_write_code rr area]) \/
        (exists fevs,
           evs = EvAlloc sizeof_numicro_flash_write_code ERROR_OK area
                 :: EvWriteBuffer (wa_address area)
                      sizeof_numicro_flash_write_code
                      numicro_flash_write_code ERROR_OK
                 :: fevs ++ [EvFree area] /\
           Forall2 (fun size e =>
                      exists r a, e = EvAlloc size r a /\ r <> ERROR_OK)
             sizes fevs)) /\
     (alloc_requests evs = [sizeof_numicro_flash_write_code] \/
      alloc_requests evs = sizeof_numicro_flash_write_code :: sizes) /\
     forall l, live_areas l evs = l) /\
  (exists s' evs,
     numicro_write buffer offset count s = Some (ERROR_OK, s') /\
     trace s' = trace s ++ evs /\
     length (word_writes evs) = Z.to_nat (count / 4)).
Proof.
  intros HA Hh Ho Hc t sizes.
  destruct (initial_buffer_size_rounds t) as [Hlo Hhi].
  split; [apply shrink_sizes_head|].
  split; [apply shrink_sizes_step|].
  split; [by apply shrink_sizes_above|].
  split; [intros x; by apply shrink_sizes_last|].
  assert (forall e, fallback_host e -> accel_unavailable e) as HU
    by (by intros e [? _]).
  split.
  - destruct (numicro_writeblock_unavailable fallback_host HA buffer offset
                (count / 4) s HU (land_1_of_mod_4 _ Ho))
      as (r & s' & evs & Hrun & Htr & _ & _ & -> & Hgu).
    pose proof Hgu as Hshape.
    apply gave_up_events_requests in Hgu as (Hreq & Hlive & _).
    exists s', evs. split; [done|]. split; [done|].
    split; [exact Hshape|]. by split.
  - destruct (numicro_write_fallback fallback_host HA buffer offset count s
                HU Hh Ho Hc)
      as (r & s' & evs & Hrun & Htr & _ & Hall & Hok & Hfail).
    destruct (decide (r = ERROR_OK)) as [->|Hne].
    + exists s', evs. split; [done|]. split; [done|].
      destruct Hok as (p & p' & a & c & wbevs & rounds & st & -> & Hgu & Hl);
        [done|].
      apply gave_up_events_requests in Hgu as (_ & _ & Hww).
      rewrite word_writes_app, word_writes_init.
      change (Wr NUMICRO_FLASH_ISPCMD ISPCMD_WRITE :: ?l)
        with ([Wr NUMICRO_FLASH_ISPCMD ISPCMD_WRITE] ++ l).
      rewrite !word_writes_app, Hww, word_writes_ispff. simpl.
      by rewrite app_nil_r, word_writes_events.
    + exfalso. destruct Hfail as [_ Hto]; [done| |].
      * eapply Forall_impl; [exact Hall|]. by intros e (_ & ? & _).
      * apply (timed_out_not_idle evs Hto).
        eapply Forall_impl; [exact Hall|]. by intros e (_ & _ & ?).
Qed.

Lemma numicro_write_without_working_area_witness :
  let s := start sim_no_buffer (aprom_bank halted_target) in
  let sizes := shrink_sizes (Z.to_nat (Z.log2 2048)) 2048 in
  sizes !! 0%nat = Some (Z.max 1024 (4096 / 2)) /\
  (forall i x y, sizes !! i = Some x -> sizes !! S i = Some y -> y = x / 4) /\
  Forall (fun x => 256 < x) sizes /\
  (forall x, last sizes = Some x -> x / 4 <= 256) /\
  (exists s' evs,
     numicro_writeblock [x01; x02; x03; x04; x05; x06; x07; x08] 0 (8 / 4) s
     = Some (ERROR_TARGET_RESOURCE_NOT_AVAILABLE, s') /\
     trace s' = [] ++ evs /\
     (exists area,
        (exists rr,
           rr <> ERROR_OK /\
           evs = [EvAlloc sizeof_numicro_flash_write_code rr area]) \/
        (exists fevs,
           evs = EvAlloc sizeof_numicro_flash_write_code ERROR_OK area
                 :: EvWriteBuffer (wa_address area)
                      sizeof_numicro_flash_write_code
                      numicro_flash_write_code ERROR_OK
                 :: fevs ++ [EvFree area] /\
           Forall2 (fun size e =>
                      exists r a, e = EvAlloc size r a /\ r <> ERROR_OK)
             sizes fevs)) /\
     (alloc_requests evs = [sizeof_numicro_flash_write_code] \/
      alloc_requests evs = sizeof_numicro_flash_write_code :: sizes) /\
     forall l, live_areas l evs = l) /\
  (exists s' evs,
     numicro_write [x01; x02; x03; x04; x05; x06; x07; x08] 0 8 s
     = Some (ERROR_OK, s') /\
     trace s' = [] ++ evs /\
     length (word_writes evs) = Z.to_nat (8 / 4)).
Proof.
  intros s.
  apply (numicro_write_without_working_area
           [x01; x02; x03; x04; x05; x06; x07; x08] 0 8 s).
  - apply sim_respects_fallback; try reflexivity.
    intros size Hne. simpl. by apply Z.eqb_neq.
  - reflexivity.
  - reflexivity.
  - reflexivity.
Defined.

(** With 4096 bytes of working area the first request is for 2048 bytes
    and the second for 512; a third would be for 128, so there is none
    and 256 bytes are never asked for.  The two words are then written one
    at a time. *)
Example numicro_write_fallback_run :
  let out := numicro_write [x01; x02; x03; x04; x05; x06; x07; x08] 0 8
               (start sim_no_buffer (aprom_bank halted_target)) in
  result_of out = Some ERROR_OK /\
  alloc_requests (trace_of out) = [64; 2048; 512] /\
  word_writes (trace_of out) = [[x01; x02; x03; x04]; [x05; x06; x07; x08]] /\
  writes_to NUMICRO_FLASH_ISPADR (trace_of out) = [0; 4] /\
  live_areas [] (trace_of out) = [].
Proof. vm_compute. repeat split; reflexivity. Qed.

Example shrink_sizes_default :
  shrink_sizes (Z.to_nat (Z.log2 1024)) 1024 = [1024].
Proof. vm_compute. reflexivity. Qed.

(** C1: the code loses the failure.  When running the routine on the
    target fails, numicro_writeblock returns
    ERROR_FLASH_OPERATION_FAILED; numicro_write does not fall back to the
    single-word loop (no word is written through the data register), but
    it then overwrites the result with that of the failure check and
    returns ERROR_OK. *)
Lemma numicro_write_loses_block_failure :
  let s := start sim_run_fails (aprom_bank halted_target) in
  let out := numicro_write [x01; x02; x03; x04] 0 4 s in
  result_of (numicro_writeblock [x01; x02; x03; x04] 0 1 s)
  = Some ERROR_FLASH_OPERATION_FAILED /\
  result_of out = Some ERROR_OK /\
  word_writes (trace_of out) = [] /\
  drop 11 (trace_of out)
  = [EvWriteBuffer 0x20000040 4 [x01; x02; x03; x04] ERROR_OK;
     EvRunAlgorithm [0x20000040; 0; 1] 0x20000000 0 100000 ERROR_FAIL;
     EvFree {| wa_address := 0x20000040; wa_size := 2048 |};
     EvFree {| wa_address := 0x20000000; wa_size := 64 |};
     Rd NUMICRO_FLASH_ISPCON 0].
Proof. vm_compute. repeat split; reflexivity. Qed.

(** C3: the code leaks the routine area.  When the upload of the routine
    image fails, numicro_writeblock returns that error at once, and the
    working area it had allocated for the image is still allocated. *)
Lemma numicro_writeblock_leaks_on_upload_failure :
  let out := numicro_writeblock [x01; x02; x03; x04] 0 1
               (start sim_upload_fails (aprom_bank halted_target)) in
  result_of out = Some ERROR_FAIL /\
  trace_of out
  = [EvAlloc 64 ERROR_OK {| wa_address := 0x20000000; wa_size := 64 |};
     EvWriteBuffer 0x20000000 64 numicro_flash_write_code ERROR_FAIL] /\
  live_areas [] (trace_of out) = [{| wa_address := 0x20000000; wa_size := 64 |}].
Proof. vm_compute. repeat split; reflexivity. Qed.

(** Whatever numicro_writeblock returns, other than
    resource-not-available, plays no part in the result of numicro_write:
    the write goes on with the failure check alone. *)
Lemma numicro_write_drops_block_result {H : Type} `{Host H}
    (buffer : list byte) (offset count : Z) (s s1 s2 s3 : St H) (r : retval) :
  is_halted (state (bank_target (bank s))) = true ->
  offset mod 4 = 0 -> count mod 4 = 0 ->
  numicro_init_isp (bank_target (bank s)) s = Some (ERROR_OK, s1) ->
  target_write_u32 (bank_target (bank s)) NUMICRO_FLASH_ISPCMD ISPCMD_WRITE s1
  = Some (ERROR_OK, s2) ->
  numicro_writeblock buffer offset (count / 4) s2 = Some (r, s3) ->
  r <> ERROR_TARGET_RESOURCE_NOT_AVAILABLE ->
  numicro_write buffer offset count s
  = check (check_ispff (bank_target (bank s))) (ret ERROR_OK) s3.
Proof.
  intros Hh Ho Hc Hinit Hcmd Hwb Hr.
  unfold numicro_write, check, bind, get_bank.
  rewrite Hh. cbn [negb]. rewrite Hinit. cbn [is_ok]. rewrite Hcmd.
  cbn [is_ok]. apply Z.eqb_eq in Ho, Hc. rewrite Ho, Hc.
  unfold assert, ret. rewrite Hwb.
  destruct r; try done.
Qed.

(** ** Release of the working areas *)

Section Release.

Context {H : Type} `{Host H}.
Variable A : event -> Prop.
Hypothesis HA : host_respects A.

Lemma writeblock_loop_unfold t wa src bs rounds buffer address count r0 :
  writeblock_loop (H := H) t wa src bs rounds buffer address count r0 =
  if negb (0 <? count) then ret r0 else
  match rounds with
  | O => undefined
  | S rounds' =>
      let thisrun_count := if bs / 4 <? count then bs / 4 else count in
      let* retval :=
        target_write_buffer t (wa_address src) (u32 (thisrun_count * 4))
          (take (Z.to_nat (u32 (thisrun_count * 4))) buffer) in
      if negb (is_ok retval) then ret retval else
      let* retval :=
        target_run_algorithm t [wa_address src; address; thisrun_count]
          (wa_address wa) 0 100000 in
      if negb (is_ok retval) then ret ERROR_FLASH_OPERATION_FAILED else
      writeblock_loop t wa src bs rounds'
        (drop (Z.to_nat (u32 (thisrun_count * 4))) buffer)
        (u32 (address + thisrun_count * 4))
        (count - thisrun_count) retval
  end.
Proof. destruct rounds; reflexivity. Qed.

(** The loop ends within [count] rounds and only moves data and runs the
    routine. *)
Lemma writeblock_loop_spec t wa src bs rounds :
  forall buffer address count r0 (s : St H),
  256 < bs -> (Z.to_nat count <= rounds)%nat ->
  emits A (writeblock_loop t wa src bs rounds buffer address count r0) s
    (fun r evs _ => Forall transfer_only evs).
Proof.
  induction rounds as [|n IH]; intros buffer address count r0 s Hbs Hc;
    rewrite writeblock_loop_unfold.
  - destruct (0 <? count) eqn:E; [apply Z.ltb_lt in E; lia|].
    apply emits_ret. constructor.
  - destruct (0 <? count) eqn:E; [|apply emits_ret; constructor].
    apply Z.ltb_lt in E. cbn [negb].
    assert (1 <= bs / 4) by (apply Z.div_le_lower_bound; lia).
    set (thisrun := if bs / 4 <? count then bs / 4 else count).
    assert (1 <= thisrun <= count) as Hrun.
    { unfold thisrun. destruct (bs / 4 <? count) eqn:E'; [|lia].
      apply Z.ltb_lt in E'. lia. }
    cbv zeta. fold thisrun.
    apply emits_bind. apply (emits_write_buffer A HA). intros r h _.
    destruct (is_ok r); cbn [negb].
    2:{ apply emits_ret. by repeat constructor. }
    apply emits_bind. apply (emits_run A HA). intros r' h' _.
    destruct (is_ok r'); cbn [negb].
    2:{ apply emits_ret. by repeat constructor. }
    eapply emits_mono; [apply IH; [done|lia]|].
    intros r'' evs s' _ _ Hevs. by repeat constructor.
Qed.

Lemma live_areas_transfer l evs :
  Forall transfer_only evs -> live_areas l evs = l.
Proof.
  induction 1 as [|e evs He _ IH]; [done|].
  simpl. by destruct e.
Qed.

Lemma live_areas_failed sizes fevs :
  failed_allocs sizes fevs -> forall l, live_areas l fevs = l.
Proof.
  induction 1 as [|size e sizes fevs (r & area & -> & Hr) _ IH]; intros l;
    [done|].
  simpl. destruct r; try done; apply IH.
Qed.

(** Every way out of numicro_writeblock but one leaves no working area
    behind; the exception is a failed upload of the routine image, which
    returns with the image's area still allocated. *)
Lemma numicro_writeblock_releases buffer offset count (s : St H) :
  emits A (numicro_writeblock buffer offset count) s (fun r evs _ =>
    (forall l, live_areas l evs = l) \/
    (exists area rr,
       rr <> ERROR_OK /\ r = rr /\
       evs = [EvAlloc sizeof_numicro_flash_write_code ERROR_OK area;
              EvWriteBuffer (wa_address area) sizeof_numicro_flash_write_code
                numicro_flash_write_code rr] /\
       forall l, live_areas l evs = area :: l)).
Proof.
  unfold numicro_writeblock.
  apply emits_bind, emits_get_bank.
  destruct (Z.land offset 1 =? 0); cbn [negb].
  2:{ apply emits_ret. by left. }
  rewrite initial_buffer_size_eq.
  apply emits_bind. apply (emits_alloc A HA). intros r area h _.
  destruct (is_ok r) eqn:Er; cbn [negb].
  2:{ apply emits_ret. left. intros l. simpl. by destruct r. }
  apply is_ok_true in Er. subst r.
  apply emits_bind. apply (emits_write_buffer A HA). intros r h' _.
  destruct (is_ok r) eqn:Er; cbn [negb].
  2:{ apply emits_ret. right. apply is_ok_false in Er.
      exists area, r. by repeat split. }
  apply is_ok_true in Er. subst r.
  destruct (initial_buffer_size_rounds (bank_target (bank s))) as [Hlo Hhi].
  apply emits_bind.
  eapply emits_mono; [by apply (alloc_source_spec A HA)|].
  intros [r [bs src]] evs s1 _ _ Hres. cbn [fst snd] in Hres.
  destruct Hres as [(-> & Hbs & tried & fevs & -> & Hf & _)
                   |(-> & fevs & -> & Hf)]; cbn [is_ok negb].
  - apply emits_bind.
    eapply emits_mono; [by apply writeblock_loop_spec|].
    intros r evs s2 _ _ Hloop.
    apply emits_bind. apply (emits_free A HA). intros h2.
    apply emits_bind. apply (emits_free A HA). intros h3.
    apply emits_ret. left. intros l.
    rewrite !app_nil_r. cbn [app].
    change (live_areas l (?a :: ?b :: ?r)) with (live_areas (area :: l) r).
    rewrite !live_areas_app.
    rewrite (live_areas_failed tried fevs Hf).
    rewrite (live_areas_transfer _ evs Hloop).
    simpl. destruct (decide (src = src)); [|done]. simpl.
    destruct (decide (area = area)); done.
  - apply emits_ret. left. intros l.
    rewrite !app_nil_r. cbn [app].
    change (live_areas l (?a :: ?b :: ?r)) with (live_areas (area :: l) r).
    rewrite live_areas_app, (live_areas_failed _ fevs Hf).
    simpl. destruct (decide (area = area)); done.
Qed.

End Release.

(** * Further properties of the driver *)

Lemma stops_at_app r pre evs : stops_at r evs -> stops_at r (pre ++ evs).
Proof.
  intros (pre' & e & -> & He). exists (pre ++ pre'), e.
  by rewrite <- app_assoc.
Qed.

Lemma stops_at_last r pre e : failed_with r e -> stops_at r (pre ++ [e]).
Proof. intros He. by exists pre, e. Qed.

Lemma stops_at_cons r e evs : stops_at r evs -> stops_at r (e :: evs).
Proof. apply (stops_at_app r [e]). Qed.

(** The log of a failed step ends with the failed access. *)
Ltac stopped :=
  cbn [app]; rewrite <- ?app_assoc; rewrite ?app_nil_r; cbn [app];
  repeat lazymatch goal with
    | |- stops_at _ (_ :: _ :: _) => apply stops_at_cons
    | |- stops_at _ (_ :: (_ ++ _)) => apply stops_at_cons
    | |- stops_at _ (_ ++ _) => apply stops_at_app
    end;
  apply (stops_at_last _ []); split; [assumption|reflexivity].

Arguments reads_of : simpl never.
Arguments writes_to : simpl never.

(** Every event of an explicit log is one of the command engine. *)
Ltac fmc_events :=
  rewrite ?app_nil_r;
  repeat (apply List.Forall_cons; [cbn; auto 6|]);
  try apply List.Forall_nil;
  try assumption;
  try (apply Forall_app; split; [assumption|];
       repeat (apply List.Forall_cons; [cbn; auto 6|]);
       apply List.Forall_nil).

Section Outcomes.

Context {H : Type} `{Host H}.
Variable A : event -> Prop.
Hypothesis HA : host_respects A.

Ltac step :=
  lazymatch goal with
  | |- emits _ (bind _ _) _ _ => apply emits_bind
  | |- emits _ (check _ _) _ _ => apply emits_check
  | |- emits _ (ret _) _ _ => apply emits_ret
  | |- emits _ get_bank _ _ => apply emits_get_bank
  | |- emits _ (target_read_u32 _ _) _ _ =>
      apply (emits_read A HA); intros ? ? ? ?
  | |- emits _ (target_write_u32 _ _ _) _ _ =>
      apply (emits_write A HA); intros ? ? ?
  | |- emits _ (target_write_memory _ _ _ _ _) _ _ =>
      apply (emits_write_memory A HA); intros ? ? ?
  | |- emits _ (target_write_buffer _ _ _ _) _ _ =>
      apply (emits_write_buffer A HA); intros ? ? ?
  | |- emits _ (target_alloc_working_area _ _) _ _ =>
      apply (emits_alloc A HA); intros ? ? ? ?
  | |- emits _ (target_free_working_area _ _) _ _ =>
      apply (emits_free A HA); intros ?
  | |- emits _ (target_run_algorithm _ _ _ _ _) _ _ =>
      apply (emits_run A HA); intros ? ? ?
  | |- emits _ (busy_sleep _) _ _ =>
      apply (emits_sleep A HA); intros ?
  end.

Ltac on_result r :=
  let E := fresh "E" in
  destruct (is_ok r) eqn:E; cbn;
  [apply is_ok_true in E; subst r | apply is_ok_false in E].

Lemma numicro_reg_unlock_outcome t (s : St H) :
  emits A (numicro_reg_unlock t) s (fun r evs _ =>
    (r = ERROR_OK -> exists p p', evs = unlock_events p p') /\
    (r <> ERROR_OK -> stops_at r evs)).
Proof.
  unfold numicro_reg_unlock.
  step. step. cbn. on_result r.
  2:{ step. split; [congruence|]. intros _. stopped. }
  step.
  destruct (v =? 0) eqn:Hv.
  - step. step. on_result r.
    2:{ split; [congruence|]. intros _. stopped. }
    step. step. on_result r.
    2:{ split; [congruence|]. intros _. stopped. }
    step. on_result r.
    2:{ split; [congruence|]. intros _. stopped. }
    step. step. cbn. on_result r.
    2:{ step. split; [congruence|]. intros _. stopped. }
    step. split; [|congruence]. intros _.
    exists v, v0. unfold unlock_events. rewrite Hv. reflexivity.
  - step. cbn. step. step. cbn. on_result r.
    2:{ step. split; [congruence|]. intros _. stopped. }
    step. split; [|congruence]. intros _.
    exists v, v0. unfold unlock_events. rewrite Hv. reflexivity.
Qed.

Lemma numicro_init_isp_outcome t (s : St H) :
  is_halted (state t) = true ->
  emits A (numicro_init_isp t) s (fun r evs _ =>
    (r = ERROR_OK -> exists p p' a c, evs = init_isp_events p p' a c) /\
    (r <> ERROR_OK -> stops_at r evs)).
Proof.
  intros Hh. unfold numicro_init_isp. rewrite Hh. cbn.
  step. eapply emits_mono; [apply numicro_reg_unlock_outcome|].
  intros r evs s1 _ _ [Hu Hf]. cbn.
  on_result r.
  2:{ split; [congruence|]. auto. }
  destruct Hu as (p & p' & ->); [done|]. clear Hf.
  step. step. cbn. on_result r.
  2:{ step. split; [congruence|]. intros _. stopped. }
  step. step. on_result r.
  2:{ split; [congruence|]. intros _. stopped. }
  step. step. cbn. on_result r.
  2:{ step. split; [congruence|]. intros _. stopped. }
  step. step. on_result r.
  2:{ split; [congruence|]. intros _. stopped. }
  step. step. on_result r.
  2:{ split; [congruence|]. intros _. stopped. }
  step. split; [|congruence]. intros _.
  exists p, p', v, v0. unfold init_isp_events. same_log.
Qed.

Lemma length_busy_events busy :
  length (busy_events busy) = (2 * length busy)%nat.
Proof.
  induction busy as [|st busy IH]; [done|].
  unfold busy_events in *. cbn. rewrite IH. lia.
Qed.

Lemma fmc_event_busy busy : Forall fmc_event (busy_events busy).
Proof.
  induction busy as [|st busy IH]; [constructor|].
  unfold busy_events in *. cbn. constructor; [cbn; auto|].
  constructor; [done|exact IH].
Qed.

Lemma reads_of_app addr evs evs' :
  reads_of addr (evs ++ evs') = reads_of addr evs ++ reads_of addr evs'.
Proof. apply flat_map_app. Qed.

Lemma reads_of_rd addr a v :
  reads_of addr [Rd a v] = if a =? addr then [v] else [].
Proof.
  unfold reads_of, Rd. cbn [flat_map is_ok app].
  rewrite andb_true_r, app_nil_r. reflexivity.
Qed.

Lemma reads_of_busy addr busy :
  addr <> NUMICRO_FLASH_ISPTRG -> reads_of addr (busy_events busy) = [].
Proof.
  intros Hne. induction busy as [|st busy IH]; [done|].
  change (busy_events (st :: busy))
    with ([Rd NUMICRO_FLASH_ISPTRG st] ++ [EvSleep 1] ++ busy_events busy).
  rewrite !reads_of_app, IH, reads_of_rd.
  destruct (NUMICRO_FLASH_ISPTRG =? addr) eqn:E; [|done].
  apply Z.eqb_eq in E. congruence.
Qed.

Lemma poll_ispgo_outcome t done (s : St H) :
  emits A (poll_ispgo t done 100) s (fun r evs _ =>
    (length evs <= 201)%nat /\
    Forall fmc_event evs /\
    reads_of NUMICRO_FLASH_ISPDAT evs = [] /\
    (r = ERROR_OK ->
       exists busy final,
         evs = busy_events busy ++ [Rd NUMICRO_FLASH_ISPTRG final] /\
         Forall (fun st => done st = false) busy /\
         (length busy <= 100)%nat /\ done final = true) /\
    (r <> ERROR_OK -> stops_at r evs \/ (r = ERROR_FAIL /\ timed_out done evs))).
Proof.
  eapply emits_mono; [apply (poll_ispgo_spec A HA)|].
  intros r evs s' _ _ (busy & rlast & final & -> & Hb & Hl & Ho).
  split; [rewrite length_app, length_busy_events; cbn; lia|].
  split.
  { apply Forall_app. split; [apply fmc_event_busy|].
    constructor; [cbn; auto|constructor]. }
  split.
  { rewrite reads_of_app, reads_of_busy by done. reflexivity. }
  destruct Ho as [[Hne ->]|[(-> & Hd & ->)|(-> & Hd & Hn & ->)]].
  - split; [congruence|]. intros _. left. apply stops_at_last. by split.
  - split; [|congruence]. intros _. by exists busy, final.
  - split; [congruence|]. intros _. right. split; [done|].
    exists [], busy, final. split; [done|]. split; [done|].
    apply Forall_app. split; [done|]. by constructor.
Qed.

Lemma check_ispff_outcome t (s : St H) :
  emits A (check_ispff t) s (fun r evs _ =>
    (r = ERROR_OK -> exists st, evs = ispff_events st ERROR_OK) /\
    (r <> ERROR_OK -> stops_at r evs)).
Proof.
  unfold check_ispff.
  step. step. cbn. on_result r.
  2:{ step. split; [congruence|]. intros _. stopped. }
  destruct (Z.land v ISPCON_ISPFF =? 0) eqn:Hff; cbn.
  - step. split; [|congruence]. intros _. exists v.
    unfold ispff_events. by rewrite Hff.
  - step. cbn. split.
    + intros ->. exists v. unfold ispff_events. by rewrite Hff.
    + intros Hne. stopped.
Qed.

Lemma timed_out_cons done e evs :
  timed_out done evs -> timed_out done (e :: evs).
Proof. apply (timed_out_app done [e]). Qed.

(** What the command engine does on any host. *)
Lemma numicro_fmc_cmd_outcome t cmd addr wdata rdata (s : St H) :
  emits A (numicro_fmc_cmd t cmd addr wdata rdata) s (fun rv evs _ =>
    (length evs <= 206)%nat /\
    Forall fmc_event evs /\
    (rv.1 = ERROR_OK ->
       reads_of NUMICRO_FLASH_ISPDAT evs = [rv.2]) /\
    (rv.1 <> ERROR_OK ->
       (stops_at rv.1 evs \/ (rv.1 = ERROR_FAIL /\ timed_out go_clear evs)) /\
       reads_of NUMICRO_FLASH_ISPDAT evs = [] /\
       (rv.2 = rdata \/
        exists pre, evs = pre ++ [EvReadU32 NUMICRO_FLASH_ISPDAT rv.1 rv.2]))).
Proof.
  unfold numicro_fmc_cmd.
  step. step. on_result r.
  2:{ step. cbn. split; [lia|]. split; [fmc_events|].
      split; [congruence|]. intros _. split; [left; stopped|].
      split; [done|]. by left. }
  step. step. on_result r.
  2:{ step. cbn. split; [lia|]. split; [fmc_events|].
      split; [congruence|]. intros _. split; [left; stopped|].
      split; [done|]. by left. }
  step. step. on_result r.
  2:{ step. cbn. split; [lia|]. split; [fmc_events|].
      split; [congruence|]. intros _. split; [left; stopped|].
      split; [done|]. by left. }
  step. step. on_result r.
  2:{ step. cbn. split; [lia|]. split; [fmc_events|].
      split; [congruence|]. intros _. split; [left; stopped|].
      split; [done|]. by left. }
  step. eapply emits_mono; [apply poll_ispgo_outcome|].
  intros r evs s1 _ _ (Hlen & Hev & Hnor & Hok & Hfail).
  on_result r.
  2:{ step. rewrite app_nil_r. cbn [fst snd].
      split; [cbn [length]; lia|]. split; [fmc_events|].
      split; [congruence|]. intros _. split.
      - destruct (Hfail E) as [Hs|[-> Hto]].
        + left. by do 4 apply stops_at_cons.
        + right. split; [done|]. by do 4 apply timed_out_cons.
      - split; [|by left].
        change (?a :: ?b :: ?c :: ?d :: evs) with ([a; b; c; d] ++ evs).
        rewrite reads_of_app, Hnor. reflexivity. }
  clear Hfail Hok.
  step. step. cbn. on_result r.
  - step. cbn [fst snd].
    split; [cbn [length]; rewrite length_app; cbn [length]; lia|].
    split; [fmc_events|].
    split; [|congruence]. intros _.
    change (?a :: ?b :: ?c :: ?d :: evs ++ ?l) with ([a; b; c; d] ++ evs ++ l).
    rewrite !reads_of_app, Hnor. reflexivity.
  - step. cbn [fst snd].
    split; [cbn [length]; rewrite length_app; cbn [length]; lia|].
    split; [fmc_events|].
    split; [congruence|]. intros _. split; [left; stopped|].
    split.
    + change (?a :: ?b :: ?c :: ?d :: evs ++ ?l) with ([a; b; c; d] ++ evs ++ l).
      rewrite !reads_of_app, Hnor. unfold reads_of. cbn [flat_map app].
      apply is_ok_false in E. rewrite E, andb_false_r. reflexivity.
    + right. eexists (_ :: _ :: _ :: _ :: evs). reflexivity.
Qed.

Lemma erase_loop_outcome t n : forall i (s : St H) secs,
  0 <= i ->
  take n (drop (Z.to_nat i) (bank_sectors (bank s))) = secs ->
  length secs = n ->
  emits A (erase_loop t n i) s (fun r evs _ =>
    r <> ERROR_OK ->
    stops_at r evs \/ (r = ERROR_FAIL /\ timed_out is_zero evs)).
Proof.
  induction n as [|n IH]; intros i s secs Hi Hsecs Hlen;
    rewrite erase_loop_unfold.
  - step. congruence.
  - destruct secs as [|sec secs]; [done|].
    apply take_drop_cons in Hsecs as [Hsec Hsecs].
    step. step. rewrite Hsec.
    step. step. on_result r.
    2:{ intros _. left. stopped. }
    step. step. on_result r.
    2:{ intros _. left. stopped. }
    step. eapply emits_mono; [apply poll_ispgo_outcome|].
    intros r evs s1 _ Hb1 (_ & _ & _ & _ & Hfail). cbn in Hb1. on_result r.
    2:{ intros _. destruct (Hfail E) as [Hs|[-> Hto]].
        - left. by do 2 apply stops_at_cons.
        - right. split; [done|]. by do 2 apply timed_out_cons. }
    clear Hfail.
    step. eapply emits_mono; [apply check_ispff_outcome|].
    intros r evs' s2 _ Hb2 [_ Hfail]. on_result r.
    2:{ intros _. left. do 2 apply stops_at_cons. apply stops_at_app. auto. }
    clear Hfail.
    eapply emits_mono.
    { apply (IH (i + 1) _ secs); [lia| |by injection Hlen].
      rewrite Hb2, Hb1.
      replace (Z.to_nat (i + 1)) with (S (Z.to_nat i)) by lia. exact Hsecs. }
    intros r evs'' s3 _ _ Hfail Hne.
    destruct (Hfail Hne) as [Hs|[-> Hto]].
    + left. do 2 apply stops_at_cons. by do 2 apply stops_at_app.
    + right. split; [done|].
      do 2 apply timed_out_cons. by do 2 apply timed_out_app.
Qed.

Lemma numicro_erase_outcome first last (s : St H) :
  is_halted (state (bank_target (bank s))) = true ->
  0 <= first -> last < num_sectors (bank s) ->
  emits A (numicro_erase first last) s (fun r evs _ =>
    r <> ERROR_OK ->
    stops_at r evs \/ (r = ERROR_FAIL /\ timed_out is_zero evs)).
Proof.
  intros Hh Hf Hl. unfold numicro_erase.
  step. step. rewrite Hh. cbn.
  step. eapply emits_mono; [by apply numicro_init_isp_outcome|].
  intros r evs s1 _ Hb1 (_ & Hfail). on_result r.
  2:{ intros _. left. auto. }
  clear Hfail.
  step. step. on_result r.
  2:{ intros _. left. stopped. }
  eapply emits_mono.
  { apply (erase_loop_outcome _ _ first _ (sector_range (bank s) first last));
      [done| |].
    - cbn. rewrite Hb1. reflexivity.
    - by apply length_sector_range. }
  intros r evs' s2 _ _ Hfail Hne.
  destruct (Hfail Hne) as [Hs|[-> Hto]].
  - left. apply stops_at_app. by apply stops_at_cons.
  - right. split; [done|]. apply timed_out_app. by apply timed_out_cons.
Qed.

(** An empty range: nothing but the initialisation and the command. *)
Lemma numicro_erase_empty_outcome first last (s : St H) :
  is_halted (state (bank_target (bank s))) = true ->
  last < first ->
  emits A (numicro_erase first last) s (fun r evs _ =>
    (r = ERROR_OK ->
       exists p p' a c,
         evs = init_isp_events p p' a c
               ++ [Wr NUMICRO_FLASH_ISPCMD ISPCMD_ERASE]) /\
    (r <> ERROR_OK -> stops_at r evs)).
Proof.
  intros Hh Hl. unfold numicro_erase.
  step. step. rewrite Hh. cbn.
  step. eapply emits_mono; [by apply numicro_init_isp_outcome|].
  intros r evs s1 _ Hb1 (Hok & Hfail). on_result r.
  2:{ split; [congruence|]. auto. }
  destruct Hok as (p & p' & a & c & ->); [done|]. clear Hfail.
  step. step. on_result r.
  2:{ split; [congruence|]. intros _. stopped. }
  replace (Z.to_nat (last + 1 - first)) with 0%nat by lia.
  rewrite erase_loop_unfold. step.
  split; [|congruence]. intros _. exists p, p', a, c. same_log.
Qed.

Lemma write_loop_outcome t buffer offset n : forall i (s : St H),
  emits A (write_loop t buffer offset n i) s (fun r evs _ =>
    r <> ERROR_OK ->
    stops_at r evs \/ (r = ERROR_FAIL /\ timed_out is_zero evs)).
Proof.
  induction n as [|n IH]; intros i s; rewrite write_loop_unfold.
  - step. congruence.
  - step. step. step. step. on_result r.
    2:{ intros _. left. stopped. }
    step. step. on_result r.
    2:{ intros _. left. stopped. }
    step. step. on_result r.
    2:{ intros _. left. stopped. }
    step. eapply emits_mono; [apply poll_ispgo_outcome|].
    intros r evs s1 _ _ (_ & _ & _ & _ & Hfail). on_result r.
    2:{ intros _. destruct (Hfail E) as [Hs|[-> Hto]].
        - left. by do 3 apply stops_at_cons.
        - right. split; [done|]. by do 3 apply timed_out_cons. }
    clear Hfail.
    eapply emits_mono; [apply (IH (i + 4))|].
    intros r evs' s2 _ _ Hfail Hne.
    destruct (Hfail Hne) as [Hs|[-> Hto]].
    + left. do 3 apply stops_at_cons. by apply stops_at_app.
    + right. split; [done|]. do 3 apply timed_out_cons. by apply timed_out_app.
Qed.

(** A write ends in error only at a failed access or a poll out of
    retries; what the block write returns, other than for want of a
    working area, is not among its results. *)
Lemma numicro_write_outcome buffer offset count (s : St H) :
  is_halted (state (bank_target (bank s))) = true ->
  offset mod 4 = 0 -> count mod 4 = 0 ->
  emits A (numicro_write buffer offset count) s (fun r evs _ =>
    r <> ERROR_OK ->
    stops_at r evs \/ (r = ERROR_FAIL /\ timed_out is_zero evs)).
Proof.
  intros Hh Ho Hc. unfold numicro_write.
  step. step. rewrite Hh. cbn.
  step. eapply emits_mono; [by apply numicro_init_isp_outcome|].
  intros r evs s1 _ _ (_ & Hfail). on_result r.
  2:{ intros _. left. auto. }
  clear Hfail.
  step. step. on_result r.
  2:{ intros _. left. apply stops_at_app. stopped. }
  step. apply emits_assert; [by apply Z.eqb_eq|].
  step. apply emits_assert; [by apply Z.eqb_eq|].
  step. eapply emits_mono; [apply (numicro_writeblock_releases A HA)|].
  intros rwb wbevs s2 _ _ _.
  step.
  assert (forall (s2 : St H),
            emits A (if is_resource_not_available rwb
                     then write_loop (bank_target (bank s)) buffer offset
                            (Z.to_nat (count / 4)) 0
                     else ret ERROR_OK) s2
              (fun r evs _ =>
                 r <> ERROR_OK ->
                 stops_at r evs \/ (r = ERROR_FAIL /\ timed_out is_zero evs)))
    as Hloop.
  { intros s2'. destruct (is_resource_not_available rwb).
    - apply write_loop_outcome.
    - step. congruence. }
  eapply emits_mono; [apply Hloop|].
  intros r evs' s3 _ _ Hfail. on_result r.
  2:{ intros _. destruct (Hfail E) as [Hs|[-> Hto]].
      - left. apply stops_at_app, stops_at_cons. by apply stops_at_app.
      - right. split; [done|].
        apply timed_out_app, timed_out_cons. by apply timed_out_app. }
  clear Hfail.
  step. eapply emits_mono; [apply check_ispff_outcome|].
  intros r evs'' s4 _ _ [_ Hfail]. on_result r.
  2:{ intros _. left. apply stops_at_app, stops_at_cons.
      do 2 apply stops_at_app. auto. }
  step. congruence.
Qed.

End Outcomes.

(** ** Register unlock and ISP initialisation *)

Lemma stops_at_link_ok r evs : stops_at r evs -> Forall link_ok evs -> False.
Proof.
  intros (pre & e & -> & Hne & He) Hall.
  apply Forall_app in Hall as [_ Hall]. apply Forall_cons in Hall as [Hl _].
  destruct e; cbn in *; congruence.
Qed.

Lemma link_ok_unlock_events p p' : Forall link_ok (unlock_events p p').
Proof.
  unfold unlock_events. destruct (p =? 0); by repeat constructor.
Qed.

Lemma link_ok_init_isp_events p p' a c :
  Forall link_ok (init_isp_events p p' a c).
Proof.
  unfold init_isp_events. apply Forall_app.
  split; [apply link_ok_unlock_events|by repeat constructor].
Qed.

Lemma link_ok_busy_events busy : Forall link_ok (busy_events busy).
Proof.
  induction busy as [|st busy IH]; [constructor|].
  unfold busy_events in *. cbn. by repeat constructor.
Qed.

(** X1: numicro_reg_unlock on any host.  It always returns, and it returns
    ERROR_OK exactly when every register access it made succeeded.  Then
    it has read the protection register, written the keys 0x59, 0x16 and
    0x88 to it in this order if and only if the register read zero, and
    read the register once more; the value of this second read plays no
    part in the result.  Otherwise the log ends with the access that
    failed, and the result is that access's error. *)
Theorem numicro_reg_unlock_writes_keys {H : Type} `{Host H}
    (t : target) (s : St H) :
  exists r s' evs,
    numicro_reg_unlock t s = Some (r, s') /\
    trace s' = trace s ++ evs /\ bank s' = bank s /\
    (r = ERROR_OK <-> Forall link_ok evs) /\
    (r = ERROR_OK ->
       exists p p',
         evs = Rd NUMICRO_SYS_WRPROT p
               :: (if p =? 0 then
                     [Wr NUMICRO_SYS_WRPROT 0x59; Wr NUMICRO_SYS_WRPROT 0x16;
                      Wr NUMICRO_SYS_WRPROT 0x88]
                   else [])
               ++ [Rd NUMICRO_SYS_WRPROT p']) /\
    (r <> ERROR_OK -> stops_at r evs).
Proof.
  destruct (numicro_reg_unlock_outcome any_host any_host_respected t s)
    as (r & s' & evs & Hrun & Htr & Hb & _ & Hok & Hfail).
  exists r, s', evs. do 3 (split; [done|]).
  split; [|split; [exact Hok|exact Hfail]].
  split.
  - intros Hr. destruct (Hok Hr) as (p & p' & ->). apply link_ok_unlock_events.
  - intros Hall. destruct (decide (r = ERROR_OK)) as [|Hne]; [done|].
    destruct (stops_at_link_ok r evs (Hfail Hne) Hall).
Qed.

(** X2: numicro_init_isp on a halted target, on any host.  It always
    returns, and it returns ERROR_OK exactly when every register access it
    made succeeded.  Then, after the unlock sequence, it has read the AHB
    clock register and written the value back with bits 2, 4 and 5 set
    (0x34), read the ISP control register and written the value back with
    bits 0, 3, 4, 5 and 6 set (0x79), and written 1 to the CHEAT register.
    Otherwise the log ends with the access that failed, and the result is
    that access's error: nothing is accessed after a failure. *)
Theorem numicro_init_isp_enables_isp {H : Type} `{Host H}
    (t : target) (s : St H) :
  is_halted (state t) = true ->
  exists r s' evs,
    numicro_init_isp t s = Some (r, s') /\
    trace s' = trace s ++ evs /\ bank s' = bank s /\
    (r = ERROR_OK <-> Forall link_ok evs) /\
    (r = ERROR_OK ->
       exists p p' a c,
         evs = unlock_events p p'
               ++ [Rd NUMICRO_SYSCLK_AHBCLK a;
                   Wr NUMICRO_SYSCLK_AHBCLK (Z.lor a 0x34);
                   Rd NUMICRO_FLASH_ISPCON c;
                   Wr NUMICRO_FLASH_ISPCON (Z.lor c 0x79);
                   Wr NUMICRO_FLASH_CHEAT 1]) /\
    (r <> ERROR_OK -> stops_at r evs).
Proof.
  intros Hh.
  destruct (numicro_init_isp_outcome any_host any_host_respected t s Hh)
    as (r & s' & evs & Hrun & Htr & Hb & _ & Hok & Hfail).
  exists r, s', evs. do 3 (split; [done|]).
  split; [|split; [exact Hok|exact Hfail]].
  split.
  - intros Hr. destruct (Hok Hr) as (p & p' & a & c & ->).
    apply link_ok_init_isp_events.
  - intros Hall. destruct (decide (r = ERROR_OK)) as [|Hne]; [done|].
    destruct (stops_at_link_ok r evs (Hfail Hne) Hall).
Qed.

Lemma numicro_init_isp_enables_isp_witness :
  exists r s' evs,
    numicro_init_isp halted_target (start sim_good (aprom_bank halted_target))
    = Some (r, s') /\
    trace s' = [] ++ evs /\ bank s' = aprom_bank halted_target /\
    (r = ERROR_OK <-> Forall link_ok evs) /\
    (r = ERROR_OK ->
       exists p p' a c,
         evs = unlock_events p p'
               ++ [Rd NUMICRO_SYSCLK_AHBCLK a;
                   Wr NUMICRO_SYSCLK_AHBCLK (Z.lor a 0x34);
                   Rd NUMICRO_FLASH_ISPCON c;
                   Wr NUMICRO_FLASH_ISPCON (Z.lor c 0x79);
                   Wr NUMICRO_FLASH_CHEAT 1]) /\
    (r <> ERROR_OK -> stops_at r evs).
Proof.
  apply (numicro_init_isp_enables_isp halted_target
           (start sim_good (aprom_bank halted_target))).
  reflexivity.
Defined.

Example numicro_reg_unlock_still_locked :
  let c := {| sim_regs := fun _ => 0;
              sim_read_ret := fun _ => ERROR_OK;
              sim_write_ret := fun _ => ERROR_OK;
              sim_write_memory_ret := ERROR_OK;
              sim_write_buffer_ret := ERROR_OK;
              sim_alloc_ok := fun _ => true;
              sim_run_ret := ERROR_OK;
              sim_busy_polls := 0 |} in
  let out := numicro_reg_unlock halted_target
               (start c (aprom_bank halted_target)) in
  result_of out = Some ERROR_OK /\
  trace_of out
  = [Rd NUMICRO_SYS_WRPROT 0; Wr NUMICRO_SYS_WRPROT 0x59;
     Wr NUMICRO_SYS_WRPROT 0x16; Wr NUMICRO_SYS_WRPROT 0x88;
     Rd NUMICRO_SYS_WRPROT 0].
Proof. vm_compute. split; reflexivity. Qed.

(** ** The command engine *)

(** X3: numicro_fmc_cmd on any host.  It always returns, after at most
    206 events, each of them a 1 ms pause or an access to one of the
    command, data, address and trigger registers.  When it returns
    ERROR_OK the data register has been read exactly once, and the value
    handed back is the value read.  When it fails, either the log ends
    with the failed access whose error is returned, or the poll ran out of
    retries and the error is ERROR_FAIL; no value has been read from the
    data register, and the caller's variable keeps its content unless the
    failed access is the read of the data register itself. *)
Theorem numicro_fmc_cmd_bounded {H : Type} `{Host H}
    (t : target) (cmd addr wdata rdata : Z) (s : St H) :
  exists r v s' evs,
    numicro_fmc_cmd t cmd addr wdata rdata s = Some ((r, v), s') /\
    trace s' = trace s ++ evs /\ bank s' = bank s /\
    (length evs <= 206)%nat /\
    Forall fmc_event evs /\
    (r = ERROR_OK -> reads_of NUMICRO_FLASH_ISPDAT evs = [v]) /\
    (r <> ERROR_OK ->
       (stops_at r evs \/ (r = ERROR_FAIL /\ timed_out go_clear evs)) /\
       reads_of NUMICRO_FLASH_ISPDAT evs = [] /\
       (v = rdata \/
        exists pre, evs = pre ++ [EvReadU32 NUMICRO_FLASH_ISPDAT r v])).
Proof.
  destruct (numicro_fmc_cmd_outcome any_host any_host_respected
              t cmd addr wdata rdata s)
    as ([r v] & s' & evs & Hrun & Htr & Hb & _ & Hlen & Hev & Hok & Hfail).
  cbn [fst snd] in Hok, Hfail.
  exists r, v, s', evs. do 5 (split; [done|]). split; [exact Hok|exact Hfail].
Qed.

Example numicro_fmc_cmd_data_read_fails :
  let c := {| sim_regs := fun _ => 5;
              sim_read_ret := fun a =>
                if a =? NUMICRO_FLASH_ISPDAT then ERROR_FAIL else ERROR_OK;
              sim_write_ret := fun _ => ERROR_OK;
              sim_write_memory_ret := ERROR_OK;
              sim_write_buffer_ret := ERROR_OK;
              sim_alloc_ok := fun _ => true;
              sim_run_ret := ERROR_OK;
              sim_busy_polls := 0 |} in
  result_of (numicro_fmc_cmd halted_target ISPCMD_READ 0 0 7
               (start c (aprom_bank halted_target)))
  = Some (ERROR_FAIL, 5).
Proof. vm_compute. reflexivity. Qed.

(** ** The block write *)

(** X4: numicro_writeblock on any host, for any buffer, offset and count.
    It always returns: the search for a buffer size and the block loop
    both end.  An odd offset is refused before anything is allocated.
    Every other way out leaves the working areas as they were before the
    call, with one exception: when the upload of the routine image fails,
    the function returns that error after exactly two events, with the
    image's area still allocated. *)
Theorem numicro_writeblock_releases_areas {H : Type} `{Host H}
    (buffer : list byte) (offset count : Z) (s : St H) :
  exists r s' evs,
    numicro_writeblock buffer offset count s = Some (r, s') /\
    trace s' = trace s ++ evs /\ bank s' = bank s /\
    (Z.land offset 1 <> 0 ->
       r = ERROR_FLASH_DST_BREAKS_ALIGNMENT /\ s' = s) /\
    ((forall l, live_areas l evs = l) \/
     (exists area rr,
        rr <> ERROR_OK /\ r = rr /\
        evs = [EvAlloc sizeof_numicro_flash_write_code ERROR_OK area;
               EvWriteBuffer (wa_address area) sizeof_numicro_flash_write_code
                 numicro_flash_write_code rr] /\
        forall l, live_areas l evs = area :: l)).
Proof.
  destruct (numicro_writeblock_releases any_host any_host_respected
              buffer offset count s)
    as (r & s' & evs & Hrun & Htr & Hb & _ & Hlive).
  exists r, s', evs. do 3 (split; [done|]). split; [|exact Hlive].
  intros Hodd. apply Z.eqb_neq in Hodd.
  unfold numicro_writeblock, bind, get_bank in Hrun.
  rewrite Hodd in Hrun. cbn in Hrun. by injection Hrun as <- <-.
Qed.

(** ** The block write on a host that serves it *)

Section Accelerated.

Context {H : Type} `{Host H}.
Variable A : event -> Prop.
Hypothesis HA : host_respects A.
Hypothesis Hacc : forall e, A e -> accel_ok e.

Ltac step :=
  lazymatch goal with
  | |- emits _ (bind _ _) _ _ => apply emits_bind
  | |- emits _ (check _ _) _ _ => apply emits_check
  | |- emits _ (ret _) _ _ => apply emits_ret
  | |- emits _ get_bank _ _ => apply emits_get_bank
  | |- emits _ (target_write_u32 _ _ _) _ _ =>
      apply (emits_write A HA); intros ? ? ?
  | |- emits _ (target_write_buffer _ _ _ _) _ _ =>
      apply (emits_write_buffer A HA);
      let r := fresh "r" in let h := fresh "h" in let Hr := fresh "Hr" in
      intros r h Hr; apply Hacc in Hr; cbn in Hr; subst r
  | |- emits _ (target_alloc_working_area _ _) _ _ =>
      apply (emits_alloc A HA);
      let r := fresh "r" in let h := fresh "h" in let Hr := fresh "Hr" in
      intros r ? h Hr; apply Hacc in Hr; cbn in Hr; subst r
  | |- emits _ (target_free_working_area _ _) _ _ =>
      apply (emits_free A HA); intros ?
  | |- emits _ (target_run_algorithm _ _ _ _ _) _ _ =>
      apply (emits_run A HA);
      let r := fresh "r" in let h := fresh "h" in let Hr := fresh "Hr" in
      intros r h Hr; apply Hacc in Hr; cbn in Hr; subst r
  end.

Lemma writeblock_loop_chunks t wa src bs rounds :
  forall buffer address count (s : St H),
  256 < bs -> 0 <= count -> count * 4 < 2 ^ 32 ->
  (Z.to_nat count <= rounds)%nat ->
  emits A (writeblock_loop t wa src bs rounds buffer address count ERROR_OK) s
    (fun r evs _ =>
       r = ERROR_OK /\
       exists chunks,
         evs = flat_map (block_round wa src) chunks /\
         chained address chunks /\
         Forall (fun c => 0 < c.1.2 <= bs / 4) chunks /\
         chunk_words chunks = count /\
         chunk_bytes chunks = take (Z.to_nat (count * 4)) buffer).
Proof.
  induction rounds as [|n IH]; intros buffer address count s Hbs Hc Hw Hr;
    rewrite writeblock_loop_unfold.
  - destruct (0 <? count) eqn:E; [apply Z.ltb_lt in E; lia|].
    apply Z.ltb_ge in E. assert (count = 0) as -> by lia.
    cbn [negb]. step. split; [done|]. exists []. by repeat split.
  - destruct (0 <? count) eqn:E; cbn [negb].
    2:{ apply Z.ltb_ge in E. assert (count = 0) as -> by lia.
        step. split; [done|]. exists []. by repeat split. }
    apply Z.ltb_lt in E.
    assert (1 <= bs / 4) by (apply Z.div_le_lower_bound; lia).
    set (thisrun := if bs / 4 <? count then bs / 4 else count).
    assert (1 <= thisrun <= count /\ thisrun <= bs / 4) as (Hrun & Hchunk).
    { unfold thisrun. destruct (bs / 4 <? count) eqn:E';
        [apply Z.ltb_lt in E'|apply Z.ltb_ge in E']; lia. }
    cbv zeta. fold thisrun. clearbody thisrun.
    assert (u32 (thisrun * 4) = thisrun * 4) as ->
      by (unfold u32; apply Z.mod_small; lia).
    step. step. cbn [is_ok negb].
    step. step. cbn [is_ok negb].
    eapply emits_mono; [apply (IH _ _ (count - thisrun)); lia|].
    intros r evs s' _ _ (-> & chunks & -> & Hch & Hall & Hwords & Hbytes).
    split; [done|].
    exists ((address, thisrun, take (Z.to_nat (thisrun * 4)) buffer) :: chunks).
    split; [reflexivity|]. split; [by split|].
    split; [constructor; [cbn; lia|done]|].
    split; [unfold chunk_words in *; cbn [foldr fst snd]; lia|].
    unfold chunk_bytes in *. cbn [flat_map snd]. rewrite Hbytes.
    rewrite take_take_drop. f_equal. lia.
Qed.

(** The block write when every request is granted: the areas are taken, the
    buffer goes to the target chunk by chunk, and the areas are freed. *)
Lemma numicro_writeblock_accelerated buffer offset count (s : St H) :
  Z.land offset 1 = 0 -> 0 <= count -> count * 4 < 2 ^ 32 ->
  emits A (numicro_writeblock buffer offset count) s (fun r evs _ =>
    r = ERROR_OK /\
    exists wa src chunks,
      evs = [EvAlloc sizeof_numicro_flash_write_code ERROR_OK wa;
             EvWriteBuffer (wa_address wa) sizeof_numicro_flash_write_code
               numicro_flash_write_code ERROR_OK;
             EvAlloc (initial_buffer_size (bank_target (bank s))) ERROR_OK src]
            ++ flat_map (block_round wa src) chunks
            ++ [EvFree src; EvFree wa] /\
      chained (u32 (bank_base (bank s) + offset)) chunks /\
      Forall (fun c =>
                0 < c.1.2 <= initial_buffer_size (bank_target (bank s)) / 4)
        chunks /\
      chunk_words chunks = count /\
      chunk_bytes chunks = take (Z.to_nat (count * 4)) buffer).
Proof.
  intros Hal Hc Hw. unfold numicro_writeblock.
  step. step. rewrite Hal. cbn [negb Z.eqb]. rewrite initial_buffer_size_eq.
  step. step. cbn [is_ok negb].
  step. step. cbn [is_ok negb].
  destruct (initial_buffer_size_rounds (bank_target (bank s))) as [Hlo _].
  step. rewrite alloc_source_unfold.
  step. step. cbn [is_ok negb]. step. cbn [is_ok negb].
  step. eapply emits_mono; [apply writeblock_loop_chunks; [done..|lia]|].
  intros r evs s1 _ _ (-> & chunks & -> & Hch & Hall & Hwords & Hbytes).
  step. step. step. step. step.
  split; [done|]. exists area, area0, chunks.
  split; [same_log|]. done.
Qed.

(** A write that goes through the accelerator: initialisation, the WRITE
    command, the block write and the failure check. *)
Lemma numicro_write_accelerated buffer offset count (s : St H) :
  (forall e, A e -> link_ok e) ->
  is_halted (state (bank_target (bank s))) = true ->
  offset mod 4 = 0 -> count mod 4 = 0 -> 0 <= count < 2 ^ 32 ->
  emits A (numicro_write buffer offset count) s (fun r evs _ =>
    r = ERROR_OK /\
    exists p p' a c wa src chunks st,
      evs = init_isp_events p p' a c
            ++ [Wr NUMICRO_FLASH_ISPCMD ISPCMD_WRITE;
                EvAlloc sizeof_numicro_flash_write_code ERROR_OK wa;
                EvWriteBuffer (wa_address wa) sizeof_numicro_flash_write_code
                  numicro_flash_write_code ERROR_OK;
                EvAlloc (initial_buffer_size (bank_target (bank s)))
                  ERROR_OK src]
            ++ flat_map (block_round wa src) chunks
            ++ [EvFree src; EvFree wa]
            ++ ispff_events st ERROR_OK /\
      chained (u32 (bank_base (bank s) + offset)) chunks /\
      chunk_words chunks = count / 4 /\
      chunk_bytes chunks = take (Z.to_nat count) buffer).
Proof.
  intros Hlink Hh Ho Hc Hcount. unfold numicro_write.
  assert (forall evs, Forall A evs -> Forall link_ok evs) as Hl.
  { intros evs Hall. eapply Forall_impl; [exact Hall|exact Hlink]. }
  assert (count / 4 * 4 = count) as Hq
    by (pose proof (Z.div_mod count 4); lia).
  step. step. rewrite Hh. cbn [negb].
  step. eapply emits_mono; [by apply (numicro_init_isp_outcome A HA)|].
  intros r evs s1 Hall Hb1 (Hok & Hfail).
  destruct (decide (r = ERROR_OK)) as [->|Hne].
  2:{ destruct (stops_at_link_ok r evs (Hfail Hne) (Hl _ Hall)). }
  destruct Hok as (p & p' & a & c & ->); [done|]. clear Hfail.
  cbn [is_ok].
  step. step.
  match goal with Hr : A (EvWriteU32 _ _ ?r) |- _ =>
    apply Hlink in Hr; cbn in Hr; subst r end.
  cbn [is_ok].
  step. apply emits_assert; [by apply Z.eqb_eq|].
  step. apply emits_assert; [by apply Z.eqb_eq|].
  step. eapply emits_mono.
  { apply numicro_writeblock_accelerated;
      [by apply land_1_of_mod_4|apply Z.div_pos; lia|lia]. }
  intros r wbevs s2 _ Hb2 (-> & wa & src & chunks & -> & Hch & _ & Hwords & Hbytes).
  cbn in Hb2. cbn [is_resource_not_available is_ok].
  step. step. cbn [is_ok].
  step. eapply emits_mono; [apply (check_ispff_outcome A HA)|].
  intros r evs s3 Hall3 _ (Hok & Hfail).
  destruct (decide (r = ERROR_OK)) as [->|Hne].
  2:{ destruct (stops_at_link_ok r evs (Hfail Hne) (Hl _ Hall3)). }
  destruct Hok as (st & ->); [done|]. clear Hfail.
  cbn [is_ok]. step.
  split; [done|]. exists p, p', a, c, wa, src, chunks, st.
  cbn [bank with_hw] in *. rewrite Hb1 in *. rewrite Hq in Hbytes.
  split; [same_log|]. done.
Qed.

End Accelerated.

Lemma sim_respects_accel_ok (c : sim_script) :
  (forall size, sim_alloc_ok c size = true) ->
  sim_write_buffer_ret c = ERROR_OK ->
  sim_run_ret c = ERROR_OK ->
  host_respects (H := sim_state c) accel_ok.
Proof.
  intros Ha Hb Hr. split; try (intros; exact I).
  - intros h addr size data. simpl. by rewrite Hb.
  - intros h size. simpl. unfold sim_alloc_working_area. by rewrite Ha.
  - intros h params entry exit tmo. simpl. by rewrite Hr.
Qed.

Lemma sim_respects_link_ok (c : sim_script) :
  (forall a, sim_read_ret c a = ERROR_OK) ->
  (forall a, sim_write_ret c a = ERROR_OK) ->
  sim_write_memory_ret c = ERROR_OK ->
  host_respects (H := sim_state c) link_ok.
Proof.
  intros Hr Hw Hm. split; try (intros; exact I).
  - intros h addr. simpl. unfold sim_read_u32.
    destruct (addr =? NUMICRO_FLASH_ISPTRG);
      [destruct (sim_polls h <? sim_busy_polls c)%nat|]; simpl; apply Hr.
  - intros h addr v. simpl. unfold sim_write_u32.
    destruct (addr =? NUMICRO_FLASH_ISPTRG); simpl; apply Hw.
  - intros h addr size count data. simpl. by rewrite Hm.
Qed.

Lemma host_respects_and {H : Type} `{Host H} (A B : event -> Prop) :
  host_respects A -> host_respects B -> host_respects (fun e => A e /\ B e).
Proof. intros [] []. by split. Qed.

(** X5: the block write on a host that grants every working area, takes
    every upload and runs the routine to its end, for an even offset and a
    word count whose byte count fits 32 bits.  numicro_writeblock returns
    ERROR_OK.  It has taken an area for the routine image, uploaded the
    image, and taken a data buffer of max(1024, working_area_size / 2)
    bytes at the first request.  It has then sent the buffer in chunks,
    each uploaded to the data buffer and programmed by one run of the
    routine: the first chunk at the bank base plus the offset, each other
    chunk where the one before ended, no chunk empty or longer than a
    quarter of the data buffer in words; together the chunks hold count
    words, and their bytes are the first count * 4 bytes of the buffer, in
    order.  Last it has freed the data buffer and the image area. *)
Theorem numicro_writeblock_programs_buffer {H : Type} `{Host H}
    (buffer : list byte) (offset count : Z) (s : St H) :
  host_respects accel_ok ->
  Z.land offset 1 = 0 -> 0 <= count -> count * 4 < 2 ^ 32 ->
  exists s' wa src chunks,
    numicro_writeblock buffer offset count s = Some (ERROR_OK, s') /\
    bank s' = bank s /\
    trace s' =
      trace s
      ++ [EvAlloc sizeof_numicro_flash_write_code ERROR_OK wa;
          EvWriteBuffer (wa_address wa) sizeof_numicro_flash_write_code
            numicro_flash_write_code ERROR_OK;
          EvAlloc (Z.max 1024 (working_area_size (bank_target (bank s)) / 2))
            ERROR_OK src]
      ++ flat_map (fun '(address, n, data) =>
                     [EvWriteBuffer (wa_address src) (n * 4) data ERROR_OK;
                      EvRunAlgorithm [wa_address src; address; n]
                        (wa_address wa) 0 100000 ERROR_OK]) chunks
      ++ [EvFree src; EvFree wa] /\
    chained (u32 (bank_base (bank s) + offset)) chunks /\
    Forall (fun c =>
              0 < c.1.2 <=
              Z.max 1024 (working_area_size (bank_target (bank s)) / 2) / 4)
      chunks /\
    chunk_words chunks = count /\
    chunk_bytes chunks = take (Z.to_nat (count * 4)) buffer.
Proof.
  intros HA Hal Hc Hw.
  destruct (numicro_writeblock_accelerated accel_ok HA (fun e He => He)
              buffer offset count s Hal Hc Hw)
    as (r & s' & evs & Hrun & Htr & Hb & _ & -> & wa & src & chunks & -> & Hrest).
  exists s', wa, src, chunks. split; [done|]. split; [done|].
  split; [exact Htr|exact Hrest].
Qed.

Lemma numicro_writeblock_programs_buffer_witness :
  let buffer := [x01; x02; x03; x04; x05; x06; x07; x08]%byte in
  let s := start sim_good (aprom_bank halted_target) in
  exists s' wa src chunks,
    numicro_writeblock buffer 0 2 s = Some (ERROR_OK, s') /\
    bank s' = bank s /\
    trace s' =
      trace s
      ++ [EvAlloc sizeof_numicro_flash_write_code ERROR_OK wa;
          EvWriteBuffer (wa_address wa) sizeof_numicro_flash_write_code
            numicro_flash_write_code ERROR_OK;
          EvAlloc (Z.max 1024 (working_area_size (bank_target (bank s)) / 2))
            ERROR_OK src]
      ++ flat_map (fun '(address, n, data) =>
                     [EvWriteBuffer (wa_address src) (n * 4) data ERROR_OK;
                      EvRunAlgorithm [wa_address src; address; n]
                        (wa_address wa) 0 100000 ERROR_OK]) chunks
      ++ [EvFree src; EvFree wa] /\
    chained (u32 (bank_base (bank s) + 0)) chunks /\
    Forall (fun c =>
              0 < c.1.2 <=
              Z.max 1024 (working_area_size (bank_target (bank s)) / 2) / 4)
      chunks /\
    chunk_words chunks = 2 /\
    chunk_bytes chunks = take (Z.to_nat (2 * 4)) buffer.
Proof.
  intros buffer s.
  apply (numicro_writeblock_programs_buffer buffer 0 2 s).
  - apply sim_respects_accel_ok; reflexivity.
  - reflexivity.
  - lia.
  - lia.
Defined.

(** A count above a quarter of the data buffer takes more than one chunk:
    600 words through a buffer of 2048 bytes go as 512 and 88 words. *)
Example numicro_writeblock_two_chunks :
  let out := numicro_writeblock (replicate 2400 x00%byte) 0 600
               (start sim_good (aprom_bank halted_target)) in
  result_of out = Some ERROR_OK /\
  flat_map (fun e => match e with
                     | EvRunAlgorithm params _ _ _ _ => [params]
                     | _ => []
                     end) (trace_of out)
  = [[0x20000040; 0; 512]; [0x20000040; 2048; 88]].
Proof. vm_compute. split; reflexivity. Qed.

(** X6: numicro_write through the accelerator.  On a halted target, with
    offset and count multiples of 4, and a host on which the registers
    work and that serves the accelerator, numicro_write returns ERROR_OK.
    After the initialisation it has written the WRITE command to the
    command register once, and then the host has only moved data: the
    routine image and the chunks go to working areas, the address, data
    and trigger registers are left to the routine, and no single word is
    written the slow way.  The chunks start at the bank base plus the
    offset, follow each other, and hold the first count bytes of the
    buffer.  Both working areas are freed before the failure check, which
    ends the log. *)
Theorem numicro_write_through_accelerator {H : Type} `{Host H}
    (buffer : list byte) (offset count : Z) (s : St H) :
  host_respects cooperative ->
  is_halted (state (bank_target (bank s))) = true ->
  offset mod 4 = 0 -> count mod 4 = 0 -> 0 <= count < 2 ^ 32 ->
  exists s' p p' a c wa src chunks st,
    numicro_write buffer offset count s = Some (ERROR_OK, s') /\
    bank s' = bank s /\
    trace s' =
      trace s
      ++ init_isp_events p p' a c
      ++ [Wr NUMICRO_FLASH_ISPCMD ISPCMD_WRITE;
          EvAlloc sizeof_numicro_flash_write_code ERROR_OK wa;
          EvWriteBuffer (wa_address wa) sizeof_numicro_flash_write_code
            numicro_flash_write_code ERROR_OK;
          EvAlloc (Z.max 1024 (working_area_size (bank_target (bank s)) / 2))
            ERROR_OK src]
      ++ flat_map (fun '(address, n, data) =>
                     [EvWriteBuffer (wa_address src) (n * 4) data ERROR_OK;
                      EvRunAlgorithm [wa_address src; address; n]
                        (wa_address wa) 0 100000 ERROR_OK]) chunks
      ++ [EvFree src; EvFree wa]
      ++ ispff_events st ERROR_OK /\
    chained (u32 (bank_base (bank s) + offset)) chunks /\
    chunk_words chunks = count / 4 /\
    chunk_bytes chunks = take (Z.to_nat count) buffer.
Proof.
  intros HA Hh Ho Hc Hcount.
  destruct (numicro_write_accelerated cooperative HA
              (fun e He => proj1 He) buffer offset count s
              (fun e He => proj2 He) Hh Ho Hc Hcount)
    as (r & s' & evs & Hrun & Htr & Hb & _ & -> &
        p & p' & a & c & wa & src & chunks & st & -> & Hrest).
  exists s', p, p', a, c, wa, src, chunks, st.
  split; [done|]. split; [done|]. split; [exact Htr|exact Hrest].
Qed.

Lemma numicro_write_through_accelerator_witness :
  let buffer := [x01; x02; x03; x04; x05; x06; x07; x08]%byte in
  let s := start sim_good (aprom_bank halted_target) in
  exists s' p p' a c wa src chunks st,
    numicro_write buffer 0 8 s = Some (ERROR_OK, s') /\
    bank s' = bank s /\
    trace s' =
      trace s
      ++ init_isp_events p p' a c
      ++ [Wr NUMICRO_FLASH_ISPCMD ISPCMD_WRITE;
          EvAlloc sizeof_numicro_flash_write_code ERROR_OK wa;
          EvWriteBuffer (wa_address wa) sizeof_numicro_flash_write_code
            numicro_flash_write_code ERROR_OK;
          EvAlloc (Z.max 1024 (working_area_size (bank_target (bank s)) / 2))
            ERROR_OK src]
      ++ flat_map (fun '(address, n, data) =>
                     [EvWriteBuffer (wa_address src) (n * 4) data ERROR_OK;
                      EvRunAlgorithm [wa_address src; address; n]
                        (wa_address wa) 0 100000 ERROR_OK]) chunks
      ++ [EvFree src; EvFree wa]
      ++ ispff_events st ERROR_OK /\
    chained (u32 (bank_base (bank s) + 0)) chunks /\
    chunk_words chunks = 8 / 4 /\
    chunk_bytes chunks = take (Z.to_nat 8) buffer.
Proof.
  intros buffer s.
  apply (numicro_write_through_accelerator buffer 0 8 s).
  - apply host_respects_and.
    + apply sim_respects_accel_ok; reflexivity.
    + apply sim_respects_link_ok; reflexivity.
  - reflexivity.
  - reflexivity.
  - reflexivity.
  - lia.
Defined.

(** ** Erase *)

Lemma link_ok_ispff_events st : Forall link_ok (ispff_events st ERROR_OK).
Proof.
  unfold ispff_events. destruct (Z.land st ISPCON_ISPFF =? 0);
    by repeat constructor.
Qed.

Lemma link_ok_erase_events base secs : forall rounds,
  Forall link_ok (erase_events base secs rounds).
Proof.
  induction secs as [|sec secs IH]; intros [|round rounds];
    try by constructor.
  cbn [erase_events]. apply Forall_app. split; [|apply IH].
  unfold erase_round_events.
  repeat (apply Forall_app; split);
    [by repeat constructor|apply link_ok_busy_events|by repeat constructor
    |apply link_ok_ispff_events].
Qed.

(** X7: numicro_erase stops at the first failure.  On a halted target, for
    a range within the bank and on any host, numicro_erase returns.  It
    returns ERROR_OK only if every register access it made succeeded.
    When it returns an error, either the log ends with the register access
    that failed, and the error is that access's: no further sector is
    addressed or triggered; or the error is ERROR_FAIL and the log ends
    with a poll of the trigger register that ran out of its 100 retries. *)
Theorem numicro_erase_stops_at_failure {H : Type} `{Host H}
    (first last : Z) (s : St H) :
  is_halted (state (bank_target (bank s))) = true ->
  0 <= first -> last < num_sectors (bank s) ->
  exists r s' evs,
    numicro_erase first last s = Some (r, s') /\
    trace s' = trace s ++ evs /\
    (r = ERROR_OK -> Forall link_ok evs) /\
    (r <> ERROR_OK ->
       stops_at r evs \/
       (r = ERROR_FAIL /\
        exists pre busy final,
          evs = pre ++ busy_events busy ++ [Rd NUMICRO_FLASH_ISPTRG final] /\
          length busy = 100%nat /\
          Forall (fun st => st <> 0) (busy ++ [final]))).
Proof.
  intros Hh Hf Hl.
  destruct (numicro_erase_outcome any_host any_host_respected first last s
              Hh Hf Hl)
    as (r & s' & evs & Hrun & Htr & _ & _ & Hfail).
  destruct (numicro_erase_spec any_host any_host_respected first last s
              Hh Hf Hl)
    as (r' & s'' & evs' & Hrun' & Htr' & _ & _ & Hok & _).
  rewrite Hrun in Hrun'. injection Hrun' as <- <-.
  assert (evs' = evs) as -> by (rewrite Htr in Htr'; by apply app_inv_head in Htr').
  exists r, s', evs. split; [done|]. split; [done|]. split.
  - intros Hr. destruct (Hok Hr) as (p & p' & a & c & rounds & -> & _).
    apply Forall_app. split; [apply link_ok_init_isp_events|].
    constructor; [done|apply link_ok_erase_events].
  - intros Hne. destruct (Hfail Hne) as [Hs|[-> Hto]]; [by left|right].
    split; [done|]. destruct Hto as (pre & busy & final & -> & Hlen & Hnz).
    exists pre, busy, final. split; [done|]. split; [done|].
    eapply Forall_impl; [exact Hnz|]. intros st Hst. unfold is_zero in Hst.
    by apply Z.eqb_neq.
Qed.

Lemma numicro_erase_stops_at_failure_witness :
  let s := start (sim_busy 101) (aprom_bank halted_target) in
  exists r s' evs,
    numicro_erase 0 63 s = Some (r, s') /\
    trace s' = trace s ++ evs /\
    (r = ERROR_OK -> Forall link_ok evs) /\
    (r <> ERROR_OK ->
       stops_at r evs \/
       (r = ERROR_FAIL /\
        exists pre busy final,
          evs = pre ++ busy_events busy ++ [Rd NUMICRO_FLASH_ISPTRG final] /\
          length busy = 100%nat /\
          Forall (fun st => st <> 0) (busy ++ [final]))).
Proof.
  intros s. apply (numicro_erase_stops_at_failure 0 63 s).
  - reflexivity.
  - lia.
  - vm_compute. reflexivity.
Defined.

Example numicro_erase_address_write_fails :
  let c := {| sim_regs := sim_regs sim_good;
              sim_read_ret := fun _ => ERROR_OK;
              sim_write_ret := fun a =>
                if a =? NUMICRO_FLASH_ISPADR then ERROR_FAIL else ERROR_OK;
              sim_write_memory_ret := ERROR_OK;
              sim_write_buffer_ret := ERROR_OK;
              sim_alloc_ok := fun _ => true;
              sim_run_ret := ERROR_OK;
              sim_busy_polls := 0 |} in
  let out := numicro_erase 0 63 (start c (aprom_bank halted_target)) in
  result_of out = Some ERROR_FAIL /\
  drop 8 (trace_of out) = [EvWriteU32 NUMICRO_FLASH_ISPADR 0 ERROR_FAIL].
Proof. vm_compute. split; reflexivity. Qed.

(** X8: an empty range.  When last is below first, numicro_erase on a
    halted target still initialises the ISP and writes the erase command
    to the command register, and then returns ERROR_OK without addressing
    or triggering anything: no sector of the bank is looked at, so the
    range need not lie within the bank.  It fails only if one of those
    register accesses fails, with that access last in the log. *)
Theorem numicro_erase_empty_range {H : Type} `{Host H}
    (first last : Z) (s : St H) :
  is_halted (state (bank_target (bank s))) = true ->
  last < first ->
  exists r s' evs,
    numicro_erase first last s = Some (r, s') /\
    trace s' = trace s ++ evs /\ bank s' = bank s /\
    (r = ERROR_OK ->
       exists p p' a c,
         evs = init_isp_events p p' a c
               ++ [Wr NUMICRO_FLASH_ISPCMD ISPCMD_ERASE]) /\
    (r <> ERROR_OK -> stops_at r evs).
Proof.
  intros Hh Hl.
  destruct (numicro_erase_empty_outcome any_host any_host_respected
              first last s Hh Hl)
    as (r & s' & evs & Hrun & Htr & Hb & _ & Hok & Hfail).
  by exists r, s', evs.
Qed.

Lemma numicro_erase_empty_range_witness :
  let s := start sim_good (fresh_bank halted_target 0) in
  exists r s' evs,
    numicro_erase 5 4 s = Some (r, s') /\
    trace s' = trace s ++ evs /\ bank s' = bank s /\
    (r = ERROR_OK ->
       exists p p' a c,
         evs = init_isp_events p p' a c
               ++ [Wr NUMICRO_FLASH_ISPCMD ISPCMD_ERASE]) /\
    (r <> ERROR_OK -> stops_at r evs).
Proof.
  intros s. apply (numicro_erase_empty_range 5 4 s).
  - reflexivity.
  - lia.
Defined.

(** ** Probing *)

Lemma search_parts_Some id parts p :
  search_parts id parts = Some p -> p ∈ parts /\ partid p = id.
Proof.
  induction parts as [|q parts IH]; [done|]. cbn [search_parts].
  destruct (id =? partid q) eqn:E.
  - intros [= ->]. apply Z.eqb_eq in E. split; [by left|done].
  - intros Hs. destruct (IH Hs). split; [by right|done].
Qed.

Lemma search_banks_Some base banks size :
  search_banks base banks = Some size ->
  exists region, region ∈ banks /\ fb_base region = base /\ fb_size region = size.
Proof.
  induction banks as [|q banks IH]; [done|]. cbn [search_banks].
  destruct (base =? fb_base q) eqn:E.
  - intros [= <-]. apply Z.eqb_eq in E. exists q. split; [by left|done].
  - intros Hs. destruct (IH Hs) as (region & Hin & Hb & Hsz).
    exists region. split; [by right|done].
Qed.

Lemma elem_of_take_list {X : Type} (n : nat) (x : X) (l : list X) :
  x ∈ take n l -> x ∈ l.
Proof.
  intros Hin. rewrite <- (take_drop n l). apply elem_of_app. by left.
Qed.

(** The ways out of a probe. *)
Lemma numicro_probe_outcome {H : Type} `{Host H} (s : St H) :
  exists rr id h,
    host_read_u32 (hw s) NUMICRO_SYS_BASE = ((rr, id), h) /\
    let s1 := with_hw s h (EvReadU32 NUMICRO_SYS_BASE rr id) in
    (numicro_probe s = Some (ERROR_FLASH_OPERATION_FAILED, s1) \/
     (rr = ERROR_OK /\
      exists p size,
        search_parts id numicro_parts = Some p /\
        search_banks (bank_base (bank s))
          (take (Z.to_nat (n_banks p)) (cpu_bank p)) = Some size /\
        numicro_probe s
        = Some (ERROR_OK,
                with_bank s1
                  {| bank_target := bank_target (bank s);
                     bank_base := bank_base (bank s);
                     bank_size := size;
                     bank_sectors :=
                       init_sectors (Z.to_nat (size / NUMICRO_PAGESIZE)) 0;
                     bank_driver_priv :=
                       {| probed := true; cpu := Some p |} |}))).
Proof.
  unfold numicro_probe, numicro_get_cpu_type, bind, get_bank, target_read_u32.
  destruct (host_read_u32 (hw s) NUMICRO_SYS_BASE) as [[rr id] h].
  exists rr, id, h. split; [done|]. cbv zeta.
  destruct (is_ok rr) eqn:E; cbn [negb]; unfold ret; cbn [is_ok];
    [|by left].
  apply is_ok_true in E. subst rr.
  destruct (search_parts id numicro_parts) as [p|] eqn:Hs; cbn [is_ok];
    [|by left].
  unfold numicro_get_flash_size.
  destruct (search_banks _ _) as [size|] eqn:Hb; cbn [is_ok negb];
    [|by left].
  right. split; [done|]. exists p, size. by repeat split.
Qed.

(** X9: numicro_probe on any host and any target state.  It always
    returns, after exactly one target access: the read of the part
    identifier at the system base, whether the target is halted or not.
    The result is ERROR_OK or ERROR_FLASH_OPERATION_FAILED: a failed read,
    an identifier that is not in the catalog and a base address that is no
    region of the part all end in the same error (the error of the failed
    read is not passed on), and then the bank is left as it was.  On
    success the identifier read is that of a catalog part, one of whose
    regions starts at the bank's base; the bank keeps target and base, gets
    that region's size and size / 512 sectors from offset 0 on, and is
    marked probed with the part. *)
Theorem numicro_probe_reads_part_id {H : Type} `{Host H} (s : St H) :
  exists r s' rr id,
    numicro_probe s = Some (r, s') /\
    trace s' = trace s ++ [EvReadU32 NUMICRO_SYS_BASE rr id] /\
    (r = ERROR_OK \/ r = ERROR_FLASH_OPERATION_FAILED) /\
    (r <> ERROR_OK -> bank s' = bank s) /\
    (rr <> ERROR_OK -> r = ERROR_FLASH_OPERATION_FAILED) /\
    (r = ERROR_OK ->
       exists p region,
         p ∈ numicro_parts /\ partid p = id /\
         region ∈ cpu_bank p /\ fb_base region = bank_base (bank s) /\
         bank s' =
           {| bank_target := bank_target (bank s);
              bank_base := bank_base (bank s);
              bank_size := fb_size region;
              bank_sectors := init_sectors (Z.to_nat (fb_size region / 512)) 0;
              bank_driver_priv := {| probed := true; cpu := Some p |} |}).
Proof.
  destruct (numicro_probe_outcome s)
    as (rr & id & h & Hread & [Hrun|(-> & p & size & Hp & Hsz & Hrun)]).
  - eexists _, _, rr, id. split; [exact Hrun|]. split; [done|].
    split; [by right|]. split; [done|]. split; [done|]. done.
  - eexists _, _, ERROR_OK, id. split; [exact Hrun|]. split; [done|].
    split; [by left|]. split; [done|]. split; [done|]. intros _.
    apply search_parts_Some in Hp as [Hin Hid].
    apply search_banks_Some in Hsz as (region & Hr & Hbase & <-).
    exists p, region. split; [done|]. split; [done|].
    split; [by apply elem_of_take_list in Hr|]. split; [done|]. reflexivity.
Qed.

Example numicro_probe_read_fails :
  let c := {| sim_regs := sim_regs (sim_part 0x00005800);
              sim_read_ret := fun _ => ERROR_FAIL;
              sim_write_ret := fun _ => ERROR_OK;
              sim_write_memory_ret := ERROR_OK;
              sim_write_buffer_ret := ERROR_OK;
              sim_alloc_ok := fun _ => true;
              sim_run_ret := ERROR_OK;
              sim_busy_polls := 0 |} in
  let out := numicro_probe (start c (fresh_bank running_target 0)) in
  result_of out = Some ERROR_FLASH_OPERATION_FAILED /\
  trace_of out = [EvReadU32 NUMICRO_SYS_BASE ERROR_FAIL 0x00005800] /\
  bank_of out = Some (fresh_bank running_target 0).
Proof. vm_compute. repeat split; reflexivity. Qed.

(** X10: numicro_auto_probe probes at most once with success.  On any
    host it always returns.  On a bank marked probed it returns ERROR_OK
    and leaves the state as it is: no target access.  Otherwise it is
    numicro_probe, with its one read.  After ERROR_OK the bank is marked
    probed, so a second call changes nothing; after an error the bank is
    as before, so a bank that was not probed is probed again by the next
    call. *)
Theorem numicro_auto_probe_probes_once {H : Type} `{Host H} (s : St H) :
  exists r s',
    numicro_auto_probe s = Some (r, s') /\
    (if probed (bank_driver_priv (bank s))
     then r = ERROR_OK /\ s' = s
     else numicro_probe s = Some (r, s') /\
          length (trace s') = S (length (trace s))) /\
    (r = ERROR_OK ->
       probed (bank_driver_priv (bank s')) = true /\
       numicro_auto_probe s' = Some (ERROR_OK, s')) /\
    (r <> ERROR_OK -> bank s' = bank s).
Proof.
  unfold numicro_auto_probe at 1. unfold bind, get_bank.
  destruct (probed (bank_driver_priv (bank s))) eqn:Hp.
  - exists ERROR_OK, s. split; [done|]. split; [done|]. split; [|done].
    intros _. split; [done|]. by apply numicro_auto_probe_probed.
  - destruct (numicro_probe_outcome s)
      as (rr & id & h & Hread & [Hrun|(-> & p & size & Hps & Hsz & Hrun)]).
    + eexists _, _. split; [exact Hrun|]. split.
      { split; [done|]. cbn. rewrite length_app. cbn. lia. }
      split; [done|]. done.
    + eexists _, _. split; [exact Hrun|]. split.
      { split; [done|]. cbn. rewrite length_app. cbn. lia. }
      split; [|done]. intros _. split; [done|].
      by apply numicro_auto_probe_probed.
Qed.

(** ** Addresses and words *)

Lemma writes_to_busy addr busy : writes_to addr (busy_events busy) = [].
Proof. induction busy as [|st busy IH]; [reflexivity|exact IH]. Qed.

Lemma writes_to_adr_init p p' a c :
  writes_to NUMICRO_FLASH_ISPADR (init_isp_events p p' a c) = [].
Proof.
  unfold init_isp_events, unlock_events. destruct (p =? 0); reflexivity.
Qed.

Lemma writes_to_adr_ispff st r :
  writes_to NUMICRO_FLASH_ISPADR (ispff_events st r) = [].
Proof.
  unfold ispff_events. destruct (Z.land st ISPCON_ISPFF =? 0); reflexivity.
Qed.

Lemma writes_to_failed_allocs addr sizes fevs :
  failed_allocs sizes fevs -> writes_to addr fevs = [].
Proof.
  induction 1 as [|size e sizes fevs (r & area & -> & Hr) _ IH]; [done|].
  exact IH.
Qed.

Lemma writes_to_gave_up addr t evs :
  gave_up_events t evs -> writes_to addr evs = [].
Proof.
  intros (area & [(rr & Hrr & ->)|(fevs & -> & Hf)]); [done|].
  change (writes_to addr (?a :: ?b :: ?l)) with (writes_to addr l).
  rewrite writes_to_app, (writes_to_failed_allocs _ _ _ Hf). reflexivity.
Qed.

Lemma writes_to_adr_erase_events base secs : forall rounds,
  length rounds = length secs ->
  writes_to NUMICRO_FLASH_ISPADR (erase_events base secs rounds)
  = map (fun sec => u32 (base + sec_offset sec)) secs.
Proof.
  induction secs as [|sec secs IH]; intros [|round rounds] Hlen; try done.
  cbn [erase_events map]. rewrite writes_to_app, IH by (by injection Hlen).
  unfold erase_round_events.
  rewrite !writes_to_app, writes_to_busy, writes_to_adr_ispff. reflexivity.
Qed.

Lemma init_sectors_drop n : forall k offset,
  drop k (init_sectors n offset)
  = init_sectors (n - k) (offset + NUMICRO_PAGESIZE * Z.of_nat k).
Proof.
  induction n as [|n IH]; intros [|k] offset; cbn [drop init_sectors Nat.sub].
  - done.
  - done.
  - rewrite Z.mul_0_r, Z.add_0_r. reflexivity.
  - rewrite IH. f_equal. lia.
Qed.

Lemma init_sectors_take n : forall k offset,
  (k <= n)%nat -> take k (init_sectors n offset) = init_sectors k offset.
Proof.
  induction n as [|n IH]; intros [|k] offset Hk; cbn [take init_sectors];
    try done; [lia|].
  rewrite IH by lia. reflexivity.
Qed.

Lemma init_sectors_offsets k : forall j,
  map sec_offset (init_sectors k (NUMICRO_PAGESIZE * Z.of_nat j))
  = map (fun i => NUMICRO_PAGESIZE * Z.of_nat i) (seq j k).
Proof.
  induction k as [|k IH]; intros j; [done|].
  cbn [init_sectors map seq sec_offset]. f_equal.
  rewrite <- IH. do 2 f_equal. lia.
Qed.

(** X11: erase after probe.  When numicro_probe has succeeded and left
    the bank with n sectors, numicro_erase of the sectors first .. last of
    that bank, on a halted target and on any host, returns; when it returns
    ERROR_OK, the addresses it has written to the address register are
    those of the pages first .. last, base + 512 * i (reduced to 32 bits)
    for each i in order, one write per page. *)
Theorem numicro_erase_after_probe {H : Type} `{Host H}
    (s0 : St H) (n first last : Z) :
  result_of (numicro_probe s0) = Some ERROR_OK ->
  num_sectors <$> bank_of (numicro_probe s0) = Some n ->
  is_halted (state (bank_target (bank s0))) = true ->
  0 <= first -> last < n ->
  exists s r s' evs,
    numicro_probe s0 = Some (ERROR_OK, s) /\
    numicro_erase first last s = Some (r, s') /\
    trace s' = trace s ++ evs /\
    (r = ERROR_OK ->
       writes_to NUMICRO_FLASH_ISPADR evs
       = map (fun i => u32 (bank_base (bank s0) + 512 * Z.of_nat i))
           (seq (Z.to_nat first) (Z.to_nat (last + 1 - first)))).
Proof.
  intros Hres Hn Hh Hf Hl.
  destruct (numicro_probe_outcome s0)
    as (rr & id & h & Hread & [Hrun|(-> & p & size & Hp & Hsz & Hrun)]).
  { rewrite Hrun in Hres. done. }
  rewrite Hrun in Hn. cbn in Hn. injection Hn as <-.
  match type of Hrun with _ = Some (_, ?x) => set (s := x) in * end.
  assert (bank_sectors (bank s)
          = init_sectors (Z.to_nat (size / NUMICRO_PAGESIZE)) 0) as Hsecs
    by reflexivity.
  assert (bank_base (bank s) = bank_base (bank s0)) as Hbase by reflexivity.
  assert (is_halted (state (bank_target (bank s))) = true) as Hh' by exact Hh.
  assert (last < num_sectors (bank s)) as Hl' by exact Hl.
  clear Hl. rename Hl' into Hl.
  destruct (numicro_erase_spec any_host any_host_respected first last s
              Hh' Hf Hl)
    as (r & s' & evs & Hrune & Htr & _ & _ & Hok & _).
  exists s, r, s', evs. split; [done|]. split; [done|]. split; [done|].
  intros Hr. destruct (Hok Hr) as (q & q' & a & c & rounds & -> & Hlr & _).
  rewrite writes_to_app, writes_to_adr_init.
  change (writes_to ?addr (Wr NUMICRO_FLASH_ISPCMD ISPCMD_ERASE :: ?l))
    with (writes_to addr l).
  rewrite writes_to_adr_erase_events
    by (rewrite length_sector_range by done; exact Hlr).
  rewrite Hbase. unfold sector_range. rewrite Hsecs.
  unfold num_sectors in Hl. rewrite Hsecs, length_init_sectors in Hl.
  rewrite init_sectors_drop, init_sectors_take by lia.
  rewrite Z.add_0_l.
  rewrite <- (map_map sec_offset (fun o => u32 (bank_base (bank s0) + o))).
  rewrite init_sectors_offsets, map_map. reflexivity.
Qed.

Lemma numicro_erase_after_probe_witness :
  let s0 := start (sim_part 0x00005800) (fresh_bank halted_target 0) in
  exists s r s' evs,
    numicro_probe s0 = Some (ERROR_OK, s) /\
    numicro_erase 2 4 s = Some (r, s') /\
    trace s' = trace s ++ evs /\
    (r = ERROR_OK ->
       writes_to NUMICRO_FLASH_ISPADR evs
       = map (fun i => u32 (bank_base (bank s0) + 512 * Z.of_nat i))
           (seq (Z.to_nat 2) (Z.to_nat (4 + 1 - 2)))).
Proof.
  intros s0. apply (numicro_erase_after_probe s0 64 2 4).
  - vm_compute. reflexivity.
  - vm_compute. reflexivity.
  - reflexivity.
  - lia.
  - lia.
Defined.

Example numicro_erase_after_probe_run :
  let s0 := start (sim_part 0x00005800) (fresh_bank halted_target 0) in
  match numicro_probe s0 with
  | Some (_, s) =>
      writes_to NUMICRO_FLASH_ISPADR
        (drop 1 (trace_of (numicro_erase 2 4 s)))
  | None => []
  end = [1024; 1536; 2048].
Proof. vm_compute. reflexivity. Qed.

Lemma word_writes_write_events base offset buffer rounds : forall i,
  word_writes (write_events base offset buffer i rounds)
  = map (fun k => take 4 (drop (Z.to_nat (i + 4 * Z.of_nat k)) buffer))
      (seq 0 (length rounds)).
Proof.
  induction rounds as [|busy rounds IH]; intros i; [reflexivity|].
  change (write_events base offset buffer i (busy :: rounds))
    with (write_round_events base offset buffer i busy
          ++ write_events base offset buffer (i + 4) rounds).
  rewrite word_writes_app, IH.
  unfold write_round_events. rewrite !word_writes_app, word_writes_busy.
  cbn [length seq map]. rewrite <- seq_shift, map_map.
  change (word_writes [Wr ?a ?v; EvWriteMemory NUMICRO_FLASH_ISPDAT 4 1 ?d ERROR_OK; ?e])
    with [d].
  cbn [app]. f_equal.
  - do 3 f_equal. lia.
  - apply map_ext. intros k. do 3 f_equal. lia.
Qed.

Lemma writes_to_adr_write_events base offset buffer rounds : forall i,
  writes_to NUMICRO_FLASH_ISPADR (write_events base offset buffer i rounds)
  = map (fun k => u32 (base + offset + (i + 4 * Z.of_nat k)))
      (seq 0 (length rounds)).
Proof.
  induction rounds as [|busy rounds IH]; intros i; [reflexivity|].
  change (write_events base offset buffer i (busy :: rounds))
    with (write_round_events base offset buffer i busy
          ++ write_events base offset buffer (i + 4) rounds).
  rewrite writes_to_app, IH.
  unfold write_round_events. rewrite !writes_to_app, writes_to_busy.
  cbn [length seq map]. rewrite <- seq_shift, map_map.
  change (writes_to NUMICRO_FLASH_ISPADR
            [Wr NUMICRO_FLASH_ISPADR ?v; ?m; Wr NUMICRO_FLASH_ISPTRG ?g])
    with [v].
  cbn [app]. f_equal.
  - do 2 f_equal. lia.
  - apply map_ext. intros k. do 2 f_equal. lia.
Qed.

Lemma concat_words (buffer : list byte) (n : nat) :
  concat (map (fun k => take 4 (drop (4 * k) buffer)) (seq 0 n))
  = take (4 * n) buffer.
Proof.
  induction n as [|n IH]; [done|].
  rewrite seq_S, map_app, concat_app, IH. cbn [map concat Nat.add].
  rewrite app_nil_r, take_take_drop. f_equal. lia.
Qed.

(** X12: the words of the slow path.  On a halted target, with offset and
    count multiples of 4, and a host that has no working area for the data
    buffer while registers and memory writes work and the controller is
    never found busy, numicro_write returns ERROR_OK, and it has written
    the buffer word by word: the k-th address written to the address
    register is base + offset + 4 * k (reduced to 32 bits), the k-th word
    handed to the data register holds the bytes 4 * k .. 4 * k + 3 of the
    buffer, for k from 0 below count / 4; together the words are the first
    count bytes of the buffer, in order. *)
Theorem numicro_write_fallback_words {H : Type} `{Host H}
    (buffer : list byte) (offset count : Z) (s : St H) :
  host_respects fallback_host ->
  is_halted (state (bank_target (bank s))) = true ->
  offset mod 4 = 0 -> count mod 4 = 0 -> 0 <= count ->
  exists s' evs,
    numicro_write buffer offset count s = Some (ERROR_OK, s') /\
    trace s' = trace s ++ evs /\
    writes_to NUMICRO_FLASH_ISPADR evs
    = map (fun k => u32 (bank_base (bank s) + offset + 4 * Z.of_nat k))
        (seq 0 (Z.to_nat (count / 4))) /\
    word_writes evs
    = map (fun k => take 4 (drop (4 * k) buffer))
        (seq 0 (Z.to_nat (count / 4))) /\
    concat (word_writes evs) = take (Z.to_nat count) buffer.
Proof.
  intros HA Hh Ho Hc Hcount.
  assert (forall e, fallback_host e -> accel_unavailable e) as HU
    by (by intros e [? _]).
  destruct (numicro_write_fallback fallback_host HA buffer offset count s
              HU Hh Ho Hc)
    as (r & s' & evs & Hrun & Htr & _ & Hall & Hok & Hfail).
  destruct (decide (r = ERROR_OK)) as [->|Hne].
  2:{ exfalso. destruct Hfail as [_ Hto]; [done| |].
      - eapply Forall_impl; [exact Hall|]. by intros e (_ & ? & _).
      - apply (timed_out_not_idle evs Hto).
        eapply Forall_impl; [exact Hall|]. by intros e (_ & _ & ?). }
  exists s', evs. split; [done|]. split; [done|].
  destruct Hok as (p & p' & a & c & wbevs & rounds & st & -> & Hgu & Hl);
    [done|].
  assert (word_writes
            (init_isp_events p p' a c ++
             Wr NUMICRO_FLASH_ISPCMD ISPCMD_WRITE
             :: wbevs ++
                write_events (bank_base (bank s)) offset buffer 0 rounds ++
                ispff_events st ERROR_OK)
          = map (fun k => take 4 (drop (4 * k) buffer))
              (seq 0 (Z.to_nat (count / 4)))) as Hwords.
  { apply gave_up_events_requests in Hgu as (_ & _ & Hww).
    rewrite word_writes_app, word_writes_init.
    change (Wr NUMICRO_FLASH_ISPCMD ISPCMD_WRITE :: ?l)
      with ([Wr NUMICRO_FLASH_ISPCMD ISPCMD_WRITE] ++ l).
    rewrite !word_writes_app, Hww, word_writes_ispff.
    rewrite word_writes_write_events, Hl. cbn [app].
    rewrite app_nil_r. apply map_ext. intros k. do 2 f_equal. lia. }
  split; [|split; [exact Hwords|]].
  - rewrite writes_to_app, writes_to_adr_init.
    change (writes_to ?addr (Wr NUMICRO_FLASH_ISPCMD ISPCMD_WRITE :: ?l))
      with (writes_to addr l).
    rewrite !writes_to_app, (writes_to_gave_up _ _ _ Hgu),
      writes_to_adr_ispff, writes_to_adr_write_events, Hl.
    cbn [app]. rewrite app_nil_r. apply map_ext. intros k. do 2 f_equal.
  - rewrite Hwords, concat_words. f_equal.
    pose proof (Z.div_mod count 4). lia.
Qed.

Lemma numicro_write_fallback_words_witness :
  let buffer := [x01; x02; x03; x04; x05; x06; x07; x08]%byte in
  let s := start sim_no_buffer (aprom_bank halted_target) in
  exists s' evs,
    numicro_write buffer 512 8 s = Some (ERROR_OK, s') /\
    trace s' = trace s ++ evs /\
    writes_to NUMICRO_FLASH_ISPADR evs
    = map (fun k => u32 (bank_base (bank s) + 512 + 4 * Z.of_nat k))
        (seq 0 (Z.to_nat (8 / 4))) /\
    word_writes evs
    = map (fun k => take 4 (drop (4 * k) buffer))
        (seq 0 (Z.to_nat (8 / 4))) /\
    concat (word_writes evs) = take (Z.to_nat 8) buffer.
Proof.
  intros buffer s. apply (numicro_write_fallback_words buffer 512 8 s).
  - apply sim_respects_fallback; try reflexivity.
    intros size Hne. by apply Z.eqb_neq.
  - reflexivity.
  - reflexivity.
  - reflexivity.
  - lia.
Defined.

(** X13: numicro_write on any host.  On a halted target, with offset and
    count multiples of 4, numicro_write always returns, and the bank is
    as before.  When it returns an error, either the log ends with a
    register access or memory write that failed, and the error is that
    access's; or the error is ERROR_FAIL and the log ends with a poll of
    the trigger register that ran out of its 100 retries.  So no error of
    the block transfer (a refused working area, a failed upload, a failed
    run of the routine) is ever the result of numicro_write. *)
Theorem numicro_write_stops_at_failure {H : Type} `{Host H}
    (buffer : list byte) (offset count : Z) (s : St H) :
  is_halted (state (bank_target (bank s))) = true ->
  offset mod 4 = 0 -> count mod 4 = 0 ->
  exists r s' evs,
    numicro_write buffer offset count s = Some (r, s') /\
    trace s' = trace s ++ evs /\ bank s' = bank s /\
    (r <> ERROR_OK ->
       stops_at r evs \/
       (r = ERROR_FAIL /\
        exists pre busy final,
          evs = pre ++ busy_events busy ++ [Rd NUMICRO_FLASH_ISPTRG final] /\
          length busy = 100%nat /\
          Forall (fun st => st <> 0) (busy ++ [final]))).
Proof.
  intros Hh Ho Hc.
  destruct (numicro_write_outcome any_host any_host_respected buffer offset
              count s Hh Ho Hc)
    as (r & s' & evs & Hrun & Htr & Hb & _ & Hfail).
  exists r, s', evs. do 3 (split; [done|]).
  intros Hne. destruct (Hfail Hne) as [Hs|[-> Hto]]; [by left|right].
  split; [done|]. destruct Hto as (pre & busy & final & -> & Hlen & Hnz).
  exists pre, busy, final. split; [done|]. split; [done|].
  eapply Forall_impl; [exact Hnz|]. intros st Hst. unfold is_zero in Hst.
  by apply Z.eqb_neq.
Qed.

Lemma numicro_write_stops_at_failure_witness :
  let buffer := [x01; x02; x03; x04]%byte in
  let s := start sim_run_fails (aprom_bank halted_target) in
  exists r s' evs,
    numicro_write buffer 0 4 s = Some (r, s') /\
    trace s' = trace s ++ evs /\ bank s' = bank s /\
    (r <> ERROR_OK ->
       stops_at r evs \/
       (r = ERROR_FAIL /\
        exists pre busy final,
          evs = pre ++ busy_events busy ++ [Rd NUMICRO_FLASH_ISPTRG final] /\
          length busy = 100%nat /\
          Forall (fun st => st <> 0) (busy ++ [final]))).
Proof.
  intros buffer s. apply (numicro_write_stops_at_failure buffer 0 4 s).
  - reflexivity.
  - reflexivity.
  - reflexivity.
Defined.

(** ** Commands on a host that answers *)

Section Responsive.

Context {H : Type} `{Host H}.
Variable A : event -> Prop.
Hypothesis HA : host_respects A.
Hypothesis Hlink : forall e, A e -> link_ok e.
Hypothesis Hidle : forall e, A e -> idle_trigger e.

Lemma responsive_link_ok evs : Forall A evs -> Forall link_ok evs.
Proof. intros Hall. eapply Forall_impl; [exact Hall|exact Hlink]. Qed.

Lemma responsive_not_busy busy evs evs' :
  Forall A (evs ++ busy_events busy ++ evs') ->
  Forall (fun st => go_clear st = false) busy -> busy = [].
Proof.
  intros Hall Hb. destruct busy as [|st busy]; [done|exfalso].
  apply Forall_cons in Hb as [Hst _].
  apply Forall_app in Hall as [_ Hall]. apply Forall_app in Hall as [Hall _].
  change (busy_events (st :: busy))
    with (Rd NUMICRO_FLASH_ISPTRG st :: EvSleep 1 :: busy_events busy) in Hall.
  apply Forall_cons in Hall as [Hrd _]. apply Hidle in Hrd.
  cbn in Hrd. rewrite Hrd in Hst by done. done.
Qed.

Lemma numicro_fmc_cmd_responsive t cmd addr wdata rdata (s : St H) :
  emits A (numicro_fmc_cmd t cmd addr wdata rdata) s (fun rv evs _ =>
    rv.1 = ERROR_OK /\
    evs = fmc_writes cmd addr wdata
          ++ [Rd NUMICRO_FLASH_ISPTRG 0; Rd NUMICRO_FLASH_ISPDAT rv.2]).
Proof.
  eapply emits_mono; [apply (numicro_fmc_cmd_spec A HA)|].
  intros [r v] evs s' Hall _ [Hok Hfail]. cbn [fst snd] in *.
  destruct (decide (r = ERROR_OK)) as [->|Hne].
  - destruct Hok as (busy & final & -> & Hb & _ & _); [done|].
    assert (busy = []) as -> by (by eapply responsive_not_busy).
    split; [done|]. cbn [busy_events flat_map app].
    apply Forall_app in Hall as [_ Hall].
    apply Forall_cons in Hall as [Hrd _]. apply Hidle in Hrd. cbn in Hrd.
    by rewrite Hrd.
  - exfalso.
    destruct Hfail as (busy & final & _ & _ & -> & Hb & Hlen & _);
      [done|by apply link_ok_registers_ok, responsive_link_ok|].
    assert (busy = []) as -> by (by eapply responsive_not_busy).
    done.
Qed.

Lemma numicro_init_isp_responsive t (s : St H) :
  is_halted (state t) = true ->
  emits A (numicro_init_isp t) s (fun r evs _ =>
    r = ERROR_OK /\ exists p p' a c, evs = init_isp_events p p' a c).
Proof.
  intros Hh.
  eapply emits_mono; [by apply (numicro_init_isp_outcome A HA)|].
  intros r evs s' Hall _ [Hok Hfail].
  destruct (decide (r = ERROR_OK)) as [->|Hne]; [by split; [|apply Hok]|].
  destruct (stops_at_link_ok r evs (Hfail Hne) (responsive_link_ok _ Hall)).
Qed.

(** What the three ISP commands share: the initialisation, then one
    command of the engine. *)
Lemma isp_command_responsive t cmd addr wdata rdata (s : St H) :
  is_halted (state t) = true ->
  emits A
    (check (numicro_init_isp t)
       (let* (retval, value) := numicro_fmc_cmd t cmd addr wdata rdata in
        if negb (is_ok retval) then ret retval else ret ERROR_OK)) s
    (fun r evs _ =>
       r = ERROR_OK /\
       exists p p' a c v,
         evs = init_isp_events p p' a c
               ++ fmc_writes cmd addr wdata
               ++ [Rd NUMICRO_FLASH_ISPTRG 0; Rd NUMICRO_FLASH_ISPDAT v]).
Proof.
  intros Hh. apply emits_check.
  eapply emits_mono; [by apply numicro_init_isp_responsive|].
  intros r evs s1 _ _ (-> & p & p' & a & c & ->). cbn [is_ok].
  apply emits_bind.
  eapply emits_mono; [apply numicro_fmc_cmd_responsive|].
  intros [r v] evs s2 _ _ [Hr ->]. cbn [fst snd] in Hr. subst r.
  cbn [is_ok negb]. apply emits_ret.
  split; [done|]. exists p, p', a, c, v. by rewrite app_nil_r.
Qed.

End Responsive.

Lemma sim_respects_responsive (c : sim_script) :
  (forall a, sim_read_ret c a = ERROR_OK) ->
  (forall a, sim_write_ret c a = ERROR_OK) ->
  sim_write_memory_ret c = ERROR_OK ->
  sim_busy_polls c = 0%nat ->
  host_respects (H := sim_state c) responsive.
Proof.
  intros Hr Hw Hm Hp. apply host_respects_and.
  - by apply sim_respects_link_ok.
  - split; try (intros; exact I).
    intros h addr. simpl. unfold sim_read_u32. rewrite Hp.
    destruct (addr =? NUMICRO_FLASH_ISPTRG) eqn:E; simpl; [done|].
    intros ->. by rewrite Z.eqb_refl in E.
Qed.

(** X14: the lock check on a host that answers.  On a halted target, when
    every register access succeeds and the controller is never found busy,
    numicro_protect_check returns ERROR_OK.  After the initialisation it
    has issued two read commands, for the addresses 0x5000C000 and
    0x5000C004, each with data 0 and one poll.  Every sector of the bank
    is then marked protected (1) when bit 1 is clear in the value read for
    the first command, and unprotected (0) when it is set; the value read
    for the second command has no effect.  Nothing else of the bank
    changes. *)
Theorem numicro_protect_check_reads_lock_bit {H : Type} `{Host H}
    (config : Z * Z) (s : St H) :
  host_respects responsive ->
  is_halted (state (bank_target (bank s))) = true ->
  exists s' p p' a c c0 c1,
    numicro_protect_check config s = Some (ERROR_OK, s') /\
    trace s' =
      trace s
      ++ init_isp_events p p' a c
      ++ [Wr NUMICRO_FLASH_ISPCMD ISPCMD_READ; Wr NUMICRO_FLASH_ISPDAT 0;
          Wr NUMICRO_FLASH_ISPADR 0x5000C000; Wr NUMICRO_FLASH_ISPTRG 1;
          Rd NUMICRO_FLASH_ISPTRG 0; Rd NUMICRO_FLASH_ISPDAT c0]
      ++ [Wr NUMICRO_FLASH_ISPCMD ISPCMD_READ; Wr NUMICRO_FLASH_ISPDAT 0;
          Wr NUMICRO_FLASH_ISPADR 0x5000C004; Wr NUMICRO_FLASH_ISPTRG 1;
          Rd NUMICRO_FLASH_ISPTRG 0; Rd NUMICRO_FLASH_ISPDAT c1] /\
    Forall (fun sec =>
              sec_is_protected sec = if Z.land c0 2 =? 0 then 1 else 0)
      (bank_sectors (bank s')) /\
    bank s' =
      {| bank_target := bank_target (bank s);
         bank_base := bank_base (bank s);
         bank_size := bank_size (bank s);
         bank_sectors :=
           map (fun sec =>
                  {| sec_offset := sec_offset sec;
                     sec_size := sec_size sec;
                     sec_is_erased := sec_is_erased sec;
                     sec_is_protected := if Z.land c0 2 =? 0 then 1 else 0 |})
             (bank_sectors (bank s));
         bank_driver_priv := bank_driver_priv (bank s) |}.
Proof.
  intros HA Hh. set (t := bank_target (bank s)) in *.
  destruct (numicro_init_isp_responsive responsive HA (fun e He => proj1 He)
              t s Hh)
    as (r & s1 & evs1 & Hrun1 & Htr1 & Hb1 & _ & -> & p & p' & a & c & ->).
  destruct (numicro_fmc_cmd_responsive responsive HA
              (fun e He => proj1 He) (fun e He => proj2 He)
              t ISPCMD_READ NUMICRO_CONFIG0 0 config.1 s1)
    as ([r0 c0] & s2 & evs2 & Hrun2 & Htr2 & Hb2 & _ & Hr0 & ->).
  destruct (numicro_fmc_cmd_responsive responsive HA
              (fun e He => proj1 He) (fun e He => proj2 He)
              t ISPCMD_READ NUMICRO_CONFIG1 0 config.2 s2)
    as ([r1 c1] & s3 & evs3 & Hrun3 & Htr3 & Hb3 & _ & Hr1 & ->).
  cbn [fst snd] in *. subst r0 r1.
  assert (bank s3 = bank s) as Hb by congruence.
  eexists _, p, p', a, c, c0, c1. split.
  - unfold numicro_protect_check, check, bind, get_bank. fold t.
    rewrite Hh. cbn [negb]. rewrite Hrun1. cbn [is_ok]. rewrite Hrun2, Hrun3.
    rewrite protect_loop_paints by (cbn; by rewrite Hb).
    reflexivity.
  - cbn [trace bank with_bank]. rewrite Hb, Htr3, Htr2, Htr1.
    split; [by rewrite <- !app_assoc|].
    cbn [take drop app]. split; [|reflexivity].
    apply Forall_forall. intros sec Hsec.
    apply list_elem_of_fmap in Hsec as (sec0 & -> & _). reflexivity.
Qed.

Lemma numicro_protect_check_reads_lock_bit_witness :
  let s := start sim_good (aprom_bank halted_target) in
  exists s' p p' a c c0 c1,
    numicro_protect_check (7, 7) s = Some (ERROR_OK, s') /\
    trace s' =
      trace s
      ++ init_isp_events p p' a c
      ++ [Wr NUMICRO_FLASH_ISPCMD ISPCMD_READ; Wr NUMICRO_FLASH_ISPDAT 0;
          Wr NUMICRO_FLASH_ISPADR 0x5000C000; Wr NUMICRO_FLASH_ISPTRG 1;
          Rd NUMICRO_FLASH_ISPTRG 0; Rd NUMICRO_FLASH_ISPDAT c0]
      ++ [Wr NUMICRO_FLASH_ISPCMD ISPCMD_READ; Wr NUMICRO_FLASH_ISPDAT 0;
          Wr NUMICRO_FLASH_ISPADR 0x5000C004; Wr NUMICRO_FLASH_ISPTRG 1;
          Rd NUMICRO_FLASH_ISPTRG 0; Rd NUMICRO_FLASH_ISPDAT c1] /\
    Forall (fun sec =>
              sec_is_protected sec = if Z.land c0 2 =? 0 then 1 else 0)
      (bank_sectors (bank s')) /\
    bank s' =
      {| bank_target := bank_target (bank s);
         bank_base := bank_base (bank s);
         bank_size := bank_size (bank s);
         bank_sectors :=
           map (fun sec =>
                  {| sec_offset := sec_offset sec;
                     sec_size := sec_size sec;
                     sec_is_erased := sec_is_erased sec;
                     sec_is_protected := if Z.land c0 2 =? 0 then 1 else 0 |})
             (bank_sectors (bank s));
         bank_driver_priv := bank_driver_priv (bank s) |}.
Proof.
  intros s. apply (numicro_protect_check_reads_lock_bit (7, 7) s).
  - apply sim_respects_responsive; reflexivity.
  - reflexivity.
Defined.

(** X15: the ISP commands check their arguments before they touch the
    target.  read_isp takes exactly one argument, write_isp two and
    chip_erase none: with any other number each returns
    ERROR_COMMAND_SYNTAX_ERROR.  With the right number, an argument that
    does not parse as a number ends the command with the parser's error,
    the first argument being parsed first.  In all these cases the state
    is as before: no register is accessed, whether the target is halted or
    not. *)
Theorem isp_commands_check_arguments {H : Type} `{Host H}
    (parse_u32 : string -> retval * Z) (argv : list string) (t : target)
    (x : Z) (s : St H) :
  (length argv <> 1%nat ->
   numicro_handle_read_isp_command parse_u32 argv t x s
   = Some (ERROR_COMMAND_SYNTAX_ERROR, s)) /\
  (length argv <> 2%nat ->
   numicro_handle_write_isp_command parse_u32 argv t x s
   = Some (ERROR_COMMAND_SYNTAX_ERROR, s)) /\
  (length argv <> 0%nat ->
   numicro_handle_chip_erase_command argv t x s
   = Some (ERROR_COMMAND_SYNTAX_ERROR, s)) /\
  (forall arg0 r,
     argv = [arg0] -> (parse_u32 arg0).1 = r -> r <> ERROR_OK ->
     numicro_handle_read_isp_command parse_u32 argv t x s = Some (r, s)) /\
  (forall arg0 arg1 r,
     argv = [arg0; arg1] -> (parse_u32 arg0).1 = r -> r <> ERROR_OK ->
     numicro_handle_write_isp_command parse_u32 argv t x s = Some (r, s)) /\
  (forall arg0 arg1 r,
     argv = [arg0; arg1] -> (parse_u32 arg0).1 = ERROR_OK ->
     (parse_u32 arg1).1 = r -> r <> ERROR_OK ->
     numicro_handle_write_isp_command parse_u32 argv t x s = Some (r, s)).
Proof.
  split; [|split; [|split; [|split; [|split]]]].
  - intros Hlen. by destruct argv as [|? [|? ?]].
  - intros Hlen. by destruct argv as [|? [|? [|? ?]]].
  - intros Hlen. by destruct argv as [|? ?].
  - intros arg0 r -> Hp Hne. unfold numicro_handle_read_isp_command.
    destruct (parse_u32 arg0) as [r' a]. cbn in Hp. subst r'.
    apply is_ok_false in Hne. by rewrite Hne.
  - intros arg0 arg1 r -> Hp Hne. unfold numicro_handle_write_isp_command.
    destruct (parse_u32 arg0) as [r' a]. cbn in Hp. subst r'.
    apply is_ok_false in Hne. by rewrite Hne.
  - intros arg0 arg1 r -> Hp0 Hp1 Hne.
    unfold numicro_handle_write_isp_command.
    destruct (parse_u32 arg0) as [r0 a]. cbn in Hp0. subst r0.
    destruct (parse_u32 arg1) as [r' d]. cbn in Hp1. subst r'.
    apply is_ok_false in Hne. cbn [is_ok negb]. by rewrite Hne.
Qed.

(** X16: the ISP commands on a host that answers.  On a halted target,
    when every register access succeeds and the controller is never found
    busy, and the arguments parse, each command returns ERROR_OK after the
    initialisation and exactly one command of the engine: read_isp issues
    READ (0x00) for the given address with data 0, write_isp issues WRITE
    (0x21) for the given address and data, and chip_erase issues CHIPERASE
    (0x26) with address 0 and data 0.  The command code goes to the
    command register, the data to the data register, the address to the
    address register and GO to the trigger register, followed by one poll
    and the read of the data register. *)
Theorem isp_commands_issue_one_command {H : Type} `{Host H}
    (parse_u32 : string -> retval * Z) (t : target) (x : Z) (s : St H)
    (arg0 arg1 : string) (address data : Z) :
  host_respects responsive ->
  is_halted (state t) = true ->
  parse_u32 arg0 = (ERROR_OK, address) ->
  parse_u32 arg1 = (ERROR_OK, data) ->
  let issued cmd addr wdata s' :=
    exists p p' a c v,
      trace s' =
        trace s
        ++ init_isp_events p p' a c
        ++ [Wr NUMICRO_FLASH_ISPCMD cmd; Wr NUMICRO_FLASH_ISPDAT wdata;
            Wr NUMICRO_FLASH_ISPADR addr; Wr NUMICRO_FLASH_ISPTRG 1;
            Rd NUMICRO_FLASH_ISPTRG 0; Rd NUMICRO_FLASH_ISPDAT v] in
  (exists s',
     numicro_handle_read_isp_command parse_u32 [arg0] t x s
     = Some (ERROR_OK, s') /\ issued 0x00 address 0 s') /\
  (exists s',
     numicro_handle_write_isp_command parse_u32 [arg0; arg1] t x s
     = Some (ERROR_OK, s') /\ issued 0x21 address data s') /\
  (exists s',
     numicro_handle_chip_erase_command [] t x s
     = Some (ERROR_OK, s') /\ issued 0x26 0 0 s').
Proof.
  intros HA Hh Hp0 Hp1 issued.
  assert (forall cmd addr wdata,
            exists s',
              check (numicro_init_isp t)
                (let* (retval, value) := numicro_fmc_cmd t cmd addr wdata x in
                 if negb (is_ok retval) then ret retval else ret ERROR_OK) s
              = Some (ERROR_OK, s') /\ issued cmd addr wdata s') as Hcmd.
  { intros cmd addr wdata.
    destruct (isp_command_responsive responsive HA
                (fun e He => proj1 He) (fun e He => proj2 He)
                t cmd addr wdata x s Hh)
      as (r & s' & evs & Hrun & Htr & _ & _ & -> & p & p' & a & c & v & ->).
    exists s'. split; [done|]. exists p, p', a, c, v. exact Htr. }
  split; [|split].
  - unfold numicro_handle_read_isp_command. rewrite Hp0. cbn [is_ok negb].
    apply Hcmd.
  - unfold numicro_handle_write_isp_command. rewrite Hp0, Hp1.
    cbn [is_ok negb]. apply Hcmd.
  - unfold numicro_handle_chip_erase_command. apply Hcmd.
Qed.

Lemma isp_commands_issue_one_command_witness :
  let s := start sim_good (aprom_bank halted_target) in
  let issued cmd addr wdata s' :=
    exists p p' a c v,
      trace s' =
        trace s
        ++ init_isp_events p p' a c
        ++ [Wr NUMICRO_FLASH_ISPCMD cmd; Wr NUMICRO_FLASH_ISPDAT wdata;
            Wr NUMICRO_FLASH_ISPADR addr; Wr NUMICRO_FLASH_ISPTRG 1;
            Rd NUMICRO_FLASH_ISPTRG 0; Rd NUMICRO_FLASH_ISPDAT v] in
  (exists s',
     numicro_handle_read_isp_command parse_zero ["0"%string] halted_target 7 s
     = Some (ERROR_OK, s') /\ issued 0x00 0 0 s') /\
  (exists s',
     numicro_handle_write_isp_command parse_zero ["0"%string; "0"%string]
       halted_target 7 s
     = Some (ERROR_OK, s') /\ issued 0x21 0 0 s') /\
  (exists s',
     numicro_handle_chip_erase_command [] halted_target 7 s
     = Some (ERROR_OK, s') /\ issued 0x26 0 0 s').
Proof.
  intros s.
  apply (isp_commands_issue_one_command parse_zero halted_target 7 s
           "0"%string "0"%string 0 0).
  - apply sim_respects_responsive; reflexivity.
  - reflexivity.
  - reflexivity.
  - reflexivity.
Defined.

Example numicro_protect_check_lock_bit_clear :
  let s := start sim_good (aprom_bank halted_target) in
  map sec_is_protected (bank_sectors (bank s)) = repeat 0 64 /\
  reads_of NUMICRO_FLASH_ISPDAT (trace_of (numicro_protect_check (7, 7) s))
  = [0; 0] /\
  (map sec_is_protected <$> (bank_sectors <$> bank_of (numicro_protect_check (7, 7) s)))
  = Some (repeat 1 64).
Proof. vm_compute. repeat split; reflexivity. Qed.

(** ** The catalog *)

Lemma numicro_parts_geometry : forallb part_geometry numicro_parts = true.
Proof. vm_compute. reflexivity. Qed.

Lemma numicro_parts_unique : NoDup (map partid numicro_parts).
Proof. apply (bool_decide_unpack _). vm_compute. exact I. Qed.

Lemma search_parts_unique parts p :
  NoDup (map partid parts) -> p ∈ parts ->
  search_parts (partid p) parts = Some p.
Proof.
  induction parts as [|q parts IH]; intros Hnd Hin; [by inversion Hin|].
  cbn [map] in Hnd. apply NoDup_cons in Hnd as [Hq Hnd].
  cbn [search_parts]. apply elem_of_cons in Hin as [->|Hin].
  - by rewrite Z.eqb_refl.
  - destruct (partid p =? partid q) eqn:E; [|by apply IH].
    apply Z.eqb_eq in E. exfalso. apply Hq. rewrite <- E.
    apply list_elem_of_fmap. by exists p.
Qed.

Lemma sectors_size_init_sectors n : forall offset,
  sectors_size (init_sectors n offset) = NUMICRO_PAGESIZE * Z.of_nat n.
Proof.
  induction n as [|n IH]; intros offset; [reflexivity|].
  unfold sectors_size in *. cbn [init_sectors foldr sec_size].
  rewrite IH. lia.
Qed.

(** X17: the catalog and the sectors of a probed bank.  Every entry of
    numicro_parts is the only one with its identifier, so the scan for a
    part's identifier finds that part.  It has four regions, which start
    at the program base 0, the data base 0x1F000, the loader base 0x100000
    and the configuration base 0x300000, in this order.  The sectors that
    numicro_probe lays out for a region, size / 512 of them, cover the
    region exactly when it is not the configuration region; the
    configuration region holds 4 or 8 bytes and gets no sector at all. *)
Theorem numicro_parts_tile_regions (p : numicro_cpu_type) :
  p ∈ numicro_parts ->
  search_parts (partid p) numicro_parts = Some p /\
  n_banks p = 4 /\
  map fb_base (cpu_bank p) = [0; 0x1F000; 0x100000; 0x300000] /\
  (forall region,
     region ∈ cpu_bank p ->
     let sectors := init_sectors (Z.to_nat (fb_size region / 512)) 0 in
     if fb_base region =? 0x300000
     then (fb_size region = 4 \/ fb_size region = 8) /\ sectors = []
     else sectors_size sectors = fb_size region).
Proof.
  intros Hin.
  split; [by apply search_parts_unique; [apply numicro_parts_unique|]|].
  pose proof numicro_parts_geometry as Hg.
  rewrite forallb_forall in Hg.
  apply list_elem_of_In in Hin. specialize (Hg p Hin).
  unfold part_geometry in Hg.
  apply andb_true_iff in Hg as [Hg Hregions].
  apply andb_true_iff in Hg as [Hn Hbases].
  apply Z.eqb_eq in Hn. apply bool_decide_eq_true in Hbases.
  split; [done|]. split; [exact Hbases|].
  intros region Hr sectors. subst sectors.
  rewrite forallb_forall in Hregions.
  apply list_elem_of_In in Hr. specialize (Hregions region Hr).
  unfold region_geometry in Hregions.
  change NUMICRO_CONFIG_BASE with 0x300000 in Hregions.
  change NUMICRO_PAGESIZE with 512 in Hregions.
  destruct (fb_base region =? 0x300000).
  - apply orb_true_iff in Hregions as [Hs|Hs]; apply Z.eqb_eq in Hs;
      rewrite Hs; split; auto.
  - apply andb_true_iff in Hregions as [Hpos Hmod].
    apply Z.leb_le in Hpos. apply Z.eqb_eq in Hmod.
    rewrite sectors_size_init_sectors.
    change NUMICRO_PAGESIZE with 512.
    pose proof (Z.div_mod (fb_size region) 512).
    assert (0 <= fb_size region / 512) by (apply Z.div_pos; lia).
    lia.
Qed.

Lemma numicro_parts_tile_regions_witness :
  let p := PART "M052LAN" 0x00005200
             (NUMICRO_BANKS_GENERAL (8 * 1024) (4 * 1024) (4 * 1024) 4) in
  search_parts (partid p) numicro_parts = Some p /\
  n_banks p = 4 /\
  map fb_base (cpu_bank p) = [0; 0x1F000; 0x100000; 0x300000] /\
  (forall region,
     region ∈ cpu_bank p ->
     let sectors := init_sectors (Z.to_nat (fb_size region / 512)) 0 in
     if fb_base region =? 0x300000
     then (fb_size region = 4 \/ fb_size region = 8) /\ sectors = []
     else sectors_size sectors = fb_size region).
Proof.
  intros p. apply (numicro_parts_tile_regions p).
  apply (list_elem_of_lookup_2 _ 0%nat). reflexivity.
Defined.

(** ** The bank command *)

(** X18: numicro_flash_bank_command touches no target.  With fewer than 6
    arguments it returns ERROR_COMMAND_SYNTAX_ERROR and changes nothing.
    Otherwise it returns ERROR_OK and resets the bank's private
    information to unprobed, with no part, keeping target, base, size and
    sectors; so the next numicro_auto_probe is a numicro_probe, also on a
    bank that was probed before. *)
Theorem numicro_flash_bank_command_unprobes {H : Type} `{Host H}
    (argc : Z) (s : St H) :
  exists r s',
    numicro_flash_bank_command argc s = Some (r, s') /\
    hw s' = hw s /\ trace s' = trace s /\
    (argc < 6 -> r = ERROR_COMMAND_SYNTAX_ERROR /\ s' = s) /\
    (6 <= argc ->
       r = ERROR_OK /\
       bank s' =
         {| bank_target := bank_target (bank s);
            bank_base := bank_base (bank s);
            bank_size := bank_size (bank s);
            bank_sectors := bank_sectors (bank s);
            bank_driver_priv := {| probed := false; cpu := None |} |} /\
       numicro_auto_probe s' = numicro_probe s').
Proof.
  unfold numicro_flash_bank_command.
  destruct (argc <? 6) eqn:E;
    [apply Z.ltb_lt in E|apply Z.ltb_ge in E].
  - exists ERROR_COMMAND_SYNTAX_ERROR, s. repeat split; auto; lia.
  - eexists _, _. split; [reflexivity|]. split; [reflexivity|].
    split; [reflexivity|]. split; [lia|]. intros _. by repeat split.
Qed.

Example numicro_flash_bank_command_probed_bank :
  let s := start (sim_part 0x00005200) (aprom_bank halted_target) in
  result_of (numicro_auto_probe s) = Some ERROR_OK /\
  trace_of (numicro_auto_probe s) = [] /\
  match numicro_flash_bank_command 6 s with
  | Some (_, s') => trace_of (numicro_auto_probe s')
  | None => []
  end = [Rd NUMICRO_SYS_BASE 0x00005200].
Proof. vm_compute. repeat split; reflexivity. Qed.

(** ** A failed run of the routine *)

Section Upload.

Context {H : Type} `{Host H}.
Variable A : event -> Prop.
Hypothesis HA : host_respects A.
Hypothesis Hup : forall e, A e -> upload_ok e.

Ltac step :=
  lazymatch goal with
  | |- emits _ (bind _ _) _ _ => apply emits_bind
  | |- emits _ (ret _) _ _ => apply emits_ret
  | |- emits _ get_bank _ _ => apply emits_get_bank
  | |- emits _ (target_write_buffer _ _ _ _) _ _ =>
      apply (emits_write_buffer A HA);
      let r := fresh "r" in let h := fresh "h" in let Hr := fresh "Hr" in
      intros r h Hr; apply Hup in Hr; cbn in Hr; subst r
  | |- emits _ (target_alloc_working_area _ _) _ _ =>
      apply (emits_alloc A HA);
      let r := fresh "r" in let h := fresh "h" in let Hr := fresh "Hr" in
      intros r ? h Hr; apply Hup in Hr; cbn in Hr; subst r
  | |- emits _ (target_free_working_area _ _) _ _ =>
      apply (emits_free A HA); intros ?
  | |- emits _ (target_run_algorithm _ _ _ _ _) _ _ =>
      apply (emits_run A HA); intros ? ? ?
  end.

(** The loop goes on while the runs succeed, and ends with the first run
    that fails. *)
Lemma writeblock_loop_runs t wa src bs rounds :
  forall buffer address count (s : St H),
  256 < bs -> (Z.to_nat count <= rounds)%nat ->
  emits A (writeblock_loop t wa src bs rounds buffer address count ERROR_OK) s
    (fun r evs _ =>
       (r = ERROR_OK /\ Forall accel_ok evs) \/
       (r = ERROR_FLASH_OPERATION_FAILED /\
        exists pre params rr,
          rr <> ERROR_OK /\ Forall accel_ok pre /\
          evs = pre ++ [EvRunAlgorithm params (wa_address wa) 0 100000 rr])).
Proof.
  induction rounds as [|n IH]; intros buffer address count s Hbs Hc;
    rewrite writeblock_loop_unfold.
  - destruct (0 <? count) eqn:E; [apply Z.ltb_lt in E; lia|].
    cbn [negb]. step. left. by split.
  - destruct (0 <? count) eqn:E; cbn [negb]; [|step; left; by split].
    apply Z.ltb_lt in E.
    assert (1 <= bs / 4) by (apply Z.div_le_lower_bound; lia).
    set (thisrun := if bs / 4 <? count then bs / 4 else count).
    assert (1 <= thisrun <= count) as Hrun.
    { unfold thisrun. destruct (bs / 4 <? count) eqn:E'; [|lia].
      apply Z.ltb_lt in E'. lia. }
    cbv zeta. fold thisrun. clearbody thisrun.
    step. step. cbn [is_ok negb].
    step. step.
    destruct (is_ok r) eqn:Er; cbn [negb].
    2:{ step. right. split; [done|]. apply is_ok_false in Er.
        eexists [_], _, r. split; [done|]. split; [|reflexivity].
        by repeat constructor. }
    apply is_ok_true in Er. subst r.
    eapply emits_mono; [apply IH; [done|lia]|].
    intros r evs s' _ _ [[-> Hall]|(-> & pre & params & rr & Hrr & Hpre & ->)].
    + left. split; [done|]. by repeat constructor.
    + right. split; [done|].
      eexists (_ :: _ :: pre), params, rr. split; [done|].
      split; [|reflexivity]. by repeat constructor.
Qed.

Lemma numicro_writeblock_runs buffer offset count (s : St H) :
  Z.land offset 1 = 0 ->
  emits A (numicro_writeblock buffer offset count) s (fun r evs _ =>
    exists wa src body,
      evs = [EvAlloc sizeof_numicro_flash_write_code ERROR_OK wa;
             EvWriteBuffer (wa_address wa) sizeof_numicro_flash_write_code
               numicro_flash_write_code ERROR_OK;
             EvAlloc (initial_buffer_size (bank_target (bank s))) ERROR_OK src]
            ++ body ++ [EvFree src; EvFree wa] /\
      ((r = ERROR_OK /\ Forall accel_ok body) \/
       (r = ERROR_FLASH_OPERATION_FAILED /\
        exists pre params rr,
          rr <> ERROR_OK /\ Forall accel_ok pre /\
          body = pre ++ [EvRunAlgorithm params (wa_address wa) 0 100000 rr]))).
Proof.
  intros Hal. unfold numicro_writeblock.
  step. step. rewrite Hal. cbn [negb Z.eqb]. rewrite initial_buffer_size_eq.
  step. step. cbn [is_ok negb].
  step. step. cbn [is_ok negb].
  destruct (initial_buffer_size_rounds (bank_target (bank s))) as [Hlo _].
  step. rewrite alloc_source_unfold.
  step. step. cbn [is_ok negb]. step. cbn [is_ok negb].
  step. eapply emits_mono; [apply writeblock_loop_runs; [done|lia]|].
  intros r evs s1 _ _ Hres.
  step. step. step. step. step.
  exists area, area0, evs. split; [same_log|]. exact Hres.
Qed.

End Upload.

Lemma sim_respects_upload_ok (c : sim_script) :
  (forall size, sim_alloc_ok c size = true) ->
  sim_write_buffer_ret c = ERROR_OK ->
  host_respects (H := sim_state c) upload_ok.
Proof.
  intros Ha Hb. split; try (intros; exact I).
  - intros h addr size data. simpl. by rewrite Hb.
  - intros h size. simpl. unfold sim_alloc_working_area. by rewrite Ha.
Qed.

(** X19: a failed run of the routine.  On a host that grants every working
    area and takes every upload, numicro_writeblock with an even offset
    returns either ERROR_OK, every run of the routine having succeeded, or
    ERROR_FLASH_OPERATION_FAILED, whatever the error of the run that
    failed: then that run is the last transfer, no further chunk is
    uploaded, and the data buffer and the image area are freed as on
    success. *)
Theorem numicro_writeblock_stops_at_failed_run {H : Type} `{Host H}
    (buffer : list byte) (offset count : Z) (s : St H) :
  host_respects upload_ok ->
  Z.land offset 1 = 0 ->
  exists r s' wa src body,
    numicro_writeblock buffer offset count s = Some (r, s') /\
    trace s' =
      trace s
      ++ [EvAlloc sizeof_numicro_flash_write_code ERROR_OK wa;
          EvWriteBuffer (wa_address wa) sizeof_numicro_flash_write_code
            numicro_flash_write_code ERROR_OK;
          EvAlloc (Z.max 1024 (working_area_size (bank_target (bank s)) / 2))
            ERROR_OK src]
      ++ body ++ [EvFree src; EvFree wa] /\
    ((r = ERROR_OK /\ Forall accel_ok body) \/
     (r = ERROR_FLASH_OPERATION_FAILED /\
      exists pre params rr,
        rr <> ERROR_OK /\ Forall accel_ok pre /\
        body = pre ++ [EvRunAlgorithm params (wa_address wa) 0 100000 rr])).
Proof.
  intros HA Hal.
  destruct (numicro_writeblock_runs upload_ok HA (fun e He => He)
              buffer offset count s Hal)
    as (r & s' & evs & Hrun & Htr & _ & _ & wa & src & body & -> & Hres).
  exists r, s', wa, src, body. split; [done|]. split; [exact Htr|exact Hres].
Qed.

Lemma numicro_writeblock_stops_at_failed_run_witness :
  let s := start sim_run_fails (aprom_bank halted_target) in
  exists r s' wa src body,
    numicro_writeblock (replicate 2400 x00%byte) 0 600 s = Some (r, s') /\
    trace s' =
      trace s
      ++ [EvAlloc sizeof_numicro_flash_write_code ERROR_OK wa;
          EvWriteBuffer (wa_address wa) sizeof_numicro_flash_write_code
            numicro_flash_write_code ERROR_OK;
          EvAlloc (Z.max 1024 (working_area_size (bank_target (bank s)) / 2))
            ERROR_OK src]
      ++ body ++ [EvFree src; EvFree wa] /\
    ((r = ERROR_OK /\ Forall accel_ok body) \/
     (r = ERROR_FLASH_OPERATION_FAILED /\
      exists pre params rr,
        rr <> ERROR_OK /\ Forall accel_ok pre /\
        body = pre ++ [EvRunAlgorithm params (wa_address wa) 0 100000 rr])).
Proof.
  intros s.
  apply (numicro_writeblock_stops_at_failed_run (replicate 2400 x00%byte)
           0 600 s).
  - apply sim_respects_upload_ok; reflexivity.
  - reflexivity.
Defined.

Example numicro_writeblock_failed_run :
  let out := numicro_writeblock (replicate 2400 x00%byte) 0 600
               (start sim_run_fails (aprom_bank halted_target)) in
  result_of out = Some ERROR_FLASH_OPERATION_FAILED /\
  length (trace_of out) = 7%nat /\
  live_areas [] (trace_of out) = [].
Proof. vm_compute. repeat split; reflexivity. Qed.

(** ** The alignment assertions *)

(** X20: the alignment assertions of numicro_write come after the
    initialisation and the write of the WRITE command.  On a halted
    target and any host, for any offset and count, aligned or not: when
    numicro_init_isp fails, numicro_write returns that error, in the state
    numicro_init_isp left; when it succeeds and the write of the WRITE
    command to the command register fails, numicro_write returns that
    error, in the state that write left; only when both have succeeded,
    with the initialisation and the command write in the log, does
    numicro_write have no result (one of its two assertions failing), and
    then exactly when the offset or the count is not a multiple of 4.  So
    a misaligned request stops the driver with the controller already in
    ISP mode, and on a host on which register accesses succeed it has no
    result exactly when it is misaligned. *)
Theorem numicro_write_asserts_alignment {H : Type} `{Host H}
    (buffer : list byte) (offset count : Z) (s : St H) :
  is_halted (state (bank_target (bank s))) = true ->
  (exists r1 s1,
     numicro_init_isp (bank_target (bank s)) s = Some (r1, s1) /\
     (r1 <> ERROR_OK ->
      numicro_write buffer offset count s = Some (r1, s1)) /\
     (r1 = ERROR_OK ->
      exists r2 s2 p p' a c,
        target_write_u32 (bank_target (bank s))
          NUMICRO_FLASH_ISPCMD ISPCMD_WRITE s1 = Some (r2, s2) /\
        trace s2 =
          trace s ++ init_isp_events p p' a c
          ++ [EvWriteU32 NUMICRO_FLASH_ISPCMD ISPCMD_WRITE r2] /\
        (r2 <> ERROR_OK ->
         numicro_write buffer offset count s = Some (r2, s2)) /\
        (r2 = ERROR_OK ->
         (numicro_write buffer offset count s = None <->
          offset mod 4 <> 0 \/ count mod 4 <> 0)))) /\
  (host_respects link_ok ->
   (numicro_write buffer offset count s = None <->
    offset mod 4 <> 0 \/ count mod 4 <> 0)).
Proof.
  intros Hh. set (t := bank_target (bank s)) in *.
  assert (forall s1 s2,
            numicro_init_isp t s = Some (ERROR_OK, s1) ->
            target_write_u32 t NUMICRO_FLASH_ISPCMD ISPCMD_WRITE s1
            = Some (ERROR_OK, s2) ->
            (numicro_write buffer offset count s = None <->
             offset mod 4 <> 0 \/ count mod 4 <> 0)) as Hiff.
  { intros s1 s2 Hrun1 Hrun2. split.
    - intros Hnone.
      destruct (decide (offset mod 4 = 0)) as [Ho|Ho]; [|by left].
      destruct (decide (count mod 4 = 0)) as [Hc|Hc]; [|by right].
      destruct (numicro_write_outcome any_host any_host_respected buffer
                  offset count s Hh Ho Hc)
        as (r & s' & evs' & Hrun & _).
      congruence.
    - intros Hmis.
      unfold numicro_write, check, bind, get_bank. fold t.
      rewrite Hh. cbn [negb]. rewrite Hrun1. cbn [is_ok]. rewrite Hrun2.
      cbn [is_ok].
      destruct (offset mod 4 =? 0) eqn:Eo; [|reflexivity].
      destruct (count mod 4 =? 0) eqn:Ec; [|reflexivity].
      apply Z.eqb_eq in Eo, Ec. by destruct Hmis. }
  split.
  - destruct (numicro_init_isp_outcome any_host any_host_respected t s Hh)
      as (r1 & s1 & evs & Hrun1 & Htr1 & _ & _ & Hok & _).
    exists r1, s1. split; [done|]. split.
    + intros Hne. apply is_ok_false in Hne.
      unfold numicro_write, check, bind, get_bank. fold t.
      rewrite Hh. cbn [negb]. rewrite Hrun1, Hne. reflexivity.
    + intros ->. destruct (Hok eq_refl) as (p & p' & a & c & ->).
      destruct (emits_write any_host any_host_respected t
                  NUMICRO_FLASH_ISPCMD ISPCMD_WRITE s1
                  (fun r evs _ =>
                     evs = [EvWriteU32 NUMICRO_FLASH_ISPCMD ISPCMD_WRITE r]))
        as (r2 & s2 & evs2 & Hrun2 & Htr2 & _ & _ & ->).
      { intros r h _. reflexivity. }
      exists r2, s2, p, p', a, c. split; [done|]. split.
      { rewrite Htr2, Htr1. by rewrite <- app_assoc. }
      split.
      * intros Hne. apply is_ok_false in Hne.
        unfold numicro_write, check, bind, get_bank. fold t.
        rewrite Hh. cbn [negb]. rewrite Hrun1. cbn [is_ok].
        rewrite Hrun2, Hne. reflexivity.
      * intros ->. by apply (Hiff s1 s2).
  - intros HA.
    destruct (numicro_init_isp_outcome link_ok HA t s Hh)
      as (r & s1 & evs & Hrun1 & _ & _ & Hall & _ & Hfail).
    assert (r = ERROR_OK) as ->.
    { destruct (decide (r = ERROR_OK)) as [|Hne]; [done|].
      destruct (stops_at_link_ok r evs (Hfail Hne) Hall). }
    destruct (emits_write link_ok HA t NUMICRO_FLASH_ISPCMD ISPCMD_WRITE s1
                (fun r _ _ => r = ERROR_OK))
      as (r & s2 & evs2 & Hrun2 & _ & _ & _ & ->).
    { intros r h Hr. exact Hr. }
    by apply (Hiff s1 s2).
Qed.

(** A misaligned write on a host whose link is down: the initialisation
    fails at its first read, and that error is the result. *)
Lemma numicro_write_asserts_alignment_witness :
  let link_down :=
    {| sim_regs := sim_regs sim_good;
       sim_read_ret := fun _ => ERROR_FAIL;
       sim_write_ret := fun _ => ERROR_OK;
       sim_write_memory_ret := ERROR_OK;
       sim_write_buffer_ret := ERROR_OK;
       sim_alloc_ok := fun _ => true;
       sim_run_ret := ERROR_OK;
       sim_busy_polls := 0 |} in
  let buffer := [x01; x02; x03; x04]%byte in
  let s := start link_down (aprom_bank halted_target) in
  (exists r1 s1,
     numicro_init_isp halted_target s = Some (r1, s1) /\
     (r1 <> ERROR_OK -> numicro_write buffer 2 4 s = Some (r1, s1)) /\
     (r1 = ERROR_OK ->
      exists r2 s2 p p' a c,
        target_write_u32 halted_target
          NUMICRO_FLASH_ISPCMD ISPCMD_WRITE s1 = Some (r2, s2) /\
        trace s2 =
          trace s ++ init_isp_events p p' a c
          ++ [EvWriteU32 NUMICRO_FLASH_ISPCMD ISPCMD_WRITE r2] /\
        (r2 <> ERROR_OK -> numicro_write buffer 2 4 s = Some (r2, s2)) /\
        (r2 = ERROR_OK ->
         (numicro_write buffer 2 4 s = None <->
          2 mod 4 <> 0 \/ 4 mod 4 <> 0)))) /\
  (host_respects (H := sim_state link_down) link_ok ->
   (numicro_write buffer 2 4 s = None <-> 2 mod 4 <> 0 \/ 4 mod 4 <> 0)).
Proof.
  intros link_down buffer s.
  apply (numicro_write_asserts_alignment buffer 2 4 s).
  reflexivity.
Defined.

(** The same misaligned request on three hosts: with the link down it
    returns the error of the first read; with only the command register
    refusing writes it returns that error after the initialisation; with
    everything working the assertion fails.  On a target that is not
    halted it returns the not-halted error. *)
Example numicro_write_misaligned_runs :
  let buffer := [x01; x02; x03; x04]%byte in
  let link_down :=
    {| sim_regs := sim_regs sim_good;
       sim_read_ret := fun _ => ERROR_FAIL;
       sim_write_ret := fun _ => ERROR_OK;
       sim_write_memory_ret := ERROR_OK;
       sim_write_buffer_ret := ERROR_OK;
       sim_alloc_ok := fun _ => true;
       sim_run_ret := ERROR_OK;
       sim_busy_polls := 0 |} in
  let command_refused :=
    {| sim_regs := sim_regs sim_good;
       sim_read_ret := fun _ => ERROR_OK;
       sim_write_ret := fun a =>
         if a =? NUMICRO_FLASH_ISPCMD then ERROR_FAIL else ERROR_OK;
       sim_write_memory_ret := ERROR_OK;
       sim_write_buffer_ret := ERROR_OK;
       sim_alloc_ok := fun _ => true;
       sim_run_ret := ERROR_OK;
       sim_busy_polls := 0 |} in
  let out1 := numicro_write buffer 2 4
                (start link_down (aprom_bank halted_target)) in
  let out2 := numicro_write buffer 2 4
                (start command_refused (aprom_bank halted_target)) in
  result_of out1 = Some ERROR_FAIL /\
  trace_of out1 = [EvReadU32 NUMICRO_SYS_WRPROT ERROR_FAIL 1] /\
  result_of out2 = Some ERROR_FAIL /\
  last (trace_of out2)
  = Some (EvWriteU32 NUMICRO_FLASH_ISPCMD ISPCMD_WRITE ERROR_FAIL) /\
  numicro_write buffer 2 4 (start sim_good (aprom_bank halted_target))
  = None /\
  result_of (numicro_write buffer 2 4
               (start sim_good (aprom_bank running_target)))
  = Some ERROR_TARGET_NOT_HALTED.
Proof. vm_compute. repeat split; reflexivity. Qed.
